(** * Meta Minds: the deterministic core, embedded and verified

    A shallow embedding of the deterministic parts of the Meta Minds
    pipeline:

    - [src/core/main.py]: [_trim_questions_to_exact_count], the question
      part of [format_output_final], the offline template generators,
      [_detect_rate_limiting], [run_crew_standard], the generation step of
      [main] and the results it hands to the reports, the modes of [main]
      with [process_quick_mode], [process_batch_mode],
      [run_analysis_workflow] and [get_smart_analysis_context_from_args],
      [process_datasets], [get_question_count_preferences] and
      [get_user_input_file_paths];
    - [src/core/cli_handler.py]: the attributes [parse_arguments] gives
      the [Namespace];
    - [src/core/data_loader.py]: [check_file_safety] and [read_file];
    - [src/core/data_analyzer.py]: [_analyze_column_intelligently],
      [generate_column_descriptions] and [generate_summary];
    - [src/core/context_collector.py]: [read_input_folder_context],
      [_parse_dataset_background], [_infer_subject_area],
      [get_quick_context], [_get_custom_enhanced_selection],
      [_save_context] and [load_recent_context].

    Python [str] values are modelled by [string]; a character is a code
    point below 256 (Latin-1), and the character classes below are the ones
    the Python runtime uses, restricted to that range. *)

From Stdlib Require Import String Ascii List Bool Arith NArith ZArith Lia.
From Stdlib Require Import DecimalString DecimalNat.
From Stdlib Require QArith.
Import ListNotations.

Local Open Scope list_scope.
Local Open Scope string_scope.

(* ===================================================================== *)
(** * Python string primitives *)
(* ===================================================================== *)

Module Py.

(** The line feed, the only separator [str.split] is used with on text. *)
Definition LF : ascii := Ascii.ascii_of_nat 10.
Definition nl : string := String LF "".

Definition ord (c : ascii) : N := N_of_ascii c.

Definition in_range (lo hi : N) (c : ascii) : bool :=
  ((lo <=? ord c) && (ord c <=? hi))%N.

(** [str.isspace] on one character, which is also the class [\s] of [re]
    on [str] patterns. *)
Definition isspace (c : ascii) : bool :=
  in_range 9 13 c || in_range 28 32 c || (ord c =? 133)%N || (ord c =? 160)%N.

(** The class [\d] of [re]: the decimal digits. *)
Definition isdecimal (c : ascii) : bool := in_range 48 57 c.

(** [str.isdigit] on one character: decimal digits and the superscript
    digits of Latin-1. *)
Definition isdigit_char (c : ascii) : bool :=
  isdecimal c || (ord c =? 178)%N || (ord c =? 179)%N || (ord c =? 185)%N.

(** [str.isalnum] on one character. *)
Definition isalnum_char (c : ascii) : bool :=
  isdigit_char c || in_range 188 190 c
  || in_range 65 90 c || in_range 97 122 c
  || (ord c =? 170)%N || (ord c =? 181)%N || (ord c =? 186)%N
  || in_range 192 214 c || in_range 216 246 c || in_range 248 255 c.

(** The class [\w] of [re], and its complement [\W]. *)
Definition isword (c : ascii) : bool := isalnum_char c || (ord c =? 95)%N.
Definition isnonword (c : ascii) : bool := negb (isword c).

(** [str.lower] on one character. *)
Definition lower_char (c : ascii) : ascii :=
  if in_range 65 90 c || in_range 192 214 c || in_range 216 222 c
  then ascii_of_N (ord c + 32) else c.

Fixpoint lower (s : string) : string :=
  match s with
  | EmptyString => EmptyString
  | String c s' => String (lower_char c) (lower s')
  end.

Definition is_empty (s : string) : bool :=
  match s with EmptyString => true | String _ _ => false end.

(** Truthiness of a [str]. *)
Definition truthy (s : string) : bool := negb (is_empty s).

Fixpoint drop_while (p : ascii -> bool) (s : string) : string :=
  match s with
  | EmptyString => EmptyString
  | String c s' => if p c then drop_while p s' else s
  end.

Fixpoint take_while (p : ascii -> bool) (s : string) : string :=
  match s with
  | EmptyString => EmptyString
  | String c s' => if p c then String c (take_while p s') else EmptyString
  end.

Fixpoint forallb_str (p : ascii -> bool) (s : string) : bool :=
  match s with
  | EmptyString => true
  | String c s' => p c && forallb_str p s'
  end.

Definition lstrip (s : string) : string := drop_while isspace s.

Fixpoint rstrip (s : string) : string :=
  match s with
  | EmptyString => EmptyString
  | String c s' =>
      let r := rstrip s' in
      if is_empty r && isspace c then EmptyString else String c r
  end.

Definition strip (s : string) : string := rstrip (lstrip s).

(** [str.isdigit]: every character is a digit and there is at least one. *)
Definition isdigit (s : string) : bool := truthy s && forallb_str isdigit_char s.

(** [p in s]. *)
Fixpoint contains (p s : string) : bool :=
  prefix p s ||
  match s with
  | EmptyString => false
  | String _ s' => contains p s'
  end.

Definition startswith (s p : string) : bool := prefix p s.

(** [s.split(sep)] for a one-character separator: never the empty list. *)
Fixpoint split (sep : ascii) (s : string) : list string :=
  match s with
  | EmptyString => [EmptyString]
  | String c s' =>
      if Ascii.eqb c sep then EmptyString :: split sep s'
      else match split sep s' with
           | [] => [String c EmptyString]
           | l :: ls => String c l :: ls
           end
  end.

(** [sep.join(parts)]. *)
Fixpoint join (sep : string) (parts : list string) : string :=
  match parts with
  | [] => EmptyString
  | p :: rest =>
      match rest with
      | [] => p
      | _ :: _ => p ++ sep ++ join sep rest
      end
  end.

Fixpoint skip (n : nat) (s : string) : string :=
  match n, s with
  | O, _ => s
  | S _, EmptyString => EmptyString
  | S n', String _ s' => skip n' s'
  end.

(** [s[:n]] for a non-negative [n]. *)
Fixpoint take (n : nat) (s : string) : string :=
  match n, s with
  | O, _ => EmptyString
  | S _, EmptyString => EmptyString
  | S n', String c s' => String c (take n' s')
  end.

(** [s.split(sep, 1)]: cut at the first occurrence of [sep], if any. *)
Fixpoint split_once (sep s : string) : list string :=
  if prefix sep s then [EmptyString; skip (String.length sep) s]
  else match s with
       | EmptyString => [EmptyString]
       | String c s' =>
           match split_once sep s' with
           | [a; b] => [String c a; b]
           | _ => [s]
           end
       end.

(** [str(n)] and [int(s)] for non-negative numbers. *)
Definition str_of_nat (n : nat) : string := NilZero.string_of_uint (Nat.to_uint n).
Definition str_of_Z (z : Z) : string := NilZero.string_of_int (Z.to_int z).

Definition digit_value (c : ascii) : nat := N.to_nat (ord c) - 48.

Fixpoint digits_value (acc : nat) (s : string) : nat :=
  match s with
  | EmptyString => acc
  | String c s' => digits_value (10 * acc + digit_value c) s'
  end.

Definition int_of_digits (s : string) : nat := digits_value 0 s.

Fixpoint rev_onto (s acc : string) : string :=
  match s with
  | EmptyString => acc
  | String c s' => rev_onto s' (String c acc)
  end.

Definition rev_str (s : string) : string := rev_onto s EmptyString.

(** Commas between groups of three, on the digits written backwards. *)
Fixpoint group_rev (digits : string) : string :=
  match digits with
  | String a (String b (String c (String _ _ as more))) =>
      String a (String b (String c (String "," (group_rev more))))
  | _ => digits
  end.

(** The [,] option of a format specification, on a string of digits. *)
Definition group_thousands (digits : string) : string :=
  rev_str (group_rev (rev_str digits)).

Fixpoint zeros (n : nat) : string :=
  match n with
  | O => EmptyString
  | S n' => String "0" (zeros n')
  end.

Definition pad_left_zeros (width : nat) (digits : string) : string :=
  zeros (width - String.length digits) ++ digits.

(** The nearest integer to [num/den] for [0 <= num] and [0 < den], ties
    going to the even one: how a number that is exactly representable is
    rounded when it is formatted. *)
Definition round_half_even (num den : Z) : Z :=
  let q := (num / den)%Z in
  let r := (num mod den)%Z in
  if (2 * r <? den)%Z then q
  else if (den <? 2 * r)%Z then (q + 1)%Z
  else if Z.even q then q else (q + 1)%Z.

(** [f"{x:.{d}f}"], and [f"{x:,.{d}f}"] when [grouping], for the number
    [x = num/den]. *)
Definition format_fixed (grouping : bool) (d : nat) (num : Z) (den : positive) : string :=
  let scale := (10 ^ Z.of_nat d)%Z in
  let scaled := round_half_even (Z.abs num * scale) (Z.pos den) in
  let int_digits := str_of_Z (scaled / scale) in
  (if (num <? 0)%Z then "-" else "")
  ++ (if grouping then group_thousands int_digits else int_digits)
  ++ match d with
     | O => ""
     | S _ => "." ++ pad_left_zeros d (str_of_Z (scaled mod scale))
     end.

(** [f"{n:,}"] for an integer. *)
Definition format_int_grouped (n : Z) : string :=
  (if (n <? 0)%Z then "-" else "") ++ group_thousands (str_of_Z (Z.abs n)).

(** The characters of a number written without grouping. *)
Definition numeric_char (c : ascii) : bool :=
  isdecimal c || Ascii.eqb c "-" || Ascii.eqb c ".".

(** A string of decimal digits. *)
Definition decimal (s : string) : Prop := forallb_str isdecimal s = true.

(** No character of [s] is [c]. *)
Definition no_char (c : ascii) (s : string) : bool :=
  forallb_str (fun x => negb (Ascii.eqb x c)) s.

(** Line by line, [ls] holds prefixes of the first lines of [ls']: how the
    lines of [rstrip s] relate to the lines of [s]. *)
Fixpoint lines_below (ls ls' : list string) : Prop :=
  match ls, ls' with
  | [], _ => True
  | _ :: _, [] => False
  | l :: t, l' :: t' => prefix l l' = true /\ lines_below t t'
  end.

(** [l[:n]] for any integer [n]. *)
Definition slice_to {A : Type} (n : Z) (l : list A) : list A :=
  if (0 <=? n)%Z then firstn (Z.to_nat n) l
  else firstn (Z.to_nat (Z.of_nat (List.length l) + n)) l.

End Py.

(* ===================================================================== *)
(** * The question-block normalizer ([src/core/main.py]) *)
(* ===================================================================== *)

Module Normalizer.
Import Py.

Definition is_closer (c : ascii) : bool := Ascii.eqb c "." || Ascii.eqb c ")".

(** What follows a match of [^\s*\d+[\.\)]] at the start of [line], if the
    pattern matches.  The classes [\s], [\d] and [[\.\)]] are pairwise
    disjoint, so the greedy match is the only one. *)
Definition after_number (line : string) : option string :=
  match drop_while isspace line with
  | EmptyString => None
  | String d _ as s1 =>
      if isdecimal d then
        match drop_while isdecimal s1 with
        | EmptyString => None
        | String p rest => if is_closer p then Some rest else None
        end
      else None
  end.

(** [re.match(r'^\s*(\d+)[\.\)]\s+', line)] (line 383), as a truth value. *)
Definition question_start (line : string) : bool :=
  match after_number line with
  | Some (String c _) => isspace c
  | _ => false
  end.

(** [re.match(r'^\s*\d+[\.\)]', line)] (line 412), as a truth value. *)
Definition header_end (line : string) : bool :=
  match after_number line with
  | Some _ => true
  | None => false
  end.

(** Group 1 of the pattern of line 383: the number an item is written
    with.  The source captures it and never reads it. *)
Definition written_number (line : string) : option nat :=
  if question_start line
  then Some (int_of_digits (take_while isdecimal (drop_while isspace line)))
  else None.

(** [not line.strip()]. *)
Definition blank (line : string) : bool := is_empty (strip line).

(** The three variables of the loop of lines 377-398. *)
Record scan : Type := Scan {
  question_lines : list string;
  current_question : list string;
  in_question : bool
}.

Definition scan0 : scan := Scan [] [] false.

(** [if current_question: question_lines.append('\n'.join(current_question))] *)
Definition flush (st : scan) : list string :=
  match current_question st with
  | [] => question_lines st
  | _ :: _ => (question_lines st ++ [join nl (current_question st)])%list
  end.

(** One iteration of the loop over the lines. *)
Definition scan_line (st : scan) (line : string) : scan :=
  if question_start line then
    Scan (flush st) [line] true
  else if in_question st && negb (blank line) then
    Scan (question_lines st) (current_question st ++ [line])%list (in_question st)
  else if blank line && negb (match current_question st with [] => true | _ => false end) then
    Scan (question_lines st ++ [join nl (current_question st)])%list [] false
  else st.

(** The value of [question_lines] at line 403, before trimming. *)
Definition extract_questions (lines : list string) : list string :=
  flush (fold_left scan_line lines scan0).

(** Lines 405-407. *)
Definition trim_to_count (expected_count : Z) (qs : list string) : list string :=
  if (Z.of_nat (List.length qs) >? expected_count)%Z
  then slice_to expected_count qs
  else qs.

(** Lines 410-414: the lines before the first numbered one. *)
Fixpoint header_lines (lines : list string) : list string :=
  match lines with
  | [] => []
  | line :: rest => if header_end line then [] else line :: header_lines rest
  end.

(** The lines of one item: a numbered line, then lines that are neither
    numbered nor blank; none of them holds a line feed. *)
Definition continuation (line : string) : Prop :=
  question_start line = false /\ blank line = false.

Definition item_shape (item : list string) : Prop :=
  match item with
  | [] => False
  | first :: more => question_start first = true /\ Forall continuation more
  end.

Definition well_formed_item (item : list string) : Prop :=
  item_shape item /\ Forall (fun line => no_char LF line = true) item.

(** The lines of a text that holds the items [items], one empty line
    between two of them. *)
Fixpoint interleave (items : list (list string)) : list string :=
  match items with
  | [] => [EmptyString]
  | item :: rest =>
      match rest with
      | [] => item
      | _ :: _ => (item ++ EmptyString :: interleave rest)%list
      end
  end.

(** [part] is a run of consecutive lines of [whole]. *)
Definition consecutive_in (part whole : list string) : Prop :=
  exists before after, whole = (before ++ part ++ after)%list.

(** A well-formed item taken verbatim from the lines [seen]. *)
Definition item_of (seen item : list string) : Prop :=
  well_formed_item item /\ consecutive_in item seen.

(** What the loop of lines 381-398 maintains, [seen] being the lines
    already read. *)
Definition scan_inv (seen : list string) (st : scan) : Prop :=
  (exists items, question_lines st = map (join nl) items
                 /\ Forall (item_of seen) items)
  /\ ((current_question st = [] /\ in_question st = false)
      \/ (well_formed_item (current_question st) /\ in_question st = true
          /\ exists before, seen = (before ++ current_question st)%list)).

(** The numbers a list of items is written with. *)
Definition written_positions (items : list string) : list (option nat) :=
  map written_number items.

(** The items are written with the numbers 1, 2, 3, ... *)
Definition numbered_from_1 (items : list string) : Prop :=
  written_positions items = map Some (seq 1 (List.length items)).

(** The items of [text], in order of first appearance. *)
Definition extracted_items (text : string) : list string :=
  extract_questions (split LF text).

(** The value of [question_lines] at line 417, after trimming. *)
Definition trimmed_questions (result_text : string) (expected_count : Z) : list string :=
  trim_to_count expected_count (extracted_items result_text).

(** [_trim_questions_to_exact_count] (lines 361-419).  The warning it logs
    when it trims is not modelled. *)
Definition _trim_questions_to_exact_count (result_text : string) (expected_count : Z) : string :=
  let lines := split LF result_text in
  rstrip (join nl (header_lines lines)) ++ (nl ++ nl)
    ++ join (nl ++ nl) (trimmed_questions result_text expected_count).

End Normalizer.

(* ===================================================================== *)
(** * The question part of [format_output_final] ([src/core/main.py]) *)
(* ===================================================================== *)

Module Formatter.
Import Py.

(** Lines 689-693. *)
Definition cleaned_lines (header content_str : string) : list string :=
  filter (fun line => negb (contains (strip header) line) && negb (is_empty (strip line)))
         (split LF content_str).

(** Lines 702-713: the branch taken when the line is not split at [". "]
    into a number and a rest. *)
Definition strip_leading_digits (line : string) : string :=
  let line_stripped := strip line in
  match line_stripped with
  | EmptyString => line_stripped
  | String c _ =>
      if isdigit_char c then
        if isdecimal c
        then strip (drop_while isnonword (drop_while isdecimal line_stripped))
        else line_stripped
      else line_stripped
  end.

(** Lines 698-713: one line of the result, without its numbering. *)
Definition format_question (line : string) : string :=
  match split_once ". " line with
  | [p0; p1] => if isdigit (strip p0) then strip p1 else strip_leading_digits line
  | _ => strip_leading_digits line
  end.

Definition formatted_questions (header content_str : string) : list string :=
  map format_question (cleaned_lines header content_str).

(** [enumerate(formatted_questions, start=1)] rendered as [f"{idx}. {question}"]. *)
Fixpoint number_from (idx : nat) (questions : list string) : list string :=
  match questions with
  | [] => []
  | q :: rest => (str_of_nat idx ++ ". " ++ q) :: number_from (S idx) rest
  end.

(** Lines 679-725: what one (header, content) pair appends to the output. *)
Definition format_task_result (header content : string) : list string :=
  let content_str := strip content in
  (nl ++ strip header) ::
  if startswith (lower content_str) "error executing task" then [content_str]
  else
    match formatted_questions header content_str with
    | [] =>
        if truthy content_str
        then ["[Task completed, but generated unexpected or unparseable output.]"]
        else ["[Task completed, generated no output content.]"]
    | qs => number_from 1 qs
    end.

(** The questions [format_output_final] prints for one task. *)
Definition final_items (header content : string) : list string :=
  formatted_questions header (strip content).

(** The numbered lines it prints for them. *)
Definition final_block (header content : string) : list string :=
  number_from 1 (final_items header content).

End Formatter.

(* ===================================================================== *)
(** * The context extractor ([src/core/context_collector.py]) *)
(* ===================================================================== *)

Module Context.
Import Py.

(** Modelled from the spec: the [DatasetContext] dataclass of
    [smart_question_generator.py], which is not among the sources.  The six
    fields are the ones [_parse_dataset_background] sets; the extended
    fields keep their empty defaults and are not represented. *)
Record DatasetContext : Type := {
  subject_area : string;
  analysis_objectives : list string;
  target_audience : string;
  business_context : string;
  dataset_background : string;
  time_sensitivity : string
}.

(** [any(keyword in line for keyword in keywords)]. *)
Definition any_in (keywords : list string) (line : string) : bool :=
  existsb (fun keyword => contains keyword line) keywords.

(** The fields the loop of lines 96-131 updates. *)
Record fields : Type := Fields {
  f_subject_area : string;
  f_analysis_objectives : list string;
  f_target_audience : string;
  f_time_sensitivity : string
}.

Definition append_if (b : bool) (x : string) (l : list string) : list string :=
  if b then (l ++ [x])%list else l.

(** One iteration of the loop of lines 96-131. *)
Definition parse_line (acc : fields) (raw_line : string) : fields :=
  let line := strip raw_line in
  let subject :=
    if any_in ["financial"; "finance"; "asset"; "revenue"; "profit"] line
    then "financial analysis"
    else if any_in ["sales"; "revenue"; "pipeline"; "customer"] line
    then "sales performance"
    else if any_in ["marketing"; "campaign"; "brand"; "customer acquisition"] line
    then "marketing analytics"
    else if any_in ["operational"; "operations"; "efficiency"; "process"] line
    then "operational analytics"
    else f_subject_area acc in
  let objectives :=
    append_if (contains "optimization" line) "optimization analysis"
      (append_if (contains "trend" line) "trend analysis"
        (append_if (contains "performance" line
                    && (contains "evaluation" line || contains "analysis" line))
                   "performance evaluation"
          (append_if (contains "risk" line && contains "assessment" line)
                     "risk assessment" (f_analysis_objectives acc)))) in
  let audience :=
    if contains "executive" line then "executives"
    else if contains "manager" line then "managers"
    else if contains "analyst" line then "analysts"
    else f_target_audience acc in
  let urgency :=
    if contains "urgent" line || contains "high" line then "high"
    else if contains "low" line then "low"
    else f_time_sensitivity acc in
  Fields subject objectives audience urgency.

(** [_parse_dataset_background] (lines 73-155).  No operation of its body
    raises on [str] arguments, so the handler of lines 153-155 is never
    entered and the result is always a record. *)
Definition _parse_dataset_background (background_text message_text : string)
  : option DatasetContext :=
  let lines := split LF (lower background_text) in
  let business :=
    if (500 <? String.length background_text)%nat
    then take 500 background_text ++ "..."
    else background_text in
  let acc := fold_left parse_line lines
               (Fields "general analysis" [] "analysts" "medium") in
  let objectives :=
    match f_analysis_objectives acc with
    | [] => ["general analysis"]
    | objs => objs
    end in
  let business :=
    if truthy message_text
    then "Senior Instructions: " ++ take 200 message_text
         ++ "... | Background: " ++ take 300 background_text ++ "..."
    else business in
  Some {| subject_area := f_subject_area acc;
          analysis_objectives := objectives;
          target_audience := f_target_audience acc;
          business_context := business;
          dataset_background := background_text;
          time_sensitivity := f_time_sensitivity acc |}.

(** What the file system shows of one of the two text files. *)
Inductive text_file : Type :=
| Absent                       (* [os.path.exists] is false *)
| Unreadable (error : string)  (* [open] or [read] raises *)
| Content (text : string).     (* what [f.read()] returns *)

Record input_folder : Type := {
  folder_exists : bool;
  Dataset_Background_txt : text_file;
  message_txt : text_file
}.

(** Lines 50-57: the text of a file, stripped; the empty text when the
    file is absent; an exception when it cannot be read. *)
Definition read_stripped (f : text_file) : string + string :=
  match f with
  | Absent => inl EmptyString
  | Unreadable e => inr e
  | Content text => inl (strip text)
  end.

(** Lines 30-67, the body of the [try]; [inr] is a raised exception. *)
Definition read_input_folder_context_body (env : input_folder)
  : option DatasetContext + string :=
  if negb (folder_exists env) then inl None
  else
    match read_stripped (Dataset_Background_txt env) with
    | inr e => inr e
    | inl dataset_background =>
        match read_stripped (message_txt env) with
        | inr e => inr e
        | inl senior_message =>
            if truthy dataset_background
               && (50 <? String.length dataset_background)%nat
            then
              match _parse_dataset_background dataset_background senior_message with
              | Some context => inl (Some context)
              | None => inl None
              end
            else inl None
        end
    end.

(** [read_input_folder_context] (lines 23-71): the handler of lines 69-71
    turns every exception into [None]. *)
Definition read_input_folder_context (env : input_folder) : option DatasetContext :=
  match read_input_folder_context_body env with
  | inl result => result
  | inr _ => None
  end.

(** The two texts the extractor works on. *)
Definition background_text (env : input_folder) : string + string :=
  read_stripped (Dataset_Background_txt env).

End Context.

(* ===================================================================== *)
(** * The offline template generator ([src/core/main.py]) *)
(* ===================================================================== *)

Module Offline.
Import Py.

(** The list of lines 530-546. *)
Definition assets_questions : list string :=
  [
    "1. What specific trends and patterns can be identified in airline current assets over the 2013-2023 period?";
    "2. How do current asset levels correlate with seasonal variations in airline operations?";
    "3. What measurable insights can be extracted from current asset data to guide financial risk assessment?";
    "4. In what ways do current asset patterns reveal unexpected relationships or anomalies across different carriers?";
    "5. How can current asset information be leveraged to predict future financial stability for airline executives?";
    "6. What key performance indicators emerge from analyzing current asset trends for risk management?";
    "7. How do seasonal or temporal variations manifest in current asset data across different quarters?";
    "8. What factors contribute most significantly to the variations observed in current asset levels?";
    "9. In what ways can current asset data inform strategic business decisions for airline executives?";
    "10. How do different airline carriers compare in terms of current asset management efficiency?";
    "11. What are the critical current asset thresholds that indicate financial risk for airline operations?";
    "12. How do current asset trends differ between pre-COVID, during-COVID, and post-COVID periods?";
    "13. What current asset patterns can be used to identify airlines at risk of financial distress?";
    "14. How do current asset levels correlate with overall airline financial performance metrics?";
    "15. What actionable insights can executives derive from current asset analysis for strategic planning?"
  ].

(** The list of lines 548-564. *)
Definition liabilities_questions : list string :=
  [
    "1. What specific trends and patterns can be identified in airline current liabilities over the 2013-2023 period?";
    "2. How do current liability levels correlate with seasonal variations in airline operations?";
    "3. What measurable insights can be extracted from current liability data to guide financial risk assessment?";
    "4. In what ways do current liability patterns reveal unexpected relationships or anomalies across different carriers?";
    "5. How can current liability information be leveraged to predict future financial stability for airline executives?";
    "6. What key performance indicators emerge from analyzing current liability trends for risk management?";
    "7. How do seasonal or temporal variations manifest in current liability data across different quarters?";
    "8. What factors contribute most significantly to the variations observed in current liability levels?";
    "9. In what ways can current liability data inform strategic business decisions for airline executives?";
    "10. How do different airline carriers compare in terms of current liability management efficiency?";
    "11. What are the critical current liability thresholds that indicate financial risk for airline operations?";
    "12. How do current liability trends differ between pre-COVID, during-COVID, and post-COVID periods?";
    "13. What current liability patterns can be used to identify airlines at risk of financial distress?";
    "14. How do current liability levels correlate with overall airline financial performance metrics?";
    "15. What actionable insights can executives derive from current liability analysis for strategic planning?"
  ].

(** The list of lines 566-582. *)
Definition ratio_questions : list string :=
  [
    "1. What specific trends and patterns can be identified in airline current ratios over the 2013-2023 period?";
    "2. How do current ratio levels correlate with seasonal variations in airline operations?";
    "3. What measurable insights can be extracted from current ratio data to guide financial risk assessment?";
    "4. In what ways do current ratio patterns reveal unexpected relationships or anomalies across different carriers?";
    "5. How can current ratio information be leveraged to predict future financial stability for airline executives?";
    "6. What key performance indicators emerge from analyzing current ratio trends for risk management?";
    "7. How do seasonal or temporal variations manifest in current ratio data across different quarters?";
    "8. What factors contribute most significantly to the variations observed in current ratio levels?";
    "9. In what ways can current ratio data inform strategic business decisions for airline executives?";
    "10. How do different airline carriers compare in terms of current ratio management efficiency?";
    "11. What are the critical current ratio thresholds that indicate financial risk for airline operations?";
    "12. How do current ratio trends differ between pre-COVID, during-COVID, and post-COVID periods?";
    "13. What current ratio patterns can be used to identify airlines at risk of financial distress?";
    "14. How do current ratio levels correlate with overall airline financial performance metrics?";
    "15. What actionable insights can executives derive from current ratio analysis for strategic planning?"
  ].

(** The list of lines 584-600. *)
Definition generic_questions (dataset_name : string) : list string :=
  [
    "1. What specific trends and patterns can be identified in the " ++ dataset_name ++ " dataset over time?";
    "2. How do different variables in the " ++ dataset_name ++ " dataset correlate with each other?";
    "3. What measurable insights can be extracted from the " ++ dataset_name ++ " dataset to guide decision-making?";
    "4. In what ways do the data points in " ++ dataset_name ++ " reveal unexpected relationships or anomalies?";
    "5. How can the information in the " ++ dataset_name ++ " dataset be leveraged to predict future outcomes?";
    "6. What key performance indicators emerge from analyzing the " ++ dataset_name ++ " dataset?";
    "7. How do seasonal or temporal variations manifest in the " ++ dataset_name ++ " data?";
    "8. What factors contribute most significantly to the variations observed in " ++ dataset_name ++ "?";
    "9. In what ways can the " ++ dataset_name ++ " dataset inform strategic business decisions?";
    "10. How do different segments or categories within " ++ dataset_name ++ " compare in terms of key metrics?";
    "11. What are the critical thresholds that indicate risk in the " ++ dataset_name ++ " dataset?";
    "12. How do trends in " ++ dataset_name ++ " differ across different time periods?";
    "13. What patterns in " ++ dataset_name ++ " can be used to identify potential issues?";
    "14. How do " ++ dataset_name ++ " metrics correlate with overall performance indicators?";
    "15. What actionable insights can be derived from " ++ dataset_name ++ " analysis for strategic planning?"
  ].

(** The list of lines 616-627. *)
Definition comparison_questions : list string :=
  [
    "1. How do the key performance metrics compare across Assets.csv, Liabilities.csv, and Top_10_Ratio.csv?";
    "2. What are the significant differences in trends between the three airline financial datasets?";
    "3. Which dataset shows the strongest correlation patterns and why?";
    "4. How do the data quality and completeness compare across all three datasets?";
    "5. What insights emerge when analyzing all three datasets together for airline financial risk assessment?";
    "6. Which dataset contains the most actionable insights for financial analysis and executive decision-making?";
    "7. How do the temporal patterns differ between Assets, Liabilities, and Ratio datasets?";
    "8. What cross-dataset relationships can be identified for airline executives and risk management?";
    "9. Which dataset provides the most reliable predictions for future airline financial outcomes?";
    "10. How do the anomaly patterns compare across all three airline financial datasets?"
  ].

(** The [if]/[elif] chain of lines 529-600. *)
Definition template_questions (dataset_name : string) : list string :=
  if contains "Assets" dataset_name then assets_questions
  else if contains "Liabilities" dataset_name then liabilities_questions
  else if contains "Ratio" dataset_name then ratio_questions
  else generic_questions dataset_name.

(** The value of [all_questions] at line 603. *)
Definition individual_questions (dataset_name : string) (num_questions : Z) : list string :=
  slice_to num_questions (template_questions dataset_name).

(** [_generate_offline_individual_result] (lines 516-605); [context] is not
    read by the source. *)
Definition _generate_offline_individual_result
    (dataset_name : string) (context : Context.DatasetContext) (num_questions : Z) : string :=
  let header := "--- Enhanced Questions for " ++ dataset_name ++ " ---" in
  header ++ (nl ++ nl) ++ join nl (individual_questions dataset_name num_questions).

(** The value of [questions] at line 630. *)
Definition comparison_slice (num_questions : Z) : list string :=
  slice_to num_questions comparison_questions.

(** [_generate_offline_comparison_result] (lines 607-632). *)
Definition _generate_offline_comparison_result
    (context : Context.DatasetContext) (num_questions : Z) : string :=
  let header := "--- Enhanced Comparison Questions ---" in
  header ++ (nl ++ nl) ++ join nl (comparison_slice num_questions).

(** What the source reads of a CrewAI [Task]. *)
Record Task : Type := {
  description : string;
  expected_output : string
}.

(** Line 492: the count for task [i]. *)
Definition expected_count_for (question_counts : option (list Z)) (i : nat) : Z :=
  match question_counts with
  | Some ((_ :: _) as counts) => nth i counts 15%Z
  | _ => 15%Z
  end.

(** Lines 495-503. *)
Definition dataset_name_of (task : Task) : string :=
  if contains "Assets.csv" (description task) then "Assets.csv"
  else if contains "Liabilities.csv" (description task) then "Liabilities.csv"
  else if contains "Top_10_Ratio.csv" (description task) then "Top_10_Ratio.csv"
  else if contains "comparison" (lower (description task)) then "Cross-Dataset Comparison"
  else "Unknown Dataset".

(** Lines 506-509: the result for one task. *)
Definition offline_result (task : Task) (context : Context.DatasetContext)
    (expected_count : Z) : string :=
  if contains "comparison" (lower (description task))
  then _generate_offline_comparison_result context expected_count
  else _generate_offline_individual_result (dataset_name_of task) context expected_count.

Fixpoint offline_results_from (i : nat) (tasks : list Task)
    (context : Context.DatasetContext) (question_counts : option (list Z)) : list string :=
  match tasks with
  | [] => []
  | task :: rest =>
      offline_result task context (expected_count_for question_counts i)
        :: offline_results_from (S i) rest context question_counts
  end.

(** [_generate_offline_results] (lines 476-514). *)
Definition _generate_offline_results (tasks : list Task)
    (context : Context.DatasetContext) (question_counts : option (list Z)) : list string :=
  offline_results_from 0 tasks context question_counts.

End Offline.

(* ===================================================================== *)
(** * The generation step of [main] ([src/core/main.py]) *)
(* ===================================================================== *)

Module Main.
Import Py Offline.

(** [_detect_rate_limiting] (lines 470-474). *)
Definition _detect_rate_limiting (_ : unit) : bool := true.

(** [crew.kickoff()] for the crew built around one task: the text of the
    result, or the text of the exception it raises. *)
Definition kickoff := Task -> string + string.

(** Line 441. *)
Definition task_identifier (i : nat) (task : Task) : string :=
  if truthy (expected_output task) then expected_output task
  else "Task " ++ str_of_nat (i + 1).

(** Line 457: the count to trim task [i] to, if any. *)
Definition count_to_trim (question_counts : option (list Z)) (i : nat) : option Z :=
  match question_counts with
  | Some ((_ :: _) as counts) => nth_error counts i
  | _ => None
  end.

(** Lines 444-465: the entry of [task_results] for task [i]. *)
Definition crew_result (run : kickoff) (i : nat) (task : Task)
    (question_counts : option (list Z)) : string :=
  match run task with
  | inl result_str =>
      match count_to_trim question_counts i with
      | Some expected_count =>
          Normalizer._trim_questions_to_exact_count result_str expected_count
      | None => result_str
      end
  | inr e => "Error executing task '" ++ task_identifier i task ++ "': " ++ e
  end.

Fixpoint crew_results_from (run : kickoff) (i : nat) (tasks : list Task)
    (question_counts : option (list Z)) : list string :=
  match tasks with
  | [] => []
  | task :: rest =>
      crew_result run i task question_counts
        :: crew_results_from run (S i) rest question_counts
  end.

(** [run_crew_standard] (lines 422-468); the roster of agents only reaches
    the crew, which is the argument [run] here. *)
Definition run_crew_standard (run : kickoff) (tasks : list Task)
    (question_counts : option (list Z)) : list string :=
  crew_results_from run 0 tasks question_counts.

(** Which of the two producers of question text ran. *)
Inductive producer : Type :=
| NoTasks            (* line 1007 *)
| OfflineTemplates   (* line 1025 *)
| ExternalCrew.      (* line 1031 *)

(** Lines 1017-1019. *)
Definition main_question_counts (individual_question_count : Z)
    (individual_tasks : list Task) (comparison : option (Task * Z)) : list Z :=
  (repeat individual_question_count (List.length individual_tasks)
   ++ match comparison with
      | Some (_, comparison_question_count) => [comparison_question_count]
      | None => []
      end)%list.

(** Lines 996-1000. *)
Definition main_all_tasks (individual_tasks : list Task)
    (comparison : option (Task * Z)) : list Task :=
  (individual_tasks
   ++ match comparison with
      | Some (comparison_task, _) => [comparison_task]
      | None => []
      end)%list.

(** Lines 1004-1031 of [main]: the producer that ran and [task_results]. *)
Definition main_task_results (run : kickoff) (context : Context.DatasetContext)
    (individual_question_count : Z) (individual_tasks : list Task)
    (comparison : option (Task * Z)) : producer * list string :=
  let all_tasks := main_all_tasks individual_tasks comparison in
  match all_tasks with
  | [] => (NoTasks, [])
  | _ :: _ =>
      let question_counts :=
        main_question_counts individual_question_count individual_tasks comparison in
      if _detect_rate_limiting tt
      then (OfflineTemplates,
            _generate_offline_results all_tasks context (Some question_counts))
      else (ExternalCrew,
            run_crew_standard run all_tasks (Some question_counts))
  end.

End Main.

(* ===================================================================== *)
(** * The ingestion validator ([src/core/data_loader.py]) *)
(* ===================================================================== *)

Module Loader.
Import Py.

Definition MAX_FILE_SIZE_MB : Z := 500.
Definition MAX_ROWS_DEFAULT : Z := 1000000.
Definition LARGE_FILE_WARNING_MB : Z := 50.

(** [1024 * 1024], the divisor of line 27. *)
Definition BYTES_PER_MB : positive := 1048576.

(** The exceptions the loader meets. *)
Inductive exn : Type :=
| ValueError (msg : string)
| FileNotFoundError (msg : string)
| UnicodeDecodeError (msg : string)
| TypeError (msg : string)
| OtherError (msg : string).

(** What the source reads of a [DataFrame]. *)
Record DataFrame : Type := {
  rows : Z;      (* [len(df)] *)
  columns : Z    (* [len(df.columns)] *)
}.

Definition df_empty (df : DataFrame) : bool :=
  (rows df =? 0)%Z || (columns df =? 0)%Z.

(** [str(df.shape)]. *)
Definition shape_str (df : DataFrame) : string :=
  "(" ++ str_of_Z (rows df) ++ ", " ++ str_of_Z (columns df) ++ ")".

(** What the operating system, pandas and the user answer for one path. *)
Record world : Type := {
  path_exists : bool;                   (* [os.path.exists] *)
  path_isfile : bool;                   (* [os.path.isfile] *)
  path_getsize : Z + string;            (* [os.path.getsize], or its exception *)
  path_ext : string;                    (* [os.path.splitext(file_path)[1]] *)
  user_input : string + exn;            (* [input(...)] *)
  read_csv : string -> Z -> DataFrame + exn;
                                        (* [pd.read_csv], by encoding and nrows *)
  read_excel : Z -> DataFrame + exn;    (* [pd.read_excel], by nrows *)
  read_json : Z -> DataFrame + exn      (* [pd.read_json], by nrows *)
}.

(** [file_size_mb > limit] for [file_size_mb = file_size_bytes / (1024 * 1024)].
    The division is by a power of two: the quotient is the exact one for
    every size below 2^53 bytes and is above every limit beyond, so the
    comparison with a whole number of megabytes is the one of integers. *)
Definition size_mb_gt (file_size_bytes limit_mb : Z) : bool :=
  (limit_mb * Z.pos BYTES_PER_MB <? file_size_bytes)%Z.

(** [f"{file_size_mb:.{d}f}"]: the quotient, exact below 2^53 bytes,
    rounded to [d] decimals. *)
Definition size_mb_str (d : nat) (file_size_bytes : Z) : string :=
  format_fixed false d file_size_bytes BYTES_PER_MB.

(** [check_file_safety] (lines 10-38). *)
Definition check_file_safety (w : world) (file_path : string) : bool * string :=
  if negb (path_exists w) then (false, "File not found: " ++ file_path)
  else if negb (path_isfile w) then (false, "Path is not a file: " ++ file_path)
  else
    match path_getsize w with
    | inr e => (false, "Cannot check file size: " ++ e)
    | inl file_size_bytes =>
        if size_mb_gt file_size_bytes MAX_FILE_SIZE_MB then
          (false, "File too large: " ++ size_mb_str 1 file_size_bytes
                  ++ "MB (max: " ++ str_of_Z MAX_FILE_SIZE_MB ++ "MB)")
        else if size_mb_gt file_size_bytes LARGE_FILE_WARNING_MB then
          (true, "WARNING: Large file detected (" ++ size_mb_str 1 file_size_bytes
                 ++ "MB). Loading may take time.")
        else
          (true, "File size OK: " ++ size_mb_str 2 file_size_bytes ++ "MB")
    end.

(** The effects of [read_file], in the order they happen. *)
Inductive event : Type :=
| LogError (msg : string)
| LogWarning (msg : string)
| LogInfo (msg : string)
| PrintLargeFile (safety_msg : string)   (* line 67 *)
| PrintRowLimit (max_rows : Z)           (* line 113 *)
| AskUser (prompt : string)              (* line 70 *)
| CallReadCsv (encoding : string) (errors : option string) (nrows : Z)
| CallReadExcel (nrows : Z)
| CallReadJson (nrows : Z).

(** A computation that logs, prints, asks and reads, and returns or raises. *)
Definition IO (A : Type) : Type := list event * (A + exn).

Definition ret {A : Type} (a : A) : IO A := ([], inl a).
Definition raise {A : Type} (e : exn) : IO A := ([], inr e).
Definition emit (ev : event) : IO unit := ([ev], inl tt).

Definition bind {A B : Type} (m : IO A) (k : A -> IO B) : IO B :=
  match m with
  | (t, inr e) => (t, inr e)
  | (t, inl a) => let (t', r) := k a in ((t ++ t')%list, r)
  end.

Notation "x <- m ;; k" := (bind m (fun x => k))
  (at level 61, m at next level, right associativity).
Notation "m ;;; k" := (bind m (fun _ => k))
  (at level 61, right associativity).

(** A call to the outside, with the event that records it. *)
Definition call {A : Type} (ev : event) (outcome : A + exn) : IO A :=
  ([ev], outcome).

(** Lines 57-75: the safety check and the confirmation. *)
Definition safety_gate (w : world) (file_path : string) (interactive : bool) : IO unit :=
  let (is_safe, safety_msg) := check_file_safety w file_path in
  if negb is_safe then
    emit (LogError safety_msg) ;;; raise (ValueError safety_msg)
  else if contains "WARNING" safety_msg then
    emit (LogWarning safety_msg) ;;;
    emit (PrintLargeFile safety_msg) ;;;
    if interactive then
      answer <- call (AskUser "    Continue loading? (y/n): ") (user_input w) ;;
      let proceed := lower (strip answer) in
      if negb (String.eqb proceed "y" || String.eqb proceed "yes") then
        emit (LogInfo ("User cancelled loading large file: " ++ file_path)) ;;;
        raise (ValueError "User cancelled: File too large")
      else ret tt
    else ret tt
  else emit (LogInfo safety_msg).

(** Line 86. *)
Definition encodings : list string :=
  ["utf-8"; "latin-1"; "windows-1252"; "iso-8859-1"; "cp1252"].

(** Lines 88-94: [None] when every encoding raised [UnicodeDecodeError]. *)
Fixpoint try_encodings (w : world) (max_rows : Z) (encs : list string)
  : IO (option DataFrame) :=
  match encs with
  | [] => ret None
  | encoding :: rest =>
      match read_csv w encoding max_rows with
      | inr (UnicodeDecodeError _) =>
          emit (CallReadCsv encoding None max_rows) ;;;
          try_encodings w max_rows rest
      | outcome =>
          df <- call (CallReadCsv encoding None max_rows) outcome ;;
          emit (LogInfo ("Successfully read CSV with " ++ encoding ++ " encoding")) ;;;
          ret (Some df)
      end
  end.

(** Line 98 calls [pd.read_csv] with the keyword [errors].  [pd.read_csv]
    has no such keyword (the one that sets the decoder's error handling is
    [encoding_errors]): Python refuses the call with a [TypeError] before
    pandas opens the file, whatever the file holds. *)
Definition errors_keyword_rejected : exn :=
  TypeError "read_csv() got an unexpected keyword argument 'errors'".

(** Lines 84-99. *)
Definition load_csv (w : world) (file_path : string) (max_rows : Z) : IO DataFrame :=
  found <- try_encodings w max_rows encodings ;;
  match found with
  | Some df => ret df
  | None =>
      df <- call (CallReadCsv "utf-8" (Some "ignore") max_rows)
                 (inr errors_keyword_rejected) ;;
      emit (LogWarning ("Used UTF-8 with error ignore for file: " ++ file_path)) ;;;
      ret df
  end.

(** Lines 81-82. *)
Definition row_limit (max_rows : option Z) : Z :=
  match max_rows with
  | None => MAX_ROWS_DEFAULT
  | Some n => n
  end.

(** Lines 77-119: everything after the safety check. *)
Definition load (w : world) (file_path : string) (max_rows : option Z) : IO DataFrame :=
  let ext := lower (path_ext w) in
  emit (LogInfo ("Attempting to read file: " ++ file_path
                 ++ " with extension: " ++ ext)) ;;;
  let max_rows := row_limit max_rows in
  df <- (if String.eqb ext ".csv" then load_csv w file_path max_rows
         else if String.eqb ext ".xlsx" then
           call (CallReadExcel max_rows) (read_excel w max_rows)
         else if String.eqb ext ".json" then
           call (CallReadJson max_rows) (read_json w max_rows)
         else
           emit (LogError ("Unsupported file type: " ++ ext
                           ++ " for file: " ++ file_path)) ;;;
           raise (ValueError ("Unsupported file type: " ++ ext))) ;;
  emit (LogInfo ("Successfully read file: " ++ file_path
                 ++ ". Shape: " ++ shape_str df)) ;;;
  (if (rows df =? max_rows)%Z then
     emit (LogWarning ("File may have more rows. Loaded limit: "
                       ++ format_int_grouped max_rows ++ " rows")) ;;;
     emit (PrintRowLimit max_rows)
   else ret tt) ;;;
  if df_empty df then
    emit (LogWarning ("File " ++ file_path ++ " is empty.")) ;;;
    raise (ValueError ("File " ++ file_path ++ " is empty - no data to analyze"))
  else ret df.

(** [str(e)] for the exceptions of the model. *)
Definition exn_str (e : exn) : string :=
  match e with
  | ValueError msg | FileNotFoundError msg | UnicodeDecodeError msg
  | TypeError msg | OtherError msg => msg
  end.

(** Lines 121-126: both handlers log and raise the exception again. *)
Definition logged_reraise {A : Type} (file_path : string) (m : IO A) : IO A :=
  match m with
  | (t, inr (FileNotFoundError msg)) =>
      ((t ++ [LogError ("Error: File not found at path: " ++ file_path)])%list,
       inr (FileNotFoundError msg))
  | (t, inr e) =>
      ((t ++ [LogError ("An unexpected error occurred while reading file "
                        ++ file_path ++ ": " ++ exn_str e)])%list,
       inr e)
  | (t, inl a) => (t, inl a)
  end.

(** [read_file] (lines 40-126). *)
Definition read_file (w : world) (file_path : string) (max_rows : option Z)
    (interactive : bool) : IO DataFrame :=
  logged_reraise file_path
    (safety_gate w file_path interactive ;;; load w file_path max_rows).

Definition is_read (ev : event) : bool :=
  match ev with
  | CallReadCsv _ _ _ | CallReadExcel _ | CallReadJson _ => true
  | _ => false
  end.

Definition is_warning (ev : event) : bool :=
  match ev with
  | LogWarning _ | PrintLargeFile _ => true
  | _ => false
  end.

Definition is_ask (ev : event) : bool :=
  match ev with
  | AskUser _ => true
  | _ => false
  end.

(** The reads of the file a run performs, in order. *)
Definition reads (t : list event) : list event := filter is_read t.

(** The three messages of lines 29-35. *)
Definition too_large_msg (file_size_bytes : Z) : string :=
  "File too large: " ++ size_mb_str 1 file_size_bytes
  ++ "MB (max: " ++ str_of_Z MAX_FILE_SIZE_MB ++ "MB)".

Definition large_file_msg (file_size_bytes : Z) : string :=
  "WARNING: Large file detected (" ++ size_mb_str 1 file_size_bytes
  ++ "MB). Loading may take time.".

Definition size_ok_msg (file_size_bytes : Z) : string :=
  "File size OK: " ++ size_mb_str 2 file_size_bytes ++ "MB".

(** The sizes of 500 MB and of 50 MB, in bytes. *)
Definition ceiling_bytes : Z := MAX_FILE_SIZE_MB * Z.pos BYTES_PER_MB.
Definition large_bytes : Z := LARGE_FILE_WARNING_MB * Z.pos BYTES_PER_MB.

Definition confirmation_prompt : string := "    Continue loading? (y/n): ".

(** The user's answer is a yes: line 71. *)
Definition confirms (answer : string) : bool :=
  let proceed := lower (strip answer) in
  String.eqb proceed "y" || String.eqb proceed "yes".

Definition is_decode_error {A : Type} (outcome : A + exn) : bool :=
  match outcome with
  | inr (UnicodeDecodeError _) => true
  | _ => false
  end.

(** How many encodings of [encs], from the first on, [pd.read_csv]
    refuses with [UnicodeDecodeError]. *)
Fixpoint refused (w : world) (max_rows : Z) (encs : list string) : nat :=
  match encs with
  | [] => 0
  | encoding :: rest =>
      if is_decode_error (read_csv w encoding max_rows)
      then S (refused w max_rows rest) else 0
  end.

Definition strict_read (max_rows : Z) (encoding : string) : event :=
  CallReadCsv encoding None max_rows.

Definition lenient_read (max_rows : Z) : event :=
  CallReadCsv "utf-8" (Some "ignore") max_rows.

End Loader.

(* ===================================================================== *)
(** * The column classifier ([src/core/data_analyzer.py]) *)
(* ===================================================================== *)

Module Analyzer.
Import Py.
Import QArith_base.
Local Close Scope Q_scope.

(** A number of a numeric column: a finite double, or an integer of
    magnitude at most 2^53, as the rational it denotes.  [None] is a
    missing value in a list of values, and NaN as a statistic.  The
    infinities are no values of this type, nor is [pd.NA]: a column that
    holds an infinity, and one of a nullable extension dtype, are not
    described by the model. *)
Definition number : Type := Q.

(** A column, by the first type test of lines 23-108 its dtype passes, with
    what the branch reads of it.  Statistics that the source computes in
    double arithmetic are carried as data. *)
Inductive series : Type :=
| NumericSeries (values : list (option number))
                (mean_val : option number)        (* [series.mean()] *)
| TextSeries (values : list (option string))      (* object or categorical *)
| DatetimeSeries (min_date max_date : string)     (* [str] of min and max *)
| BoolSeries (true_pct false_pct : number)        (* lines 103-105 *)
| OtherSeries (dtype : string) (values : list (option nat)).

(** The [return] statement the classifier leaves by, one per category. *)
Inductive category : Type :=
| TemporalYear | TemporalQuarter | TemporalMonth | TemporalDay
| FinancialRatio | FinancialRevenue | FinancialCost
| FinancialBalanceSheet | FinancialProfitability
| Identifier | GenericNumeric
| CategoricalIdentifier | CategoricalLabel | CategoricalClass
| CategoricalStatus | CategoricalGeography | GenericCategorical
| DatetimeField | BooleanFlag | Unresolved.

Inductive outcome : Type :=
| Described (c : category) (description : string)
| Raised (error : string).

Fixpoint non_null {A : Type} (values : list (option A)) : list A :=
  match values with
  | [] => []
  | Some v :: rest => v :: non_null rest
  | None :: rest => non_null rest
  end.

Fixpoint distinct {A : Type} (eqb : A -> A -> bool) (l : list A) : list A :=
  match l with
  | [] => []
  | x :: rest => if existsb (eqb x) rest then distinct eqb rest else x :: distinct eqb rest
  end.

(** [series.nunique()]: missing values are not counted. *)
Definition nunique {A : Type} (eqb : A -> A -> bool) (values : list (option A)) : nat :=
  List.length (distinct eqb (non_null values)).

Definition Qmin_opt (acc : option number) (v : number) : option number :=
  match acc with
  | None => Some v
  | Some m => if Qle_bool m v then Some m else Some v
  end.

Definition Qmax_opt (acc : option number) (v : number) : option number :=
  match acc with
  | None => Some v
  | Some m => if Qle_bool v m then Some m else Some v
  end.

(** [series.min()] and [series.max()]: NaN when no value is present. *)
Definition series_min (values : list (option number)) : option number :=
  fold_left Qmin_opt (non_null values) None.

Definition series_max (values : list (option number)) : option number :=
  fold_left Qmax_opt (non_null values) None.

(** [f"{x:.{d}f}"] and [f"{x:,.{d}f}"] for a statistic. *)
Definition fmt (grouping : bool) (d : nat) (x : option number) : string :=
  match x with
  | None => "nan"
  | Some q => format_fixed grouping d (Qnum q) (Qden q)
  end.

(** [int(x)]: towards zero; it raises on NaN. *)
Definition int_of (x : option number) : option Z :=
  match x with
  | None => None
  | Some q => Some (Z.quot (Qnum q) (Z.pos (Qden q)))
  end.

Definition count_of (v : string) (l : list string) : nat :=
  List.length (filter (String.eqb v) l).

(** [series.mode()[0]]: the least of the most frequent values, if any. *)
Definition mode0 (values : list (option string)) : option string :=
  let present := non_null values in
  let best := fold_left (fun m v => Nat.max m (count_of v present)) present 0%nat in
  fold_left (fun acc v =>
               if (count_of v present =? best)%nat then
                 match acc with
                 | None => Some v
                 | Some a => if String.leb a v then Some a else Some v
                 end
               else acc)
            present None.

(** [any(term in name_lower for term in terms)]. *)
Definition any_term (terms : list string) (name_lower : string) : bool :=
  existsb (fun term => contains term name_lower) terms.

(** Lines 23-67. *)
Definition analyze_numeric (column_name : string)
    (values : list (option number)) (mean_val : option number) : outcome :=
  let total_count := List.length values in
  let unique_count := nunique Qeq_bool values in
  let min_val := series_min values in
  let max_val := series_max values in
  let name_lower := lower column_name in
  if any_term ["year"; "yr"] name_lower then
    match int_of min_val, int_of max_val with
    | Some lo, Some hi =>
        Described TemporalYear
          ("Temporal identifier representing calendar year. Range: "
           ++ str_of_Z lo ++ "-" ++ str_of_Z hi
           ++ ". Used for time-series analysis and year-over-year comparisons.")
    | _, _ => Raised "cannot convert float NaN to integer"
    end
  else if any_term ["quarter"; "qtr"; "q"] name_lower then
    Described TemporalQuarter
      "Quarterly time period identifier (1-4). Enables seasonal analysis and quarterly performance tracking."
  else if any_term ["month"; "mon"] name_lower then
    Described TemporalMonth
      "Monthly identifier (1-12). Supports monthly trend analysis and seasonal pattern detection."
  else if any_term ["day"; "date"] name_lower then
    Described TemporalDay
      "Daily identifier. Supports granular time-series analysis and day-level patterns."
  else if any_term ["ratio"; "rate"; "percent"; "pct"] name_lower then
    Described FinancialRatio
      ("Financial ratio/rate metric. Range: " ++ fmt false 2 min_val ++ " to "
       ++ fmt false 2 max_val ++ ", Avg: " ++ fmt false 2 mean_val
       ++ ". Used for financial health assessment and comparative analysis.")
  else if any_term ["revenue"; "sales"; "income"] name_lower then
    Described FinancialRevenue
      ("Revenue/income metric. Range: " ++ fmt true 0 min_val ++ " to "
       ++ fmt true 0 max_val
       ++ ". Key performance indicator for financial performance evaluation.")
  else if any_term ["cost"; "expense"; "expenditure"] name_lower then
    Described FinancialCost
      ("Cost/expense metric. Range: " ++ fmt true 0 min_val ++ " to "
       ++ fmt true 0 max_val ++ ". Used for cost analysis and budgeting.")
  else if any_term ["asset"; "liability"; "equity"] name_lower then
    Described FinancialBalanceSheet
      ("Balance sheet item. Range: " ++ fmt true 0 min_val ++ " to "
       ++ fmt true 0 max_val ++ ". Critical for financial position analysis.")
  else if any_term ["profit"; "margin"; "earnings"] name_lower then
    Described FinancialProfitability
      ("Profitability metric. Range: " ++ fmt false 2 min_val ++ " to "
       ++ fmt false 2 max_val
       ++ ". Measures business profitability and operational efficiency.")
  else if (unique_count =? total_count)%nat || contains "id" name_lower then
    Described Identifier
      ("Unique identifier with " ++ format_int_grouped (Z.of_nat unique_count)
       ++ " distinct values. Used for record identification and data joining.")
  else
    Described GenericNumeric
      ("Numeric metric. Range: " ++ fmt true 2 min_val ++ " to "
       ++ fmt true 2 max_val ++ ", Mean: " ++ fmt true 2 mean_val ++ ". "
       ++ format_int_grouped (Z.of_nat unique_count) ++ " unique values.").

(** Lines 70-93. *)
Definition analyze_text (column_name : string) (values : list (option string)) : outcome :=
  let unique_count := str_of_nat (nunique String.eqb values) in
  let top_value := match mode0 values with Some v => v | None => "N/A" end in
  let name_lower := lower column_name in
  if any_term ["id"; "code"; "key"; "carrier"; "ticker"; "symbol"] name_lower then
    Described CategoricalIdentifier
      ("Categorical identifier. " ++ unique_count ++ " unique values (e.g., '"
       ++ top_value ++ "'). Used for grouping and entity identification.")
  else if any_term ["name"; "title"; "label"] name_lower then
    Described CategoricalLabel
      ("Descriptive name/label field. " ++ unique_count
       ++ " unique values. Used for display and reference purposes.")
  else if any_term ["category"; "type"; "class"; "group"] name_lower then
    Described CategoricalClass
      ("Classification/category field. " ++ unique_count
       ++ " categories (most common: '" ++ top_value
       ++ "'). Enables segmentation and comparative analysis.")
  else if any_term ["status"; "state"; "flag"] name_lower then
    Described CategoricalStatus
      ("Status/state indicator. " ++ unique_count ++ " possible states (e.g., '"
       ++ top_value ++ "'). Tracks entity state or condition.")
  else if any_term ["location"; "region"; "city"; "country"] name_lower then
    Described CategoricalGeography
      ("Geographic identifier. " ++ unique_count
       ++ " locations. Supports geographic analysis and regional comparisons.")
  else
    Described GenericCategorical
      ("Categorical text field. " ++ unique_count ++ " unique values (most common: '"
       ++ top_value ++ "'). Useful for grouping and filtering.").

(** [_analyze_column_intelligently] (lines 5-110), with the [return]
    statement taken.  The null percentage of line 20 is computed by the
    source and used by no branch. *)
Definition classify (column_name : string) (s : series) : outcome :=
  match s with
  | NumericSeries values mean_val => analyze_numeric column_name values mean_val
  | TextSeries values => analyze_text column_name values
  | DatetimeSeries min_date max_date =>
      Described DatetimeField
        ("Datetime field. Range: " ++ min_date ++ " to " ++ max_date
         ++ ". Enables temporal analysis and time-based filtering.")
  | BoolSeries true_pct false_pct =>
      Described BooleanFlag
        ("Boolean flag. " ++ fmt false 1 (Some true_pct) ++ "% True, "
         ++ fmt false 1 (Some false_pct)
         ++ "% False. Used for binary classification and filtering.")
  | OtherSeries dtype values =>
      Described Unresolved
        ("Data field of type " ++ dtype ++ ". "
         ++ str_of_nat (nunique Nat.eqb values)
         ++ " unique values. Requires domain knowledge for interpretation.")
  end.

(** The string [_analyze_column_intelligently] returns, or its exception. *)
Definition _analyze_column_intelligently (column_name : string) (s : series)
  : string + string :=
  match classify column_name s with
  | Described _ description => inl description
  | Raised error => inr error
  end.

(** The terms the numeric chain tests before it looks at the number of
    distinct values (lines 33-58). *)
Definition earlier_terms : list string :=
  ["year"; "yr"; "quarter"; "qtr"; "q"; "month"; "mon"; "day"; "date";
   "ratio"; "rate"; "percent"; "pct"; "revenue"; "sales"; "income";
   "cost"; "expense"; "expenditure"; "asset"; "liability"; "equity";
   "profit"; "margin"; "earnings"].

(** The description shows the least and the greatest value, the way the
    category writes them; four categories show no range. *)
Definition shows_range (c : category) (min_val max_val : option number)
    (description : string) : Prop :=
  match c with
  | TemporalYear =>
      exists lo hi, int_of min_val = Some lo /\ int_of max_val = Some hi
                    /\ contains (str_of_Z lo) description = true
                    /\ contains (str_of_Z hi) description = true
  | FinancialRatio | FinancialProfitability =>
      contains (fmt false 2 min_val) description = true
      /\ contains (fmt false 2 max_val) description = true
  | FinancialRevenue | FinancialCost | FinancialBalanceSheet =>
      contains (fmt true 0 min_val) description = true
      /\ contains (fmt true 0 max_val) description = true
  | GenericNumeric =>
      contains (fmt true 2 min_val) description = true
      /\ contains (fmt true 2 max_val) description = true
  | _ => True
  end.

(** Whole numbers as values of a column. *)
Definition whole (z : Z) : option number := Some (Qmake z 1).

(** [len(series)] and [series.nunique()] of a column. *)
Definition row_count (s : series) : option nat :=
  match s with
  | NumericSeries values _ => Some (List.length values)
  | TextSeries values => Some (List.length values)
  | OtherSeries _ values => Some (List.length values)
  | _ => None
  end.

Definition unique_count (s : series) : option nat :=
  match s with
  | NumericSeries values _ => Some (nunique Qeq_bool values)
  | TextSeries values => Some (nunique String.eqb values)
  | OtherSeries _ values => Some (nunique Nat.eqb values)
  | _ => None
  end.

End Analyzer.


(* ===================================================================== *)
(** * The texts of the scenarios *)
(* ===================================================================== *)

Module Scenarios.
Import Py.

(** Three items written with [)], one per line. *)
Definition three_items : string :=
  "1) Alpha" ++ nl ++ "2) Beta" ++ nl ++ "3) Gamma".

(** Three items, the second one on two lines. *)
Definition multi_line : string :=
  "1. First question" ++ nl ++ nl
  ++ "2. Second" ++ nl ++ "question continued" ++ nl ++ nl
  ++ "3. Third".

(** A preamble, then items numbered 3, 7 and 9, the first on two lines. *)
Definition odd_numbers : string :=
  "Intro" ++ nl ++ "3. A" ++ nl ++ "more" ++ nl ++ nl
  ++ "7. B" ++ nl ++ nl ++ "9. C".

(** The header of a task, as [main] builds them. *)
Definition header : string := "--- Enhanced Questions for data.csv ---".

(** The column of the revenue scenario, and one whose name holds a [q]. *)
Definition revenue_2022 : Analyzer.series :=
  Analyzer.NumericSeries
    [Analyzer.whole 100; Analyzer.whole 120; Analyzer.whole 110]
    (Analyzer.whole 110).

Definition quantity : Analyzer.series :=
  Analyzer.NumericSeries [Analyzer.whole 5; Analyzer.whole 7] (Analyzer.whole 6).

(** A column of three distinct numbers, and one of three distinct texts. *)
Definition distinct_numbers : Analyzer.series :=
  Analyzer.NumericSeries
    [Analyzer.whole 41; Analyzer.whole 42; Analyzer.whole 43]
    (Analyzer.whole 42).

Definition distinct_notes : Analyzer.series :=
  Analyzer.TextSeries [Some "paid"; Some "refund"; Some "pending"].

(** An input folder with a background of 60 characters and no message,
    and one whose background file cannot be decoded. *)
Definition folder_with_background : Context.input_folder :=
  {| Context.folder_exists := true;
     Context.Dataset_Background_txt :=
       Context.Content
         "Quarterly revenue of the airline, for the executive team.   ";
     Context.message_txt := Context.Absent |}.

(** A readable [.csv] file of the given size, with the user's answer to
    the confirmation prompt; [pd.read_csv] refuses utf-8 and accepts every
    other encoding. *)
Definition csv_file (size_bytes : Z) (answer : string) : Loader.world :=
  {| Loader.path_exists := true;
     Loader.path_isfile := true;
     Loader.path_getsize := inl size_bytes;
     Loader.path_ext := ".CSV";
     Loader.user_input := inl answer;
     Loader.read_csv := fun encoding _ =>
       if String.eqb encoding "utf-8"
       then inr (Loader.UnicodeDecodeError "invalid start byte")
       else inl {| Loader.rows := 3; Loader.columns := 2 |};
     Loader.read_excel := fun _ => inr (Loader.OtherError "not a workbook");
     Loader.read_json := fun _ => inr (Loader.OtherError "not JSON") |}.


(** A context, which the offline generator does not read. *)
Definition context : Context.DatasetContext :=
  {| Context.subject_area := "general analysis";
     Context.analysis_objectives := ["general analysis"];
     Context.target_audience := "analysts";
     Context.business_context := "";
     Context.dataset_background := "";
     Context.time_sensitivity := "medium" |}.

(** Tasks for a dataset of each kind, and for the comparison. *)
Definition assets_task : Offline.Task :=
  {| Offline.description := "Analyze the dataset Assets.csv";
     Offline.expected_output := "" |}.

Definition comparison_task : Offline.Task :=
  {| Offline.description := "Cross-dataset Comparison of the datasets";
     Offline.expected_output := "" |}.

End Scenarios.

(* ===================================================================== *)
(** * Loading the datasets ([process_datasets], [src/core/main.py]) *)
(* ===================================================================== *)

Module Ingestion.
Import Py Loader.

(** The [nrows] argument of a read. *)
Definition nrows_of (ev : event) : option Z :=
  match ev with
  | CallReadCsv _ _ nrows | CallReadExcel nrows | CallReadJson nrows => Some nrows
  | _ => None
  end.

Definition is_error_log (ev : event) : bool :=
  match ev with
  | LogError _ => true
  | _ => false
  end.

(** The extensions [read_file] has a reader for (lines 84-103 of
    [data_loader.py]). *)
Definition supported (ext : string) : bool :=
  String.eqb ext ".csv" || String.eqb ext ".xlsx" || String.eqb ext ".json".

Section ProcessDatasets.

(** What the system answers for each path, and [os.path.basename]. *)
Variable fs : string -> world.
Variable basename : string -> string.

(** Lines 333-348: one iteration of the loop.  [read_file] is called with
    its defaults, [max_rows=None] and [interactive=True];
    [UnicodeDecodeError] is a [ValueError]. *)
Definition load_dataset (file_path : string)
  : list event * option (string * DataFrame) :=
  match read_file (fs file_path) file_path None true with
  | (t, inl df) =>
      let dataset_name := basename file_path in
      ((t ++ LogInfo ("Successfully loaded dataset: " ++ dataset_name
                      ++ " (Shape: " ++ shape_str df ++ ")")
          :: (if df_empty df
              then [LogWarning ("Dataset '" ++ dataset_name ++ "' is empty.")]
              else []))%list,
       Some (dataset_name, df))
  | (t, inr (FileNotFoundError _)) =>
      ((t ++ [LogError ("Skipping " ++ file_path ++ ": File not found.")])%list, None)
  | (t, inr (ValueError msg)) | (t, inr (UnicodeDecodeError msg)) =>
      ((t ++ [LogError ("Skipping " ++ file_path ++ ": " ++ msg)])%list, None)
  | (t, inr (TypeError msg)) | (t, inr (OtherError msg)) =>
      ((t ++ [LogError ("Skipping " ++ file_path
                        ++ " due to unexpected error during load: " ++ msg)])%list,
       None)
  end.

(** The loop of lines 332-348, with the value of [datasets] it builds. *)
Fixpoint load_datasets (file_paths : list string)
  : list event * list (string * DataFrame) :=
  match file_paths with
  | [] => ([], [])
  | file_path :: rest =>
      let (t, loaded) := load_dataset file_path in
      let (t', datasets) := load_datasets rest in
      ((t ++ t')%list,
       match loaded with
       | Some dataset => dataset :: datasets
       | None => datasets
       end)
  end.

(** [process_datasets] (lines 324-355). *)
Definition process_datasets (file_paths : list string)
  : list event * list (string * DataFrame) :=
  match file_paths with
  | [] => ([LogWarning "No file paths provided to process_datasets."], [])
  | _ :: _ =>
      let (t, datasets) := load_datasets file_paths in
      ((LogInfo "Starting dataset processing..." :: t
        ++ [match datasets with
            | [] => LogError "No valid datasets could be loaded from the provided paths."
            | _ :: _ =>
                LogInfo ("Finished processing. Successfully loaded "
                         ++ str_of_nat (List.length datasets) ++ " dataset(s).")
            end])%list,
       datasets)
  end.

End ProcessDatasets.

(** The files [read_file] accepts, with the frame it returns for each. *)
Definition accepted (fs : string -> world) (file_path : string) : option DataFrame :=
  match snd (read_file (fs file_path) file_path None true) with
  | inl df => Some df
  | inr _ => None
  end.

(** The dataset an accepted file gives, and none for another file. *)
Definition loaded (fs : string -> world) (basename : string -> string)
    (file_path : string) : list (string * DataFrame) :=
  match accepted fs file_path with
  | Some df => [(basename file_path, df)]
  | None => []
  end.

(** An event that is no read, or a read capped at [n] rows. *)
Definition capped (n : Z) (ev : event) : Prop :=
  is_read ev = true -> nrows_of ev = Some n.

(** A run that returns has logged no error. *)
Definition quiet {A : Type} (m : IO A) : Prop :=
  forall a, snd m = inl a -> existsb is_error_log (fst m) = false.

(** The notice of line 113 of [data_loader.py] was printed. *)
Definition row_limit_notice (t : list event) : bool :=
  existsb (fun ev => match ev with PrintRowLimit _ => true | _ => false end) t.

End Ingestion.

(* ===================================================================== *)
(** * The results [main] hands to the reports ([src/core/main.py]) *)
(* ===================================================================== *)

Module Reports.
Import Py Offline Main.

(** [l[-1]]: [None] stands for [IndexError]. *)
Definition last_item {A : Type} (l : list A) : option A :=
  match l with
  | [] => None
  | _ :: _ => nth_error l (List.length l - 1)
  end.

(** Lines 1042-1044 of [main]: [individual_task_results] and
    [comparison_result]; [None] stands for the [IndexError] of
    [task_results[-1]] on an empty list. *)
Definition main_separate (task_results : list string)
    (comparison : option (Task * Z)) : option (list string * option string) :=
  match comparison with
  | Some _ =>
      match last_item task_results with
      | Some comparison_result =>
          Some (slice_to (-1) task_results, Some comparison_result)
      | None => None
      end
  | None => Some (task_results, None)
  end.

(** The text [run_crew_standard] stores for a task whose crew raised
    (line 465). *)
Definition error_result (i : nat) (task : Task) (e : string) : string :=
  "Error executing task '" ++ task_identifier i task ++ "': " ++ e.

(** A line of a template: numbered, and free of line feeds. *)
Definition template_line (q : string) : Prop :=
  Normalizer.question_start q = true /\ no_char LF q = true.

End Reports.

(* ===================================================================== *)
(** * The summary of a dataset ([src/core/data_analyzer.py]) *)
(* ===================================================================== *)

Module Summary.
Import Py Analyzer.

(** A column of a frame: its label, [str(df[col].dtype)], and its values. *)
Record column : Type := {
  col_name : string;
  col_dtype : string;
  col_series : series
}.

(** What the source reads of a [DataFrame] whose column labels are
    strings, all different: for a repeated label [data[column]] is not a
    [Series], and the functions below do not describe that case. *)
Record frame : Type := {
  n_rows : nat;                   (* [len(df)] *)
  frame_columns : list column     (* [df.columns], in order *)
}.

(** [df.empty]. *)
Definition frame_empty (df : frame) : bool :=
  (n_rows df =? 0)%nat || match frame_columns df with [] => true | _ :: _ => false end.

(** A [dict] with [str] keys, in insertion order: [d[k] = v] and [d.get(k)]. *)
Fixpoint dict_set {V : Type} (k : string) (v : V) (d : list (string * V))
  : list (string * V) :=
  match d with
  | [] => [(k, v)]
  | (k', v') :: rest =>
      if String.eqb k' k then (k', v) :: rest else (k', v') :: dict_set k v rest
  end.

Fixpoint dict_get {V : Type} (k : string) (d : list (string * V)) : option V :=
  match d with
  | [] => None
  | (k', v') :: rest => if String.eqb k' k then Some v' else dict_get k rest
  end.

Section Descriptions.

(** [str] of a number, and [dropna().astype(str).head(3).tolist()] for
    the columns whose values the model does not carry. *)
Variable str_number : number -> string.
Variable other_samples : series -> list string.

(** Line 139: [data[column].dropna().astype(str).head(3).tolist()]. *)
Definition sample_values (s : series) : list string :=
  match s with
  | NumericSeries values _ => map str_number (firstn 3 (non_null values))
  | TextSeries values => firstn 3 (non_null values)
  | _ => other_samples s
  end.

(** Lines 131-143: the description stored for one column.  The handler of
    lines 142-143 is entered when taking the samples raises, which the
    samples of the model do not. *)
Definition describe (c : column) : string :=
  match _analyze_column_intelligently (col_name c) (col_series c) with
  | inl description => description
  | inr _ =>
      "Data field with sample values: " ++ join ", " (sample_values (col_series c))
  end.

(** [generate_column_descriptions] (lines 113-146). *)
Definition generate_column_descriptions (data : frame) : list (string * string) :=
  if frame_empty data then []
  else fold_left (fun descriptions c => dict_set (col_name c) (describe c) descriptions)
                 (frame_columns data) [].

(** The [dict] [generate_summary] returns; an entry of [column_info] is
    the pair of ["dtype"] and ["description"]. *)
Record summary : Type := {
  rows : nat;
  columns : nat;
  column_info : list (string * (string * string))
}.

(** [generate_summary] (lines 149-183). *)
Definition generate_summary (df : frame) : summary :=
  if frame_empty df then {| rows := 0; columns := 0; column_info := [] |}
  else
    let descriptions := generate_column_descriptions df in
    {| rows := n_rows df;
       columns := List.length (frame_columns df);
       column_info :=
         fold_left
           (fun info c =>
              dict_set (col_name c)
                (col_dtype c,
                 match dict_get (col_name c) descriptions with
                 | Some description => description
                 | None => "Description unavailable"
                 end)
                info)
           (frame_columns df) [] |}.

End Descriptions.

End Summary.

(* ===================================================================== *)
(** * Quick contexts and saved contexts ([src/core/context_collector.py]) *)
(* ===================================================================== *)

Module Quick.
Import Py Context.

(** [_infer_subject_area] (lines 800-815). *)
Definition _infer_subject_area (dataset_names : list string) : string :=
  let combined_names := lower (join " " dataset_names) in
  if any_in ["stock"; "price"; "financial"; "revenue"; "profit"] combined_names
  then "financial analysis"
  else if any_in ["sales"; "customer"; "marketing"; "campaign"] combined_names
  then "sales and marketing analytics"
  else if any_in ["employee"; "hr"; "payroll"; "performance"] combined_names
  then "human resources analytics"
  else if any_in ["inventory"; "supply"; "logistics"; "operations"] combined_names
  then "operational analytics"
  else "general data analytics".

(** The five answers of [_infer_subject_area]. *)
Definition inferred_subjects : list string :=
  ["financial analysis"; "sales and marketing analytics";
   "human resources analytics"; "operational analytics"; "general data analytics"].

(** Some name of the list holds the key word, whatever the case. *)
Definition named (keyword : string) (dataset_names : list string) : bool :=
  existsb (fun name => contains keyword (lower name)) dataset_names.

(** Some name of the list holds one of the key words. *)
Definition any_named (keywords dataset_names : list string) : bool :=
  existsb (fun keyword => named keyword dataset_names) keywords.

(** [answer.strip().lower() in ['y', 'yes']]. *)
Definition is_yes (answer : string) : bool :=
  let confirm := lower (strip answer) in
  String.eqb confirm "y" || String.eqb confirm "yes".

Section Templates.

(** Modelled from the spec: the defaults of the [DatasetContext]
    dataclass for the fields a constructor call leaves out. *)
Variable default_dataset_background : string.
Variable default_time_sensitivity : string.

(** [_load_predefined_contexts] (lines 157-272): the templates, in the
    order of the [dict]. *)
Definition predefined_contexts : list (string * DatasetContext) :=
  [
    ("financial_analysis",
     {| subject_area := "financial analysis";
        analysis_objectives := ["performance evaluation"; "risk assessment"; "trend analysis"; "ROI optimization"];
        target_audience := "financial analysts";
        business_context := "Investment decisions, portfolio management, and financial planning";
        dataset_background := default_dataset_background;
        time_sensitivity := "high" |});
    ("marketing_analytics",
     {| subject_area := "marketing analytics";
        analysis_objectives := ["campaign effectiveness"; "customer segmentation"; "ROI analysis"; "brand performance"];
        target_audience := "marketing managers";
        business_context := "Marketing strategy optimization, budget allocation, and customer acquisition";
        dataset_background := default_dataset_background;
        time_sensitivity := "medium" |});
    ("operational_analytics",
     {| subject_area := "operational analytics";
        analysis_objectives := ["efficiency optimization"; "cost reduction"; "process improvement"; "quality control"];
        target_audience := "operations managers";
        business_context := "Operational excellence, resource optimization, and process automation";
        dataset_background := default_dataset_background;
        time_sensitivity := "high" |});
    ("sales_analytics",
     {| subject_area := "sales analytics";
        analysis_objectives := ["sales performance"; "pipeline analysis"; "forecasting"; "territory optimization"];
        target_audience := "sales managers";
        business_context := "Sales strategy, revenue optimization, and performance management";
        dataset_background := default_dataset_background;
        time_sensitivity := "high" |});
    ("customer_analytics",
     {| subject_area := "customer analytics";
        analysis_objectives := ["customer behavior"; "retention analysis"; "satisfaction measurement"; "lifetime value"];
        target_audience := "customer success managers";
        business_context := "Customer experience improvement, retention strategies, and loyalty programs";
        dataset_background := default_dataset_background;
        time_sensitivity := "medium" |});
    ("hr_analytics",
     {| subject_area := "human resources analytics";
        analysis_objectives := ["employee performance"; "retention analysis"; "workforce planning"; "diversity metrics"];
        target_audience := "HR managers";
        business_context := "Talent management, organizational development, and employee engagement";
        dataset_background := default_dataset_background;
        time_sensitivity := "medium" |});
    ("supply_chain_analytics",
     {| subject_area := "supply chain analytics";
        analysis_objectives := ["inventory optimization"; "demand forecasting"; "supplier performance"; "logistics efficiency"];
        target_audience := "supply chain managers";
        business_context := "Supply chain optimization, cost reduction, and risk mitigation";
        dataset_background := default_dataset_background;
        time_sensitivity := "high" |});
    ("healthcare_analytics",
     {| subject_area := "healthcare analytics";
        analysis_objectives := ["patient outcomes"; "cost analysis"; "resource utilization"; "quality improvement"];
        target_audience := "healthcare administrators";
        business_context := "Healthcare delivery optimization, cost management, and patient care improvement";
        dataset_background := default_dataset_background;
        time_sensitivity := "high" |});
    ("retail_analytics",
     {| subject_area := "retail analytics";
        analysis_objectives := ["sales optimization"; "inventory management"; "customer insights"; "pricing strategy"];
        target_audience := "retail managers";
        business_context := "Retail performance optimization, customer experience, and profitability";
        dataset_background := default_dataset_background;
        time_sensitivity := "medium" |});
    ("manufacturing_analytics",
     {| subject_area := "manufacturing analytics";
        analysis_objectives := ["production efficiency"; "quality control"; "equipment maintenance"; "cost optimization"];
        target_audience := "manufacturing managers";
        business_context := "Manufacturing excellence, productivity improvement, and operational efficiency";
        dataset_background := default_dataset_background;
        time_sensitivity := "high" |});
    ("energy_analytics",
     {| subject_area := "energy analytics";
        analysis_objectives := ["consumption optimization"; "efficiency analysis"; "sustainability metrics"; "cost reduction"];
        target_audience := "energy managers";
        business_context := "Energy management, sustainability initiatives, and operational cost optimization";
        dataset_background := default_dataset_background;
        time_sensitivity := "medium" |});
    ("cybersecurity_analytics",
     {| subject_area := "cybersecurity analytics";
        analysis_objectives := ["threat detection"; "risk assessment"; "incident analysis"; "security metrics"];
        target_audience := "security analysts";
        business_context := "Cybersecurity posture improvement, threat mitigation, and risk management";
        dataset_background := default_dataset_background;
        time_sensitivity := "high" |});
    ("education_analytics",
     {| subject_area := "education analytics";
        analysis_objectives := ["student performance"; "learning outcomes"; "resource allocation"; "engagement analysis"];
        target_audience := "education administrators";
        business_context := "Educational excellence, student success, and institutional effectiveness";
        dataset_background := default_dataset_background;
        time_sensitivity := "medium" |});
    ("real_estate_analytics",
     {| subject_area := "real estate analytics";
        analysis_objectives := ["market analysis"; "price prediction"; "investment optimization"; "portfolio performance"];
        target_audience := "real estate analysts";
        business_context := "Real estate investment decisions, market insights, and portfolio optimization";
        dataset_background := default_dataset_background;
        time_sensitivity := "medium" |});
    ("transportation_analytics",
     {| subject_area := "transportation analytics";
        analysis_objectives := ["route optimization"; "fleet management"; "safety analysis"; "efficiency improvement"];
        target_audience := "transportation managers";
        business_context := "Transportation efficiency, cost optimization, and safety improvement";
        dataset_background := default_dataset_background;
        time_sensitivity := "high" |});
    ("telecommunications_analytics",
     {| subject_area := "telecommunications analytics";
        analysis_objectives := ["network performance"; "customer churn"; "service quality"; "capacity planning"];
        target_audience := "telecom analysts";
        business_context := "Network optimization, customer retention, and service quality improvement";
        dataset_background := default_dataset_background;
        time_sensitivity := "medium" |})
  ].

(** Lines 789-798: the context built from the user's two answers. *)
Definition custom_context (dataset_names : list string)
    (inferred_subject subject_input objective_input : string) : DatasetContext :=
  {| subject_area :=
       if truthy (strip subject_input) then strip subject_input else inferred_subject;
     analysis_objectives :=
       [if truthy (strip objective_input) then strip objective_input
        else "exploratory analysis"];
     target_audience := "data analysts";
     business_context := "Data-driven insights and decision support";
     dataset_background := "Analysis of " ++ join ", " dataset_names;
     time_sensitivity := default_time_sensitivity |}.

(** [get_quick_context] (lines 768-798); [confirm] is the answer to the
    first question, and the two other answers are read only when no
    template is returned. *)
Definition get_quick_context (dataset_names : list string)
    (confirm subject_input objective_input : string) : DatasetContext :=
  let inferred_subject := _infer_subject_area dataset_names in
  let custom :=
    custom_context dataset_names inferred_subject subject_input objective_input in
  if is_yes confirm then
    match find (fun entry => contains inferred_subject (subject_area (snd entry)))
               predefined_contexts with
    | Some (_, context) => context
    | None => custom
    end
  else custom.

(** The template stored under a key. *)
Definition template (key : string) : option DatasetContext :=
  option_map snd (find (fun entry => String.eqb (fst entry) key) predefined_contexts).

End Templates.

(** The six enhanced questions, and the [question_map] of lines 852-859. *)
Definition all_questions : list string :=
  ["problem"; "hypotheses"; "data_profile"; "benchmarks"; "decisions"; "risks"].

Definition question_map (num : string) : option string :=
  if String.eqb num "1" then Some "problem"
  else if String.eqb num "2" then Some "hypotheses"
  else if String.eqb num "3" then Some "data_profile"
  else if String.eqb num "4" then Some "benchmarks"
  else if String.eqb num "5" then Some "decisions"
  else if String.eqb num "6" then Some "risks"
  else None.

(** [_get_custom_enhanced_selection] (lines 832-871), by the line the
    user types. *)
Definition _get_custom_enhanced_selection (answer : string) : list string :=
  let selection := strip answer in
  if is_empty selection then all_questions
  else
    let selected :=
      flat_map (fun num => match question_map (strip num) with
                           | Some question => [question]
                           | None => []
                           end)
               (split "," selection) in
    match selected with
    | [] => all_questions
    | _ :: _ => selected
    end.

(** What [self.context_file] holds: nothing, text [json.load] raises on,
    JSON that is not a list, or the list [_save_context] wrote, each entry
    with its timestamp. *)
Inductive context_file : Type :=
| NoFile
| Garbled
| NotAList
| Saved (entries : list (DatasetContext * string)).

(** [l[-n:]] for a positive [n]. *)
Definition last_n {A : Type} (n : nat) (l : list A) : list A :=
  skipn (List.length l - n) l.

(** What the write of lines 736-737 meets.  [open(..., 'w')] empties the
    file before [json.dump] writes the first character, so a write that
    fails once the file is open leaves the beginning of the text, or
    nothing: in either case no JSON. *)
Inductive write_outcome : Type :=
| Written             (* the whole text is in the file *)
| OpenRefused         (* [open] raises: the file is untouched *)
| WriteInterrupted.   (* [json.dump] or the write raises, the file being open *)

(** [_save_context] (lines 714-742): the file afterwards.  Every
    exception is caught.  Appending to what is not a list raises before
    the file is opened for writing, and leaves it as it was. *)
Definition _save_context (write : write_outcome) (timestamp : string)
    (context : DatasetContext) (file : context_file) : context_file :=
  let existing_contexts :=
    match file with
    | NoFile | Garbled => Some []
    | Saved entries => Some entries
    | NotAList => None
    end in
  match existing_contexts with
  | None => file
  | Some entries =>
      match write with
      | Written => Saved (last_n 10 (entries ++ [(context, timestamp)])%list)
      | OpenRefused => file
      | WriteInterrupted => Garbled
      end
  end.

(** [load_recent_context] (lines 744-766). *)
Definition load_recent_context (file : context_file) : option DatasetContext :=
  match file with
  | Saved entries =>
      match entries with
      | [] => None
      | _ :: _ => option_map fst (nth_error entries (List.length entries - 1))
      end
  | _ => None
  end.

(** The values [_parse_dataset_background] can give to the fields. *)
Definition parsed_subjects : list string :=
  ["general analysis"; "financial analysis"; "sales performance";
   "marketing analytics"; "operational analytics"].

Definition parsed_objectives : list string :=
  ["risk assessment"; "performance evaluation"; "trend analysis";
   "optimization analysis"; "general analysis"].

Definition parsed_audiences : list string := ["analysts"; "executives"; "managers"].

Definition parsed_urgencies : list string := ["medium"; "high"; "low"].

(** The fields are among them. *)
Definition fields_in_range (acc : fields) : Prop :=
  In (f_subject_area acc) parsed_subjects
  /\ Forall (fun objective => In objective parsed_objectives) (f_analysis_objectives acc)
  /\ In (f_target_audience acc) parsed_audiences
  /\ In (f_time_sensitivity acc) parsed_urgencies.

(** The subject a line decides on its own, the empty text if none. *)
Definition subject_of_line (raw_line : string) : string :=
  f_subject_area (parse_line (Fields "" [] "" "") raw_line).

(** How many lines of the background, in lower case, pass a test. *)
Definition matching_lines (test : string -> bool) (background_text : string) : nat :=
  List.length (filter (fun raw_line => test (strip raw_line))
                      (split LF (lower background_text))).

Definition occurrences (objective : string) (objectives : list string) : nat :=
  List.length (filter (String.eqb objective) objectives).

End Quick.

(* ===================================================================== *)
(** * The questions [main] asks ([src/core/main.py]) *)
(* ===================================================================== *)

Module Prompts.
Import Py Quick.

(** Digits with single underscores between them, as [int] reads them. *)
Fixpoint digits_underscores (acc : Z) (after_digit : bool) (s : string) : option Z :=
  match s with
  | EmptyString => if after_digit then Some acc else None
  | String c s' =>
      if isdecimal c
      then digits_underscores (10 * acc + Z.of_nat (digit_value c)) true s'
      else if Ascii.eqb c "_"
      then if after_digit then digits_underscores acc false s' else None
      else None
  end.

(** [int(s)] for a text [s] without surrounding whitespace and of fewer
    than 4300 digits; [None] stands for [ValueError]. *)
Definition py_int (s : string) : option Z :=
  match s with
  | String "-" digits => option_map Z.opp (digits_underscores 0 false digits)
  | String "+" digits => digits_underscores 0 false digits
  | digits => digits_underscores 0 false digits
  end.

Section Questions.

(** [int] on the text of an answer. *)
Variable int_of_str : string -> option Z.

(** The loop of lines 227-244 on the lines the user types: the count and
    the lines left.  [None] stands for the [EOFError] of [input] when no
    line is left. *)
Fixpoint ask_individual_count (answers : list string) : option (Z * list string) :=
  match answers with
  | [] => None
  | answer :: rest =>
      match int_of_str (strip answer) with
      | None => ask_individual_count rest
      | Some individual_count =>
          if (individual_count <? 1)%Z then ask_individual_count rest
          else if (50 <? individual_count)%Z then
            match rest with
            | [] => None
            | confirm :: rest' =>
                if is_yes confirm then Some (individual_count, rest')
                else ask_individual_count rest'
            end
          else Some (individual_count, rest)
      end
  end.

(** The loop of lines 250-277. *)
Fixpoint ask_comparison_count (answers : list string) : option (Z * list string) :=
  match answers with
  | [] => None
  | answer :: rest =>
      let comparison_input := strip answer in
      if is_empty comparison_input then Some (15%Z, rest)
      else
        match int_of_str comparison_input with
        | None => ask_comparison_count rest
        | Some comparison_count =>
            if (comparison_count <? 0)%Z then ask_comparison_count rest
            else if (comparison_count =? 0)%Z then Some (comparison_count, rest)
            else if (30 <? comparison_count)%Z then
              match rest with
              | [] => None
              | confirm :: rest' =>
                  if is_yes confirm then Some (comparison_count, rest')
                  else ask_comparison_count rest'
              end
            else Some (comparison_count, rest)
        end
  end.

(** [get_question_count_preferences] (lines 216-285); [recommended] is
    only printed. *)
Definition get_question_count_preferences (recommended : Z) (answers : list string)
  : option ((Z * Z) * list string) :=
  match ask_individual_count answers with
  | None => None
  | Some (individual_count, rest) =>
      match ask_comparison_count rest with
      | None => None
      | Some (comparison_count, rest') =>
          Some ((individual_count, comparison_count), rest')
      end
  end.

(** The loop of lines 292-301. *)
Fixpoint ask_number_of_files (answers : list string) : option (Z * list string) :=
  match answers with
  | [] => None
  | answer :: rest =>
      match int_of_str (strip answer) with
      | Some num_files =>
          if (0 <=? num_files)%Z then Some (num_files, rest)
          else ask_number_of_files rest
      | None => ask_number_of_files rest
      end
  end.

(** The loop of lines 309-315, for one path. *)
Fixpoint ask_file_path (answers : list string) : option (string * list string) :=
  match answers with
  | [] => None
  | answer :: rest =>
      let file_path := strip answer in
      if truthy file_path then Some (file_path, rest) else ask_file_path rest
  end.

(** The loop of lines 308-315. *)
Fixpoint ask_file_paths (num_files : nat) (answers : list string) : option (list string) :=
  match num_files with
  | O => Some []
  | S more =>
      match ask_file_path answers with
      | None => None
      | Some (file_path, rest) =>
          match ask_file_paths more rest with
          | None => None
          | Some file_paths => Some (file_path :: file_paths)
          end
      end
  end.

(** [get_user_input_file_paths] (lines 287-321): the handler of lines
    317-319 turns every exception, [EOFError] included, into the empty
    list. *)
Definition get_user_input_file_paths (answers : list string) : list string :=
  match ask_number_of_files answers with
  | None => []
  | Some (num_files, rest) =>
      if (num_files =? 0)%Z then []
      else match ask_file_paths (Z.to_nat num_files) rest with
           | Some file_paths => file_paths
           | None => []
           end
  end.

End Questions.

End Prompts.

(* ===================================================================== *)
(** * Questions as the formatter prints them *)
(* ===================================================================== *)

Module Printed.
Import Py.

(** A question as [format_output_final] prints it: not empty, without
    surrounding whitespace, on one line. *)
Definition printed_question (q : string) : Prop :=
  q <> "" /\ strip q = q /\ no_char LF q = true.

End Printed.

(* ===================================================================== *)
(** * The modes of [main] *)
(* ===================================================================== *)

Module Cli.
Import Py Offline Main.

















End Cli.

(* ===================================================================== *)
(** * More scenarios *)
(* ===================================================================== *)

Module MoreScenarios.
Import Py.

(** A small text file, which no reader is tried on. *)
Definition notes_file : Loader.world :=
  {| Loader.path_exists := true;
     Loader.path_isfile := true;
     Loader.path_getsize := inl 2048%Z;
     Loader.path_ext := ".TXT";
     Loader.user_input := inl "";
     Loader.read_csv := fun _ _ => inr (Loader.OtherError "not a table");
     Loader.read_excel := fun _ => inr (Loader.OtherError "not a workbook");
     Loader.read_json := fun _ => inr (Loader.OtherError "not JSON") |}.




End MoreScenarios.

(* ===================================================================== *)
(** * Facts about the string primitives *)
(* ===================================================================== *)

Module PyFacts.
Import Py.

Lemma split_not_nil (sep : ascii) (s : string) : split sep s <> [].
Proof.
  destruct s as [|c s]; simpl; [discriminate|].
  destruct (Ascii.eqb c sep); [discriminate|].
  destruct (split sep s); discriminate.
Qed.

Lemma split_app_sep (sep : ascii) (s t : string) :
  split sep (s ++ String sep t) = (split sep s ++ split sep t)%list.
Proof.
  induction s as [|c s IH]; simpl.
  - rewrite Ascii.eqb_refl. reflexivity.
  - rewrite IH. destruct (Ascii.eqb c sep); [reflexivity|].
    destruct (split sep s) eqn:E; [|reflexivity].
    exfalso. exact (split_not_nil _ _ E).
Qed.

Lemma split_no_sep (sep : ascii) (s : string) :
  no_char sep s = true -> split sep s = [s].
Proof.
  unfold no_char. induction s as [|c s IH]; simpl; [reflexivity|].
  intros H. apply andb_true_iff in H as [Hc Hs].
  apply negb_true_iff in Hc. rewrite Hc, (IH Hs). reflexivity.
Qed.

Lemma split_lines_no_sep (sep : ascii) (s : string) :
  Forall (fun l => no_char sep l = true) (split sep s).
Proof.
  induction s as [|c s IH]; simpl.
  - constructor; [reflexivity|constructor].
  - destruct (Ascii.eqb c sep) eqn:Hc.
    + constructor; [reflexivity|exact IH].
    + destruct (split sep s) as [|l ls].
      { constructor; [|constructor]. unfold no_char. simpl. rewrite Hc. reflexivity. }
      inversion IH; subst. constructor; [|assumption].
      unfold no_char in *. simpl. rewrite Hc. simpl. assumption.
Qed.

Lemma split_join (sep : ascii) (ls : list string) :
  ls <> [] -> Forall (fun l => no_char sep l = true) ls ->
  split sep (join (String sep "") ls) = ls.
Proof.
  induction ls as [|l ls IH]; [congruence|].
  intros _ H. inversion H as [|? ? Hl Hls]; subst.
  destruct ls as [|l' ls'].
  - simpl. apply split_no_sep; assumption.
  - change (join (String sep "") (l :: l' :: ls'))
      with (l ++ String sep (join (String sep "") (l' :: ls'))).
    rewrite split_app_sep, IH by (congruence || assumption).
    rewrite split_no_sep by assumption. reflexivity.
Qed.

Lemma prefix_nil (s : string) : prefix "" s = true.
Proof. destruct s; reflexivity. Qed.

Lemma prefix_cons_ne (a b : ascii) (p s : string) :
  a <> b -> prefix (String a p) (String b s) = false.
Proof. intros H. cbn [prefix]. destruct (ascii_dec a b); [contradiction|reflexivity]. Qed.

Lemma prefix_app (p s : string) : prefix p s = true -> exists w, s = p ++ w.
Proof.
  revert s. induction p as [|c p IH]; intros s H.
  - exists s. reflexivity.
  - destruct s as [|d s]; simpl in H; [discriminate|].
    destruct (ascii_dec c d) as [->|]; [|discriminate].
    destruct (IH s H) as [w ->]. exists w. reflexivity.
Qed.

Lemma prefix_refl_app (p w : string) : prefix p (p ++ w) = true.
Proof.
  induction p as [|c p IH]; simpl; [now destruct w|].
  destruct (ascii_dec c c); [assumption|congruence].
Qed.

Lemma drop_while_app (p : ascii -> bool) (s w : string) :
  drop_while p s <> "" -> drop_while p (s ++ w) = drop_while p s ++ w.
Proof.
  induction s as [|c s IH]; simpl; [congruence|].
  destruct (p c); [exact IH|reflexivity].
Qed.

Lemma lines_below_refl (ls : list string) : lines_below ls ls.
Proof.
  induction ls as [|l ls IH]; simpl; [exact I|].
  split; [|exact IH]. clear. induction l as [|c l IH]; simpl; [reflexivity|].
  destruct (ascii_dec c c); [assumption|congruence].
Qed.

End PyFacts.

(* ===================================================================== *)
(** * Facts about the normalizer *)
(* ===================================================================== *)

Module NormalizerFacts.
Import Py PyFacts Normalizer.

Lemma after_number_app (line w rest : string) :
  after_number line = Some rest -> after_number (line ++ w) = Some (rest ++ w).
Proof.
  unfold after_number. intros H.
  destruct (drop_while isspace line) as [|d s1] eqn:E1; [discriminate|].
  rewrite drop_while_app by (rewrite E1; discriminate).
  rewrite E1. change (String d s1 ++ w) with (String d (s1 ++ w)).
  cbv beta iota. destruct (isdecimal d) eqn:Hd; [|discriminate].
  destruct (drop_while isdecimal (String d s1)) as [|p r] eqn:E2; [discriminate|].
  change (String d (s1 ++ w)) with (String d s1 ++ w).
  rewrite drop_while_app by (rewrite E2; discriminate).
  rewrite E2. change (String p r ++ w) with (String p (r ++ w)). cbv beta iota.
  destruct (is_closer p); [|discriminate].
  injection H as <-. reflexivity.
Qed.

Lemma question_start_app (line w : string) :
  question_start line = true -> question_start (line ++ w) = true.
Proof.
  unfold question_start. intros H.
  destruct (after_number line) as [rest|] eqn:E; [|discriminate].
  rewrite (after_number_app _ w _ E).
  destruct rest as [|c rest]; [discriminate|]. exact H.
Qed.

Lemma question_start_prefix (l l' : string) :
  prefix l l' = true -> question_start l' = false -> question_start l = false.
Proof.
  intros Hp Hl'. destruct (prefix_app _ _ Hp) as [w ->].
  destruct (question_start l) eqn:E; [|reflexivity].
  rewrite (question_start_app _ w E) in Hl'. discriminate.
Qed.

Lemma header_end_of_start (line : string) :
  header_end line = false -> question_start line = false.
Proof.
  unfold header_end, question_start.
  destruct (after_number line); [discriminate|reflexivity].
Qed.

Lemma header_lines_spec (lines : list string) :
  Forall (fun l => question_start l = false) (header_lines lines).
Proof.
  induction lines as [|l ls IH]; simpl; [constructor|].
  destruct (header_end l) eqn:E; [constructor|].
  constructor; [apply header_end_of_start; exact E|exact IH].
Qed.

Lemma header_lines_incl (lines : list string) (P : string -> Prop) :
  Forall P lines -> Forall P (header_lines lines).
Proof.
  induction 1 as [|l ls Hl Hls IH]; simpl; [constructor|].
  destruct (header_end l); constructor; assumption.
Qed.

Lemma rstrip_lines (s : string) :
  lines_below (split LF (rstrip s)) (split LF s).
Proof.
  induction s as [|c s IH]; [simpl; split; [reflexivity|exact I]|].
  cbn [rstrip].
  destruct (is_empty (rstrip s) && isspace c).
  - pose proof (split_not_nil LF (String c s)) as Hne.
    destruct (split LF (String c s)); [congruence|].
    simpl. split; [apply prefix_nil|exact I].
  - cbn [split]. destruct (Ascii.eqb c LF).
    + simpl. split; [reflexivity|exact IH].
    + cbn [split]. pose proof (split_not_nil LF (rstrip s)) as Hr.
      pose proof (split_not_nil LF s) as Hs.
      destruct (split LF (rstrip s)) as [|l t]; [congruence|].
      destruct (split LF s) as [|l' t']; [congruence|].
      destruct IH as [Hp Ht]. simpl. split; [|exact Ht].
      destruct (ascii_dec c c); [exact Hp|congruence].
Qed.

Lemma lines_below_no_start (ls ls' : list string) :
  lines_below ls ls' ->
  Forall (fun l => question_start l = false) ls' ->
  Forall (fun l => question_start l = false) ls.
Proof.
  revert ls'. induction ls as [|l t IH]; intros ls' Hb Hall; [constructor|].
  destruct ls' as [|l' t']; [contradiction|].
  destruct Hb as [Hp Ht]. inversion Hall; subst.
  constructor; [eapply question_start_prefix; eassumption|eauto].
Qed.

(** The header the result starts with holds no numbered line. *)
Lemma header_no_start (text : string) :
  Forall (fun l => question_start l = false)
         (split LF (rstrip (join nl (header_lines (split LF text))))).
Proof.
  eapply lines_below_no_start; [apply rstrip_lines|].
  destruct (header_lines (split LF text)) as [|h hs] eqn:E.
  - simpl. constructor; [reflexivity|constructor].
  - unfold nl. rewrite split_join.
    + rewrite <- E. apply header_lines_spec.
    + discriminate.
    + rewrite <- E. apply header_lines_incl, split_lines_no_sep.
Qed.

Lemma scan_line_idle (qs : list string) (line : string) :
  question_start line = false ->
  scan_line (Scan qs [] false) line = Scan qs [] false.
Proof.
  intros H. unfold scan_line. rewrite H. simpl.
  rewrite andb_false_r. reflexivity.
Qed.

Lemma scan_idle (lines : list string) (qs : list string) :
  Forall (fun l => question_start l = false) lines ->
  fold_left scan_line lines (Scan qs [] false) = Scan qs [] false.
Proof.
  induction 1 as [|l ls Hl _ IH]; simpl; [reflexivity|].
  rewrite scan_line_idle by assumption. exact IH.
Qed.

Lemma scan_continuations (more : list string) (qs cur : list string) :
  Forall continuation more ->
  fold_left scan_line more (Scan qs cur true) = Scan qs (cur ++ more)%list true.
Proof.
  intros H. revert cur. induction H as [|l ls [Hq Hb] _ IH]; intros cur; simpl.
  - rewrite app_nil_r. reflexivity.
  - unfold scan_line at 2. rewrite Hq, Hb. simpl.
    rewrite IH, <- app_assoc. reflexivity.
Qed.

Lemma scan_item (item : list string) (qs : list string) :
  item_shape item ->
  fold_left scan_line item (Scan qs [] false) = Scan qs item true.
Proof.
  destruct item as [|first more]; [contradiction|].
  intros [Hf Hm]. simpl. unfold scan_line at 2. rewrite Hf. simpl.
  apply scan_continuations. exact Hm.
Qed.

(** Reading back a text made of well-formed items gives the items. *)
Lemma rescan_items (items : list (list string)) :
  Forall well_formed_item items ->
  forall qs,
    flush (fold_left scan_line (interleave items) (Scan qs [] false))
    = (qs ++ map (join nl) items)%list.
Proof.
  induction 1 as [|item rest [Hshape _] Hrest IH]; intros qs.
  - simpl. rewrite app_nil_r. reflexivity.
  - destruct rest as [|item' rest'].
    + simpl interleave. rewrite scan_item by assumption.
      destruct item; [contradiction|]. reflexivity.
    + change (interleave (item :: item' :: rest'))
        with (item ++ EmptyString :: interleave (item' :: rest'))%list.
      rewrite fold_left_app, scan_item by assumption.
      cbn [fold_left]. unfold scan_line at 2.
      change (question_start "") with false.
      change (blank "") with true.
      destruct item as [|first more]; [contradiction|].
      cbn [in_question current_question question_lines negb andb].
      rewrite IH. rewrite <- app_assoc. reflexivity.
Qed.

Lemma items_lines (items : list (list string)) :
  Forall well_formed_item items ->
  split LF (join (nl ++ nl) (map (join nl) items)) = interleave items.
Proof.
  induction 1 as [|item rest [Hshape Hlf] Hrest IH]; [reflexivity|].
  assert (Hitem : split LF (join nl item) = item).
  { apply split_join; [|exact Hlf]. destruct item; [contradiction|discriminate]. }
  destruct rest as [|item' rest'].
  - simpl. exact Hitem.
  - change (join (nl ++ nl) (map (join nl) (item :: item' :: rest')))
      with (join nl item
            ++ String LF (String LF (join (nl ++ nl) (map (join nl) (item' :: rest'))))).
    rewrite split_app_sep, Hitem.
    cbn [split]. rewrite Ascii.eqb_refl. cbv beta iota.
    rewrite IH. reflexivity.
Qed.

Lemma well_formed_snoc (item : list string) (line : string) :
  well_formed_item item -> continuation line -> no_char LF line = true ->
  well_formed_item (item ++ [line])%list.
Proof.
  intros [Hshape Hlf] Hc Hl. split.
  - destruct item as [|first more]; [contradiction|].
    destruct Hshape as [Hf Hm]. simpl. split; [exact Hf|].
    apply Forall_app. split; [exact Hm|]. constructor; [exact Hc|constructor].
  - apply Forall_app. split; [exact Hlf|]. constructor; [exact Hl|constructor].
Qed.

Lemma consecutive_in_snoc (part whole : list string) (line : string) :
  consecutive_in part whole -> consecutive_in part (whole ++ [line])%list.
Proof.
  intros [before [after ->]]. exists before, (after ++ [line])%list.
  rewrite <- !app_assoc. reflexivity.
Qed.

Lemma item_of_snoc (seen item : list string) (line : string) :
  item_of seen item -> item_of (seen ++ [line])%list item.
Proof. intros [Hwf Hc]. split; [exact Hwf|apply consecutive_in_snoc, Hc]. Qed.

Lemma items_of_snoc (seen : list string) (items : list (list string)) (line : string) :
  Forall (item_of seen) items -> Forall (item_of (seen ++ [line])%list) items.
Proof. intros H. eapply Forall_impl; [|exact H]. intros; now apply item_of_snoc. Qed.

Lemma flush_inv (seen : list string) (st : scan) :
  scan_inv seen st ->
  exists items, flush st = map (join nl) items /\ Forall (item_of seen) items.
Proof.
  intros [[items [Hq Hwf]] Hcur]. unfold flush.
  destruct (current_question st) as [|first more] eqn:E.
  - exists items. split; assumption.
  - destruct Hcur as [[Hnil _]|[Hitem [_ [before Hseen]]]]; [discriminate|].
    exists (items ++ [first :: more])%list. split.
    + rewrite Hq, map_app. reflexivity.
    + apply Forall_app. split; [exact Hwf|]. constructor; [|constructor].
      split; [exact Hitem|]. exists before, []. rewrite app_nil_r. exact Hseen.
Qed.

Lemma flush_inv_snoc (seen : list string) (st : scan) (line : string) :
  scan_inv seen st ->
  exists items, flush st = map (join nl) items
                /\ Forall (item_of (seen ++ [line])%list) items.
Proof.
  intros H. destruct (flush_inv seen st H) as [items [Hq Hi]].
  exists items. split; [exact Hq|apply items_of_snoc, Hi].
Qed.

Lemma scan_line_inv (seen : list string) (st : scan) (line : string) :
  scan_inv seen st -> no_char LF line = true ->
  scan_inv (seen ++ [line])%list (scan_line st line).
Proof.
  intros Hinv Hl. unfold scan_line.
  destruct (question_start line) eqn:Hq.
  - split; [exact (flush_inv_snoc seen st line Hinv)|]. right.
    split; [|split; [reflexivity|exists seen; reflexivity]].
    split; [simpl; split; [exact Hq|constructor]|].
    constructor; [exact Hl|constructor].
  - pose proof (flush_inv_snoc seen st line Hinv) as Hflush.
    destruct Hinv as [[items [Hitems Hof]] Hcur].
    assert (Hkeep : exists items0,
               question_lines st = map (join nl) items0
               /\ Forall (item_of (seen ++ [line])%list) items0).
    { exists items. split; [exact Hitems|apply items_of_snoc, Hof]. }
    destruct (in_question st && negb (blank line)) eqn:Hin.
    + apply andb_true_iff in Hin as [Hin Hb]. apply negb_true_iff in Hb.
      split; [exact Hkeep|]. right.
      destruct Hcur as [[_ Hfalse]|[Hitem [_ [before Hseen]]]]; [congruence|].
      split; [|split; [exact Hin|]].
      * apply well_formed_snoc; [exact Hitem| |exact Hl]. split; assumption.
      * exists before. cbn [current_question]. rewrite Hseen, app_assoc. reflexivity.
    + destruct (current_question st) as [|first more] eqn:E.
      * rewrite andb_false_r. split; [exact Hkeep|]. left.
        destruct Hcur as [[_ Hf]|[[Hshape _] _]]; [|contradiction].
        rewrite E. split; [reflexivity|exact Hf].
      * destruct (blank line) eqn:Hb; cbn [andb negb].
        -- split; [|left; split; reflexivity].
           unfold flush in Hflush. rewrite E in Hflush. exact Hflush.
        -- apply andb_false_iff in Hin as [Hin|Hin]; [|discriminate].
           destruct Hcur as [[Hnil _]|[_ [Htrue _]]]; congruence.
Qed.

Lemma scan_inv_fold (lines seen : list string) (st : scan) :
  scan_inv seen st -> Forall (fun l => no_char LF l = true) lines ->
  scan_inv (seen ++ lines)%list (fold_left scan_line lines st).
Proof.
  intros Hinv H. revert seen st Hinv.
  induction H as [|l ls Hl _ IH]; intros seen st Hinv; simpl.
  - rewrite app_nil_r. exact Hinv.
  - change (l :: ls) with ([l] ++ ls)%list. rewrite app_assoc.
    apply IH, scan_line_inv; assumption.
Qed.

Lemma scan0_inv : scan_inv [] scan0.
Proof.
  split; [exists []; split; [reflexivity|constructor]|].
  left. split; reflexivity.
Qed.

(** Every extracted item is the join of a numbered line of the text and of
    the lines that follow it, taken verbatim. *)
Lemma extracted_items_shape (text : string) :
  exists items, extracted_items text = map (join nl) items
                /\ Forall (item_of (split LF text)) items.
Proof.
  apply flush_inv. apply (scan_inv_fold (split LF text) [] scan0 scan0_inv).
  apply split_lines_no_sep.
Qed.

Lemma Forall_firstn {A : Type} (P : A -> Prop) (k : nat) (l : list A) :
  Forall P l -> Forall P (firstn k l).
Proof.
  intros H. revert k. induction H as [|x l Hx _ IH]; intros [|k]; simpl;
    constructor; auto.
Qed.

Lemma slice_to_firstn {A : Type} (n : Z) (l : list A) :
  exists k, slice_to n l = firstn k l.
Proof. unfold slice_to. destruct (0 <=? n)%Z; eexists; reflexivity. Qed.

Lemma trim_to_count_firstn (n : Z) (qs : list string) :
  exists k, trim_to_count n qs = firstn k qs.
Proof.
  unfold trim_to_count. destruct (Z.of_nat (List.length qs) >? n)%Z.
  - apply slice_to_firstn.
  - exists (List.length qs). symmetry. apply firstn_all.
Qed.

Lemma trimmed_questions_shape (text : string) (n : Z) :
  exists items, trimmed_questions text n = map (join nl) items
                /\ Forall (item_of (split LF text)) items.
Proof.
  unfold trimmed_questions.
  destruct (extracted_items_shape text) as [items [-> Hwf]].
  destruct (trim_to_count_firstn n (map (join nl) items)) as [k ->].
  exists (firstn k items). split; [apply firstn_map|].
  apply Forall_firstn. exact Hwf.
Qed.

(** Reading the returned text back gives the items that were kept. *)
Lemma extracted_items_of_result (text : string) (n : Z) :
  extracted_items (_trim_questions_to_exact_count text n) = trimmed_questions text n.
Proof.
  destruct (trimmed_questions_shape text n) as [items [Hq Hof]].
  assert (Hwf : Forall well_formed_item items).
  { eapply Forall_impl; [|exact Hof]. intros it [H _]. exact H. }
  unfold extracted_items at 1, _trim_questions_to_exact_count, extract_questions.
  rewrite Hq.
  change ((nl ++ nl) ++ ?x) with (String LF (String LF x)).
  rewrite split_app_sep, fold_left_app. unfold scan0.
  rewrite (scan_idle _ [] (header_no_start text)).
  cbn [split]. rewrite Ascii.eqb_refl. cbv beta iota.
  cbn [fold_left]. rewrite scan_line_idle by reflexivity.
  rewrite items_lines by assumption.
  apply (rescan_items items Hwf []).
Qed.

End NormalizerFacts.

(* ===================================================================== *)
(** * Facts about the formatter *)
(* ===================================================================== *)

Module FormatterFacts.
Import Py PyFacts Normalizer Formatter.

Ltac by_cases_on_char c :=
  destruct c as [[] [] [] [] [] [] [] []]; vm_compute; try reflexivity;
  intros; try discriminate.

Lemma decimal_not_space (c : ascii) : isdecimal c = true -> isspace c = false.
Proof. by_cases_on_char c. Qed.

Lemma decimal_is_digit (c : ascii) : isdecimal c = true -> isdigit_char c = true.
Proof. by_cases_on_char c. Qed.

Lemma decimal_not_closer (c : ascii) : isdecimal c = true -> is_closer c = false.
Proof. by_cases_on_char c. Qed.

Lemma decimal_not_dot (c : ascii) :
  isdecimal c = true -> c <> "."%char.
Proof. intros H ->. discriminate H. Qed.

Lemma drop_decimal (ds rest : string) (c : ascii) :
  decimal ds -> isdecimal c = false ->
  drop_while isdecimal (ds ++ String c rest) = String c rest.
Proof.
  unfold decimal. induction ds as [|d ds IH]; simpl; intros H Hc.
  - rewrite Hc. reflexivity.
  - apply andb_true_iff in H as [Hd Hds]. rewrite Hd. auto.
Qed.

Lemma take_decimal (ds rest : string) (c : ascii) :
  decimal ds -> isdecimal c = false ->
  take_while isdecimal (ds ++ String c rest) = ds.
Proof.
  unfold decimal. induction ds as [|d ds IH]; simpl; intros H Hc.
  - rewrite Hc. reflexivity.
  - apply andb_true_iff in H as [Hd Hds]. rewrite Hd. f_equal. auto.
Qed.

Lemma strip_decimal (ds : string) : decimal ds -> strip ds = ds.
Proof.
  unfold decimal, strip, lstrip. intros H.
  assert (Hl : drop_while isspace ds = ds).
  { destruct ds as [|d ds]; [reflexivity|]. simpl in *.
    apply andb_true_iff in H as [Hd _]. now rewrite (decimal_not_space _ Hd). }
  rewrite Hl. induction ds as [|d ds IH]; [reflexivity|].
  simpl in H. apply andb_true_iff in H as [Hd Hds].
  cbn [rstrip]. rewrite (decimal_not_space _ Hd), andb_false_r.
  f_equal. apply IH; [exact Hds|].
  destruct ds as [|e ds]; [reflexivity|]. simpl in *.
  apply andb_true_iff in Hds as [He _]. now rewrite (decimal_not_space _ He).
Qed.

Lemma isdigit_decimal (ds : string) : decimal ds -> ds <> "" -> isdigit ds = true.
Proof.
  unfold decimal, isdigit. intros H Hne.
  destruct ds as [|d ds]; [congruence|]. cbn [truthy is_empty negb andb].
  clear Hne. revert H. generalize (String d ds). clear.
  induction s as [|c s IH]; simpl; [reflexivity|].
  intros H. apply andb_true_iff in H as [Hc Hs].
  rewrite (decimal_is_digit _ Hc). auto.
Qed.

Lemma split_once_decimal (ds body : string) :
  decimal ds -> split_once ". " (ds ++ ". " ++ body) = [ds; body].
Proof.
  unfold decimal. induction ds as [|d ds IH]; intros H.
  - simpl. destruct body; reflexivity.
  - simpl in H. apply andb_true_iff in H as [Hd Hds].
    change ((String d ds) ++ ". " ++ body) with (String d (ds ++ ". " ++ body)).
    cbn [split_once]. rewrite (IH Hds).
    assert (Hp : prefix ". " (String d (ds ++ ". " ++ body)) = false).
    { apply prefix_cons_ne. intros <-. discriminate Hd. }
    rewrite Hp. reflexivity.
Qed.

(** The formatter takes a leading number and its [". "] off a line. *)
Lemma format_question_numbered (ds body : string) :
  decimal ds -> ds <> "" -> format_question (ds ++ ". " ++ body) = strip body.
Proof.
  intros H Hne. unfold format_question.
  rewrite (split_once_decimal _ _ H), (strip_decimal _ H), (isdigit_decimal _ H Hne).
  reflexivity.
Qed.

Lemma question_start_numbered (ds body : string) :
  decimal ds -> ds <> "" -> question_start (ds ++ ". " ++ body) = true.
Proof.
  intros H Hne. unfold question_start, after_number.
  destruct ds as [|d ds]; [congruence|].
  unfold decimal in H. simpl in H. apply andb_true_iff in H as [Hd Hds].
  change (String d ds ++ ". " ++ body) with (String d (ds ++ ". " ++ body)).
  cbn [drop_while]. rewrite (decimal_not_space _ Hd). cbv beta iota. rewrite Hd.
  change (ds ++ ". " ++ body) with (ds ++ String "." (" " ++ body)).
  rewrite drop_decimal by (assumption || reflexivity).
  reflexivity.
Qed.

Lemma written_number_numbered (ds body : string) :
  decimal ds -> ds <> "" ->
  written_number (ds ++ ". " ++ body) = Some (int_of_digits ds).
Proof.
  intros H Hne. unfold written_number.
  rewrite question_start_numbered by assumption.
  destruct ds as [|d ds]; [congruence|].
  assert (Hd : isdecimal d = true).
  { unfold decimal in H. simpl in H. now apply andb_true_iff in H as [Hd _]. }
  change (String d ds ++ ". " ++ body) with (String d (ds ++ ". " ++ body)).
  cbn [drop_while]. rewrite (decimal_not_space _ Hd).
  change (String d (ds ++ ". " ++ body)) with (String d ds ++ String "." (" " ++ body)).
  rewrite take_decimal by (assumption || reflexivity).
  reflexivity.
Qed.

(** [str(n)] is a non-empty string of decimal digits that reads back as [n]. *)
Lemma string_of_uint_decimal (d : Decimal.uint) :
  decimal (NilEmpty.string_of_uint d).
Proof. unfold decimal. induction d; simpl; auto. Qed.

Lemma str_of_nat_decimal (n : nat) : decimal (str_of_nat n).
Proof.
  unfold str_of_nat, NilZero.string_of_uint.
  destruct (Nat.to_uint n); try apply string_of_uint_decimal. reflexivity.
Qed.

Lemma str_of_nat_not_empty (n : nat) : str_of_nat n <> "".
Proof.
  unfold str_of_nat, NilZero.string_of_uint.
  destruct (Nat.to_uint n); simpl; discriminate.
Qed.

Lemma digits_value_of_uint (d : Decimal.uint) (acc : nat) :
  digits_value acc (NilEmpty.string_of_uint d) = Nat.of_uint_acc d acc.
Proof.
  revert acc. induction d; intros acc; cbn [NilEmpty.string_of_uint digits_value Nat.of_uint_acc];
    [reflexivity|..]; rewrite IHd; f_equal; rewrite Nat.tail_mul_spec;
    change (digit_value _) with 0 || change (digit_value _) with 1
    || change (digit_value _) with 2 || change (digit_value _) with 3
    || change (digit_value _) with 4 || change (digit_value _) with 5
    || change (digit_value _) with 6 || change (digit_value _) with 7
    || change (digit_value _) with 8 || change (digit_value _) with 9; lia.
Qed.

Lemma int_of_str_of_nat (n : nat) : int_of_digits (str_of_nat n) = n.
Proof.
  unfold int_of_digits, str_of_nat, NilZero.string_of_uint.
  rewrite <- (DecimalNat.Unsigned.of_to n) at 2.
  unfold Nat.of_uint.
  destruct (Nat.to_uint n); try apply digits_value_of_uint. reflexivity.
Qed.

Lemma number_from_length (i : nat) (qs : list string) :
  List.length (number_from i qs) = List.length qs.
Proof. revert i. induction qs; intros i; simpl; auto. Qed.

Lemma number_from_nth (qs : list string) (i k : nat) :
  nth_error (number_from i qs) k
  = option_map (fun q => str_of_nat (i + k) ++ ". " ++ q) (nth_error qs k).
Proof.
  revert i k. induction qs as [|q qs IH]; intros i [|k]; simpl; try reflexivity.
  - rewrite Nat.add_0_r. reflexivity.
  - rewrite IH. replace (S i + k) with (i + S k) by lia. reflexivity.
Qed.

Lemma number_from_positions (qs : list string) (i : nat) :
  written_positions (number_from i qs) = map Some (seq i (List.length qs)).
Proof.
  revert i. induction qs as [|q qs IH]; intros i; [reflexivity|].
  unfold written_positions in *.
  cbn [number_from map List.length seq]. rewrite IH. f_equal.
  rewrite written_number_numbered
    by (apply str_of_nat_decimal || apply str_of_nat_not_empty).
  rewrite int_of_str_of_nat. reflexivity.
Qed.

End FormatterFacts.

(* ===================================================================== *)
(** * The normalizer: what it keeps, and what it renumbers *)
(* ===================================================================== *)

Module NormalizerClaims.
Import Py PyFacts Normalizer Formatter NormalizerFacts FormatterFacts.

(** C1, as stated, fails: with at least two items in the text and two
    requested, the returned block keeps the numbers 3 and 7 its items were
    written with, so its positions are not 1, 2; and when the block is
    passed on to [format_output_final], which does renumber, four items
    come out, not two. *)
Lemma C1_block_is_not_renumbered :
  (1 <= 2)%Z
  /\ (2 <= Z.of_nat (List.length (extracted_items Scenarios.odd_numbers)))%Z
  /\ _trim_questions_to_exact_count Scenarios.odd_numbers 2
     = "Intro" ++ nl ++ nl ++ "3. A" ++ nl ++ "more" ++ nl ++ nl ++ "7. B"
  /\ trimmed_questions Scenarios.odd_numbers 2 = ["3. A" ++ nl ++ "more"; "7. B"]
  /\ written_positions (trimmed_questions Scenarios.odd_numbers 2) = [Some 3; Some 7]
  /\ ~ numbered_from_1 (trimmed_questions Scenarios.odd_numbers 2)
  /\ format_task_result Scenarios.header
       (_trim_questions_to_exact_count Scenarios.odd_numbers 2)
     = [nl ++ Scenarios.header; "1. Intro"; "2. A"; "3. more"; "4. B"].
Proof.
  repeat split; try (vm_compute; (reflexivity || discriminate)).
Qed.

(** C1, as amended: for every text and every requested count of at least
    1, when the text holds at least that many items, the block that
    [_trim_questions_to_exact_count] returns holds exactly the requested
    number of items, namely the first ones extracted, in their order;
    reading the returned text back gives exactly these items; and each item
    keeps the number it was written with (the block is not renumbered). *)
Theorem C1_trim_keeps_the_first_items (text : string) (requested_count : Z) :
  (1 <= requested_count)%Z ->
  (requested_count <= Z.of_nat (List.length (extracted_items text)))%Z ->
  let kept := trimmed_questions text requested_count in
  kept = firstn (Z.to_nat requested_count) (extracted_items text)
  /\ Z.of_nat (List.length kept) = requested_count
  /\ extracted_items (_trim_questions_to_exact_count text requested_count) = kept
  /\ written_positions kept
     = firstn (Z.to_nat requested_count) (written_positions (extracted_items text)).
Proof.
  intros Hpos Hle kept.
  assert (Hkept : kept = firstn (Z.to_nat requested_count) (extracted_items text)).
  { unfold kept, trimmed_questions, trim_to_count, slice_to.
    destruct (Z.of_nat (List.length (extracted_items text)) >? requested_count)%Z eqn:E.
    - destruct (0 <=? requested_count)%Z eqn:E0; [reflexivity|].
      apply Z.leb_gt in E0. lia.
    - symmetry. apply firstn_all2.
      pose proof (Zgt_cases (Z.of_nat (List.length (extracted_items text))) requested_count) as H.
      rewrite E in H. lia. }
  repeat split.
  - exact Hkept.
  - rewrite Hkept, length_firstn. lia.
  - apply extracted_items_of_result.
  - rewrite Hkept. unfold written_positions. symmetry. apply firstn_map.
Qed.

Lemma C1_witness :
  Z.of_nat (List.length (trimmed_questions Scenarios.multi_line 2)) = 2%Z.
Proof.
  refine (proj1 (proj2 (C1_trim_keeps_the_first_items Scenarios.multi_line 2 _ _))).
  - intro H; discriminate H.
  - intro H; vm_compute in H; discriminate H.
Defined.

(** C2: for every text from which fewer items are extracted than requested,
    the normalizer returns exactly the extracted items (it is a total
    function: nothing is raised, nothing is invented), and reading the
    returned text back gives these items again; the text
    ["1) Alpha\n2) Beta\n3) Gamma"] with 5 requested gives 3 items. *)
Theorem C2_fewer_items_than_requested (text : string) (requested_count : Z) :
  (Z.of_nat (List.length (extracted_items text)) < requested_count)%Z ->
  trimmed_questions text requested_count = extracted_items text
  /\ extracted_items (_trim_questions_to_exact_count text requested_count)
     = extracted_items text
  /\ trimmed_questions Scenarios.three_items 5 = ["1) Alpha"; "2) Beta"; "3) Gamma"]
  /\ _trim_questions_to_exact_count Scenarios.three_items 5
     = nl ++ nl ++ "1) Alpha" ++ nl ++ nl ++ "2) Beta" ++ nl ++ nl ++ "3) Gamma".
Proof.
  intros Hlt.
  assert (Hall : trimmed_questions text requested_count = extracted_items text).
  { unfold trimmed_questions, trim_to_count.
    destruct (Z.of_nat (List.length (extracted_items text)) >? requested_count)%Z eqn:E;
      [|reflexivity].
    apply Z.gtb_lt in E. lia. }
  repeat split.
  - exact Hall.
  - rewrite extracted_items_of_result. exact Hall.
Qed.

Lemma C2_witness :
  trimmed_questions Scenarios.three_items 5 = extracted_items Scenarios.three_items.
Proof.
  refine (proj1 (C2_fewer_items_than_requested Scenarios.three_items 5 _)).
  reflexivity.
Defined.

(** C3, as stated, fails on its own scenario: the items of the returned
    block still carry ["1. "] and ["2. "], and the second one holds its two
    lines with the line feed between them; [format_output_final], which
    strips and renumbers, works line by line and makes three items of
    them. *)
Lemma C3_items_are_not_stripped :
  _trim_questions_to_exact_count Scenarios.multi_line 2
  = nl ++ nl ++ "1. First question" ++ nl ++ nl
    ++ "2. Second" ++ nl ++ "question continued"
  /\ trimmed_questions Scenarios.multi_line 2
     = ["1. First question"; "2. Second" ++ nl ++ "question continued"]
  /\ trimmed_questions Scenarios.multi_line 2
     <> ["First question"; "Second question continued"]
  /\ format_task_result Scenarios.header
       (_trim_questions_to_exact_count Scenarios.multi_line 2)
     = [nl ++ Scenarios.header;
        "1. First question"; "2. Second"; "3. question continued"]
  /\ final_items Scenarios.header
       (_trim_questions_to_exact_count Scenarios.multi_line 2)
     = ["First question"; "Second"; "question continued"]
  /\ final_items Scenarios.header
       (_trim_questions_to_exact_count Scenarios.multi_line 2)
     <> ["First question"; "Second question continued"].
Proof.
  repeat split; try (vm_compute; (reflexivity || discriminate)).
Qed.

(** C3, as amended: [_trim_questions_to_exact_count] keeps every item
    verbatim: a numbered line of the text, numbering token included, and
    the lines that follow it, joined by line feeds.  Stripping and
    renumbering are done by [format_output_final], line by line: a line
    made of a number, [". "] and a body becomes the body without its
    surrounding white space, and the lines it prints are numbered 1, 2, 3,
    ... whatever the numbers in the text were.  For the text
    ["1. First question\n\n2. Second\nquestion continued\n\n3. Third"] and 2
    requested, the block holds ["1. First question"] and
    ["2. Second\nquestion continued"], the third item is discarded, and
    [format_output_final] prints three numbered lines for it. *)
Theorem C3_trim_keeps_verbatim_and_format_renumbers
    (text : string) (requested_count : Z) (header content digits body : string) :
  decimal digits -> digits <> "" ->
  (exists items,
      trimmed_questions text requested_count = map (join nl) items
      /\ Forall (item_of (split LF text)) items)
  /\ format_question (digits ++ ". " ++ body) = strip body
  /\ numbered_from_1 (final_block header content)
  /\ List.length (final_block header content)
     = List.length (final_items header content)
  /\ (startswith (lower (strip content)) "error executing task" = false ->
      final_items header content <> [] ->
      format_task_result header content
      = (nl ++ strip header) :: final_block header content)
  /\ trimmed_questions Scenarios.multi_line 2
     = ["1. First question"; "2. Second" ++ nl ++ "question continued"]
  /\ format_task_result Scenarios.header
       (_trim_questions_to_exact_count Scenarios.multi_line 2)
     = [nl ++ Scenarios.header;
        "1. First question"; "2. Second"; "3. question continued"].
Proof.
  intros Hd Hne. repeat split.
  - apply trimmed_questions_shape.
  - apply format_question_numbered; assumption.
  - unfold numbered_from_1, final_block.
    rewrite number_from_positions, number_from_length. reflexivity.
  - apply number_from_length.
  - intros Herr Hitems. unfold format_task_result, final_block, final_items in *.
    rewrite Herr.
    destruct (formatted_questions header (strip content)); [congruence|reflexivity].
Qed.

Lemma C3_witness :
  format_question ("12" ++ ". " ++ " Which one? ") = "Which one?".
Proof.
  refine (proj1 (proj2 (C3_trim_keeps_verbatim_and_format_renumbers
                          Scenarios.multi_line 2 Scenarios.header "" "12" " Which one? " _ _))).
  - reflexivity.
  - discriminate.
Defined.

End NormalizerClaims.

(* ===================================================================== *)
(** * The offline templates *)
(* ===================================================================== *)

Module OfflineClaims.
Import Py Normalizer Offline.

(** Within the size of a template list, the text the offline generator
    returns for a task holds exactly the requested number of items,
    numbered 1, 2, 3, ... *)
Lemma offline_result_within_templates
    (task : Task) (context : Context.DatasetContext) (n : Z) :
  (1 <= n)%Z ->
  (n <= if contains "comparison" (lower (description task)) then 10 else 15)%Z ->
  let items := extracted_items (offline_result task context n) in
  Z.of_nat (List.length items) = n /\ numbered_from_1 items.
Proof.
  intros Hlo Hhi. unfold offline_result, dataset_name_of.
  destruct (contains "comparison" (lower (description task))).
  - assert (H : (n = 1 \/ n = 2 \/ n = 3 \/ n = 4 \/ n = 5 \/ n = 6 \/ n = 7
                 \/ n = 8 \/ n = 9 \/ n = 10)%Z) by lia.
    repeat (destruct H as [->|H]); try subst n; split; vm_compute; reflexivity.
  - assert (H : (n = 1 \/ n = 2 \/ n = 3 \/ n = 4 \/ n = 5 \/ n = 6 \/ n = 7
                 \/ n = 8 \/ n = 9 \/ n = 10 \/ n = 11 \/ n = 12 \/ n = 13
                 \/ n = 14 \/ n = 15)%Z) by lia.
    destruct (contains "Assets.csv" (description task));
      [|destruct (contains "Liabilities.csv" (description task));
        [|destruct (contains "Top_10_Ratio.csv" (description task))]];
      repeat (destruct H as [->|H]); try subst n; split; vm_compute; reflexivity.
Qed.

(** Beyond the size of a template list, the slice is the whole list: the
    returned text is the one for 15 questions (10 for the comparison). *)
Lemma offline_result_beyond_templates
    (task : Task) (context : Context.DatasetContext) (n : Z) :
  ((if contains "comparison" (lower (description task)) then 10 else 15) <= n)%Z ->
  offline_result task context n
  = offline_result task context
      (if contains "comparison" (lower (description task)) then 10 else 15).
Proof.
  intros H. unfold offline_result.
  destruct (contains "comparison" (lower (description task))).
  - unfold _generate_offline_comparison_result, comparison_slice, slice_to.
    destruct (0 <=? n)%Z eqn:E; [|apply Z.leb_gt in E; lia].
    rewrite firstn_all2 by (cbn [List.length comparison_questions]; lia).
    reflexivity.
  - unfold _generate_offline_individual_result, individual_questions, slice_to.
    destruct (0 <=? n)%Z eqn:E; [|apply Z.leb_gt in E; lia].
    assert (Hlen : List.length (template_questions (dataset_name_of task)) = 15).
    { unfold dataset_name_of.
      destruct (contains "Assets.csv" (description task)); [reflexivity|].
      destruct (contains "Liabilities.csv" (description task)); [reflexivity|].
      destruct (contains "Top_10_Ratio.csv" (description task)); [reflexivity|].
      destruct (contains "comparison" (lower (description task))); reflexivity. }
    rewrite firstn_all2 by (rewrite Hlen; lia).
    cbn [Z.leb Z.compare Pos.compare Pos.compare_cont].
    rewrite (firstn_all2 (n := Z.to_nat 15)) by (rewrite Hlen; reflexivity).
    reflexivity.
Qed.

(** C4, at counts beyond the templates: slicing a list of 15 (10 for the
    comparison) cannot give more, so 20 requested for [Assets.csv] give 15
    items and 15 requested for the comparison give 10, which is what
    [_generate_offline_results] asks for by default; up to 15 (and 10) the
    returned text holds exactly the requested number of items, numbered
    from 1. *)
Theorem C4_offline_templates_run_out (task : Task) (context : Context.DatasetContext) :
  List.length (individual_questions "Assets.csv" 20) = 15
  /\ List.length
       (extracted_items (_generate_offline_individual_result "Assets.csv" context 20)) = 15
  /\ List.length
       (extracted_items (offline_result Scenarios.assets_task context 20)) = 15
  /\ List.length (comparison_slice 15) = 10
  /\ List.length
       (extracted_items (offline_result Scenarios.comparison_task context 15)) = 10
  /\ expected_count_for None 0 = 15%Z
  /\ map (fun result => List.length (extracted_items result))
         (_generate_offline_results [Scenarios.comparison_task] context None) = [10]
  /\ List.length (template_questions (dataset_name_of task)) = 15
  /\ List.length comparison_questions = 10.
Proof.
  repeat split; try (vm_compute; reflexivity).
  unfold dataset_name_of.
  destruct (contains "Assets.csv" (description task)); [reflexivity|].
  destruct (contains "Liabilities.csv" (description task)); [reflexivity|].
  destruct (contains "Top_10_Ratio.csv" (description task)); [reflexivity|].
  destruct (contains "comparison" (lower (description task))); reflexivity.
Qed.

End OfflineClaims.

(* ===================================================================== *)
(** * The generation step of [main] *)
(* ===================================================================== *)

Module MainClaims.
Import Py Offline Main Cli.













End MainClaims.

(* ===================================================================== *)
(** * The ingestion validator *)
(* ===================================================================== *)

Module LoaderFacts.
Import Py PyFacts Loader.

Lemma forallb_str_app (p : ascii -> bool) (a b : string) :
  forallb_str p (a ++ b) = forallb_str p a && forallb_str p b.
Proof. induction a as [|c a IH]; simpl; [reflexivity|]. now rewrite IH, andb_assoc. Qed.

Lemma forallb_str_impl (p q : ascii -> bool) (s : string) :
  (forall c, p c = true -> q c = true) ->
  forallb_str p s = true -> forallb_str q s = true.
Proof.
  intros Hpq. induction s as [|c s IH]; simpl; [reflexivity|].
  intros H. apply andb_true_iff in H as [Hc Hs]. now rewrite (Hpq _ Hc), IH.
Qed.

Lemma contains_first_char (c : ascii) (p s : string) :
  no_char c s = true -> contains (String c p) s = false.
Proof.
  unfold no_char. induction s as [|d s IH]; intros H; [reflexivity|].
  simpl in H. apply andb_true_iff in H as [Hd Hs].
  apply negb_true_iff, Ascii.eqb_neq in Hd.
  cbn [contains]. rewrite prefix_cons_ne by congruence. exact (IH Hs).
Qed.

Lemma string_of_uint_numeric (d : Decimal.uint) :
  forallb_str numeric_char (NilEmpty.string_of_uint d) = true.
Proof. induction d; simpl; auto. Qed.

Lemma str_of_Z_numeric (z : Z) : forallb_str numeric_char (str_of_Z z) = true.
Proof.
  unfold str_of_Z, NilZero.string_of_int, NilZero.string_of_uint.
  destruct (Z.to_int z) as [d|d]; destruct d; simpl;
    try reflexivity; apply string_of_uint_numeric.
Qed.

Lemma zeros_numeric (n : nat) : forallb_str numeric_char (zeros n) = true.
Proof. induction n; simpl; auto. Qed.

Lemma format_fixed_numeric (d : nat) (num : Z) (den : positive) :
  forallb_str numeric_char (format_fixed false d num den) = true.
Proof.
  unfold format_fixed, pad_left_zeros.
  destruct (num <? 0)%Z; destruct d as [|d'];
    rewrite ?forallb_str_app, ?str_of_Z_numeric, ?zeros_numeric; reflexivity.
Qed.

Lemma numeric_not_W (c : ascii) :
  numeric_char c = true -> negb (Ascii.eqb c "W") = true.
Proof. destruct c as [[] [] [] [] [] [] [] []]; vm_compute; congruence. Qed.

(** The message for a file of ordinary size does not hold the word the
    caller looks for. *)
Lemma size_ok_no_warning (file_size_bytes : Z) :
  contains "WARNING" ("File size OK: " ++ size_mb_str 2 file_size_bytes ++ "MB") = false.
Proof.
  apply contains_first_char. unfold no_char.
  assert (H : forallb_str (fun x => negb (Ascii.eqb x "W"))
                           (size_mb_str 2 file_size_bytes) = true).
  { apply (forallb_str_impl numeric_char); [exact numeric_not_W|].
    apply format_fixed_numeric. }
  rewrite !forallb_str_app, H. reflexivity.
Qed.

Lemma large_file_warning (file_size_bytes : Z) :
  contains "WARNING"
    ("WARNING: Large file detected (" ++ size_mb_str 1 file_size_bytes
     ++ "MB). Loading may take time.") = true.
Proof. reflexivity. Qed.

Lemma fst_bind {A B : Type} (m : IO A) (k : A -> IO B) :
  fst (bind m k) = match snd m with
                   | inl a => (fst m ++ fst (k a))%list
                   | inr _ => fst m
                   end.
Proof.
  destruct m as [t [a|e]]; cbn [bind fst snd]; [|reflexivity].
  destruct (k a). reflexivity.
Qed.

Lemma gate_reads (w : world) (file_path : string) (interactive : bool) :
  reads (fst (safety_gate w file_path interactive)) = [].
Proof.
  unfold safety_gate. destruct (check_file_safety w file_path) as [is_safe msg].
  destruct is_safe; cbn [negb]; [|reflexivity].
  destruct (contains "WARNING" msg); [|reflexivity].
  destruct interactive; [|reflexivity].
  cbn [bind emit call]. destruct (user_input w) as [answer|e]; [|reflexivity].
  destruct (negb _); reflexivity.
Qed.

Lemma reads_reraise {A : Type} (file_path : string) (m : IO A) :
  reads (fst (logged_reraise file_path m)) = reads (fst m).
Proof.
  destruct m as [t [a|[msg|msg|msg|msg|msg]]]; cbn [logged_reraise fst];
    try reflexivity; unfold reads; rewrite filter_app; cbn; apply app_nil_r.
Qed.

End LoaderFacts.

Module LoaderClaims.
Import Py PyFacts Loader LoaderFacts.

Section SizeBands.

Variable w : world.
Variable file_path : string.
Variable file_size_bytes : Z.

Hypothesis file_exists : path_exists w = true.
Hypothesis file_isfile : path_isfile w = true.
Hypothesis file_size : path_getsize w = inl file_size_bytes.

Lemma check_too_large :
  (ceiling_bytes < file_size_bytes)%Z ->
  check_file_safety w file_path = (false, too_large_msg file_size_bytes).
Proof.
  intros H. unfold check_file_safety.
  rewrite file_exists, file_isfile, file_size. cbn [negb].
  unfold size_mb_gt. fold ceiling_bytes.
  apply Z.ltb_lt in H. rewrite H. reflexivity.
Qed.

Lemma check_large :
  (large_bytes < file_size_bytes <= ceiling_bytes)%Z ->
  check_file_safety w file_path = (true, large_file_msg file_size_bytes).
Proof.
  intros [Hlo Hhi]. unfold check_file_safety.
  rewrite file_exists, file_isfile, file_size. cbn [negb].
  unfold size_mb_gt. fold ceiling_bytes. fold large_bytes.
  apply Z.ltb_lt in Hlo. rewrite Hlo.
  apply Z.ltb_ge in Hhi. rewrite Hhi. reflexivity.
Qed.

Lemma check_ok :
  (file_size_bytes <= large_bytes)%Z ->
  check_file_safety w file_path = (true, size_ok_msg file_size_bytes).
Proof.
  intros H. unfold check_file_safety.
  rewrite file_exists, file_isfile, file_size. cbn [negb].
  unfold size_mb_gt. fold ceiling_bytes. fold large_bytes.
  assert (Hc : (file_size_bytes <= ceiling_bytes)%Z)
    by (unfold ceiling_bytes, large_bytes in *; cbn in *; lia).
  apply Z.ltb_ge in H. rewrite H.
  apply Z.ltb_ge in Hc. rewrite Hc. reflexivity.
Qed.

(** C5: the size policy has three bands.  Above 500 MB, [check_file_safety]
    refuses and [read_file] raises the too-large error having read
    nothing of the file and asked nothing.  Above 50 MB and up to 500 MB,
    [check_file_safety] accepts with a message holding [WARNING];
    [read_file] then warns, and when interactive asks the user, going on
    to load the file exactly when the answer is [y] or [yes], and raising
    without a read otherwise; when not interactive it goes on to load.  Up
    to 50 MB, the file is accepted with a message that holds no warning,
    and [read_file] goes on to load it with no warning printed and no
    question asked. *)
Theorem C5_three_size_bands (max_rows : option Z) (interactive : bool) :
  ((ceiling_bytes < file_size_bytes)%Z ->
     check_file_safety w file_path = (false, too_large_msg file_size_bytes)
     /\ read_file w file_path max_rows interactive
        = ([LogError (too_large_msg file_size_bytes);
            LogError ("An unexpected error occurred while reading file "
                      ++ file_path ++ ": " ++ too_large_msg file_size_bytes)],
           inr (ValueError (too_large_msg file_size_bytes)))
     /\ reads (fst (read_file w file_path max_rows interactive)) = []
     /\ filter is_ask (fst (read_file w file_path max_rows interactive)) = [])
  /\ ((large_bytes < file_size_bytes <= ceiling_bytes)%Z ->
        check_file_safety w file_path = (true, large_file_msg file_size_bytes)
        /\ contains "WARNING" (large_file_msg file_size_bytes) = true
        /\ safety_gate w file_path false
           = ([LogWarning (large_file_msg file_size_bytes);
               PrintLargeFile (large_file_msg file_size_bytes)], inl tt)
        /\ (forall answer, user_input w = inl answer ->
              safety_gate w file_path true
              = if confirms answer then
                  ([LogWarning (large_file_msg file_size_bytes);
                    PrintLargeFile (large_file_msg file_size_bytes);
                    AskUser confirmation_prompt], inl tt)
                else
                  ([LogWarning (large_file_msg file_size_bytes);
                    PrintLargeFile (large_file_msg file_size_bytes);
                    AskUser confirmation_prompt;
                    LogInfo ("User cancelled loading large file: " ++ file_path)],
                   inr (ValueError "User cancelled: File too large")))
        /\ (forall answer, user_input w = inl answer -> confirms answer = false ->
              reads (fst (read_file w file_path max_rows true)) = []
              /\ snd (read_file w file_path max_rows true)
                 = inr (ValueError "User cancelled: File too large")))
  /\ ((file_size_bytes <= large_bytes)%Z ->
        check_file_safety w file_path = (true, size_ok_msg file_size_bytes)
        /\ contains "WARNING" (size_ok_msg file_size_bytes) = false
        /\ safety_gate w file_path interactive
           = ([LogInfo (size_ok_msg file_size_bytes)], inl tt)
        /\ read_file w file_path max_rows interactive
           = logged_reraise file_path
               (emit (LogInfo (size_ok_msg file_size_bytes)) ;;;
                load w file_path max_rows)).
Proof.
  split; [|split].
  - intros H. pose proof (check_too_large H) as Hc.
    assert (Hrun : read_file w file_path max_rows interactive
        = ([LogError (too_large_msg file_size_bytes);
            LogError ("An unexpected error occurred while reading file "
                      ++ file_path ++ ": " ++ too_large_msg file_size_bytes)],
           inr (ValueError (too_large_msg file_size_bytes)))).
    { unfold read_file, safety_gate. rewrite Hc. reflexivity. }
    rewrite Hrun. refine (conj Hc (conj eq_refl (conj eq_refl eq_refl))).
  - intros H. pose proof (check_large H) as Hc.
    pose proof (large_file_warning file_size_bytes) as Hw.
    fold (large_file_msg file_size_bytes) in Hw.
    assert (Hgate : forall answer, user_input w = inl answer ->
              safety_gate w file_path true
              = if confirms answer then
                  ([LogWarning (large_file_msg file_size_bytes);
                    PrintLargeFile (large_file_msg file_size_bytes);
                    AskUser confirmation_prompt], inl tt)
                else
                  ([LogWarning (large_file_msg file_size_bytes);
                    PrintLargeFile (large_file_msg file_size_bytes);
                    AskUser confirmation_prompt;
                    LogInfo ("User cancelled loading large file: " ++ file_path)],
                   inr (ValueError "User cancelled: File too large"))).
    { intros answer Ha. unfold safety_gate. rewrite Hc. cbn [negb]. rewrite Hw.
      unfold call. rewrite Ha. unfold confirms.
      destruct (String.eqb (lower (strip answer)) "y"
                || String.eqb (lower (strip answer)) "yes") eqn:E;
        cbn; rewrite E; reflexivity. }
    refine (conj Hc (conj Hw (conj _ (conj Hgate _)))).
    + unfold safety_gate. rewrite Hc. cbn [negb]. rewrite Hw. reflexivity.
    + intros answer Ha Hno. unfold read_file.
      rewrite (Hgate answer Ha), Hno. split; reflexivity.
  - intros H. pose proof (check_ok H) as Hc.
    pose proof (size_ok_no_warning file_size_bytes) as Hw.
    fold (size_ok_msg file_size_bytes) in Hw.
    assert (Hgate : safety_gate w file_path interactive
                    = ([LogInfo (size_ok_msg file_size_bytes)], inl tt)).
    { unfold safety_gate. rewrite Hc. cbn [negb]. rewrite Hw. reflexivity. }
    refine (conj Hc (conj Hw (conj Hgate _))).
    unfold read_file. rewrite Hgate. reflexivity.
Qed.

End SizeBands.

Lemma C5_witness :
  fst (check_file_safety (Scenarios.csv_file 600000000 "y") "data.csv") = false
  /\ reads (fst (read_file (Scenarios.csv_file 600000000 "y") "data.csv" None true)) = []
  /\ snd (read_file (Scenarios.csv_file 60000000 "no") "data.csv" None true)
     = inr (ValueError "User cancelled: File too large")
  /\ safety_gate (Scenarios.csv_file 6000000 "") "data.csv" true
     = ([LogInfo "File size OK: 5.72MB"], inl tt).
Proof.
  destruct (C5_three_size_bands (Scenarios.csv_file 600000000 "y") "data.csv"
              600000000 eq_refl eq_refl eq_refl None true) as [Hbig _].
  destruct (C5_three_size_bands (Scenarios.csv_file 60000000 "no") "data.csv"
              60000000 eq_refl eq_refl eq_refl None true) as [_ [Hlarge _]].
  destruct (C5_three_size_bands (Scenarios.csv_file 6000000 "") "data.csv"
              6000000 eq_refl eq_refl eq_refl None true) as [_ [_ Hsmall]].
  destruct (Hbig eq_refl) as [Hcheck [_ [Hreads _]]].
  assert (Hin : (large_bytes < 60000000 <= ceiling_bytes)%Z)
    by (split; [reflexivity|intros H; vm_compute in H; discriminate H]).
  assert (Hbelow : (6000000 <= large_bytes)%Z)
    by (intros H; vm_compute in H; discriminate H).
  destruct (Hlarge Hin) as [_ [_ [_ [_ Hcancel]]]].
  destruct (Hsmall Hbelow) as [_ [_ [Hgate _]]].
  split; [rewrite Hcheck; reflexivity|].
  split; [exact Hreads|].
  split; [exact (proj2 (Hcancel "no" eq_refl eq_refl))|exact Hgate].
Defined.

Section EncodingLadder.

Variable w : world.
Variable max_rows : Z.



(** What the loop of lines 88-94 does, by the number of encodings refused. *)
Lemma try_encodings_run (encs : list string) :
  let k := refused w max_rows encs in
  try_encodings w max_rows encs
  = if (k <? List.length encs)%nat then
      match read_csv w (nth k encs "") max_rows with
      | inl df =>
          ((map (strict_read max_rows) (firstn (S k) encs)
            ++ [LogInfo ("Successfully read CSV with " ++ nth k encs ""
                         ++ " encoding")])%list,
           inl (Some df))
      | inr e => (map (strict_read max_rows) (firstn (S k) encs), inr e)
      end
    else (map (strict_read max_rows) encs, inl None).
Proof.
  induction encs as [|e encs IH]; [reflexivity|].
  cbn [try_encodings refused].
  destruct (read_csv w e max_rows) as [df|[m|m|m|m|m]] eqn:E;
    cbn [is_decode_error].
  1,2,3,5,6: cbn [Nat.ltb Nat.leb List.length nth]; rewrite E; reflexivity.
  cbn [bind emit]. rewrite IH. cbn zeta.
  change (S (refused w max_rows encs) <? List.length (e :: encs))%nat
    with (refused w max_rows encs <? List.length encs)%nat.
  destruct (refused w max_rows encs <? List.length encs)%nat.
  - cbn [nth]. destruct (read_csv w (nth (refused w max_rows encs) encs "") max_rows);
      reflexivity.
  - reflexivity.
Qed.

Lemma reads_strict (encs : list string) :
  reads (map (strict_read max_rows) encs) = map (strict_read max_rows) encs.
Proof. induction encs as [|e encs IH]; simpl; [reflexivity|]. now rewrite IH. Qed.

Lemma reads_app (t t' : list event) : reads (t ++ t') = (reads t ++ reads t')%list.
Proof. apply filter_app. Qed.

(** Lines 84-99 as a whole: after five refusals the call of line 98 is
    made and refused. *)
Lemma load_csv_run (file_path : string) :
  let k := refused w max_rows encodings in
  reads (fst (load_csv w file_path max_rows))
  = (if (k <? 5)%nat then map (strict_read max_rows) (firstn (S k) encodings)
     else map (strict_read max_rows) encodings ++ [lenient_read max_rows])%list
  /\ snd (load_csv w file_path max_rows)
     = if (k <? 5)%nat then read_csv w (nth k encodings "") max_rows
       else inr errors_keyword_rejected.
Proof.
  cbn zeta. unfold load_csv. rewrite try_encodings_run. cbn zeta.
  change (List.length encodings) with 5.
  destruct (refused w max_rows encodings <? 5)%nat.
  - destruct (read_csv w (nth (refused w max_rows encodings) encodings "") max_rows)
      as [df|e]; cbn [bind fst snd ret]; rewrite ?app_nil_r, ?reads_app, ?reads_strict;
      cbn [reads filter is_read]; rewrite ?app_nil_r; split; reflexivity.
  - cbn [bind call fst snd]. rewrite ?app_nil_r, ?reads_app, ?reads_strict.
    split; reflexivity.
Qed.



End EncodingLadder.





End LoaderClaims.

(* ===================================================================== *)
(** * The column classifier *)
(* ===================================================================== *)

Module AnalyzerFacts.
Import Py PyFacts Analyzer.
Import QArith_base.
Local Close Scope Q_scope.

Lemma contains_self (p t : string) : contains p (p ++ t) = true.
Proof.
  destruct (p ++ t) eqn:E; cbn [contains]; rewrite <- E, prefix_refl_app; reflexivity.
Qed.

Lemma contains_app_r (p s t : string) :
  contains p t = true -> contains p (s ++ t) = true.
Proof.
  intros H. induction s as [|c s IH]; [exact H|].
  change (String c s ++ t) with (String c (s ++ t)).
  cbn [contains]. rewrite IH. apply orb_true_r.
Qed.

Lemma contains_cons (p s : string) (c : ascii) :
  contains p s = true -> contains p (String c s) = true.
Proof. intros H. cbn [contains]. rewrite H. apply orb_true_r. Qed.

Lemma contains_middle (p a b : string) : contains p (a ++ p ++ b) = true.
Proof. apply contains_app_r, contains_self. Qed.

(** Finds the place of a part in a text built by concatenation. *)
Ltac find_in :=
  first [ apply contains_self
        | apply contains_cons; find_in
        | apply contains_app_r; find_in ].

Lemma any_term_app (l l' : list string) (name : string) :
  any_term (l ++ l') name = any_term l name || any_term l' name.
Proof. apply existsb_app. Qed.

Lemma Qle_bool_false (x y : Q) : Qle_bool x y = false -> Qle y x.
Proof.
  intros H. apply Qlt_le_weak, Qnot_le_lt. intros Hle.
  apply Qle_bool_iff in Hle. congruence.
Qed.

Lemma fold_min_least (l : list number) (acc : option number) (m : number) :
  fold_left Qmin_opt l acc = Some m ->
  (acc = Some m \/ In m l)
  /\ (forall a, acc = Some a -> Qle m a)
  /\ (forall v, In v l -> Qle m v).
Proof.
  revert acc. induction l as [|x l IH]; intros acc H; cbn [fold_left] in H.
  - subst acc. split; [left; reflexivity|].
    split; [intros a Ha; injection Ha as <-; apply Qle_refl|intros v []].
  - destruct (IH _ H) as [Hin [Hacc Hl]]. clear IH H.
    destruct acc as [a|]; cbn [Qmin_opt] in Hin, Hacc.
    + destruct (Qle_bool a x) eqn:E.
      * split; [destruct Hin as [Hin|Hin]; [left; exact Hin|right; right; exact Hin]|].
        split; [intros a' Ha'; injection Ha' as <-; apply Hacc; reflexivity|].
        intros v [<-|Hv]; [|apply Hl, Hv].
        eapply Qle_trans; [apply Hacc; reflexivity|apply Qle_bool_iff, E].
      * split; [destruct Hin as [Hin|Hin];
                [right; left; now injection Hin|right; right; exact Hin]|].
        split; [intros a' Ha'; injection Ha' as <-|].
        -- eapply Qle_trans; [apply Hacc; reflexivity|apply Qle_bool_false, E].
        -- intros v [<-|Hv]; [apply Hacc; reflexivity|apply Hl, Hv].
    + split; [destruct Hin as [Hin|Hin];
              [right; left; now injection Hin|right; right; exact Hin]|].
      split; [discriminate|].
      intros v [<-|Hv]; [apply Hacc; reflexivity|apply Hl, Hv].
Qed.

Lemma fold_max_greatest (l : list number) (acc : option number) (m : number) :
  fold_left Qmax_opt l acc = Some m ->
  (acc = Some m \/ In m l)
  /\ (forall a, acc = Some a -> Qle a m)
  /\ (forall v, In v l -> Qle v m).
Proof.
  revert acc. induction l as [|x l IH]; intros acc H; cbn [fold_left] in H.
  - subst acc. split; [left; reflexivity|].
    split; [intros a Ha; injection Ha as <-; apply Qle_refl|intros v []].
  - destruct (IH _ H) as [Hin [Hacc Hl]]. clear IH H.
    destruct acc as [a|]; cbn [Qmax_opt] in Hin, Hacc.
    + destruct (Qle_bool x a) eqn:E.
      * split; [destruct Hin as [Hin|Hin]; [left; exact Hin|right; right; exact Hin]|].
        split; [intros a' Ha'; injection Ha' as <-; apply Hacc; reflexivity|].
        intros v [<-|Hv]; [|apply Hl, Hv].
        eapply Qle_trans; [apply Qle_bool_iff, E|apply Hacc; reflexivity].
      * split; [destruct Hin as [Hin|Hin];
                [right; left; now injection Hin|right; right; exact Hin]|].
        split; [intros a' Ha'; injection Ha' as <-|].
        -- eapply Qle_trans; [apply Qle_bool_false, E|apply Hacc; reflexivity].
        -- intros v [<-|Hv]; [apply Hacc; reflexivity|apply Hl, Hv].
    + split; [destruct Hin as [Hin|Hin];
              [right; left; now injection Hin|right; right; exact Hin]|].
      split; [discriminate|].
      intros v [<-|Hv]; [apply Hacc; reflexivity|apply Hl, Hv].
Qed.

Lemma non_null_In {A : Type} (v : A) (values : list (option A)) :
  In v (non_null values) <-> In (Some v) values.
Proof.
  induction values as [|[x|] values IH]; cbn [non_null In].
  - tauto.
  - rewrite IH. split; intros [H|H]; auto; left; congruence.
  - rewrite IH. split; [auto|intros [H|H]; [discriminate|exact H]].
Qed.

(** [series_min] is a value of the column, below all the others; and
    [series_max] is one above all the others. *)
Lemma series_min_least (values : list (option number)) (m : number) :
  series_min values = Some m ->
  In (Some m) values /\ forall v, In (Some v) values -> Qle m v.
Proof.
  intros H. destruct (fold_min_least _ _ _ H) as [[Hin|Hin] [_ Hl]]; [discriminate|].
  split; [apply non_null_In, Hin|]. intros v Hv. apply Hl, non_null_In, Hv.
Qed.

Lemma series_max_greatest (values : list (option number)) (m : number) :
  series_max values = Some m ->
  In (Some m) values /\ forall v, In (Some v) values -> Qle v m.
Proof.
  intros H. destruct (fold_max_greatest _ _ _ H) as [[Hin|Hin] [_ Hl]]; [discriminate|].
  split; [apply non_null_In, Hin|]. intros v Hv. apply Hl, non_null_In, Hv.
Qed.

End AnalyzerFacts.

Module AnalyzerClaims.
Import Py PyFacts Analyzer AnalyzerFacts.
Import QArith_base.
Local Close Scope Q_scope.

(** C7, as stated, fails: a numeric column named [revenue_2022] with three
    distinct values in three rows is a revenue column, and a text column
    named [transaction_note] with three distinct values in three rows is a
    generic text field; neither is an identifier. *)
Lemma C7_unique_columns_that_are_not_identifiers :
  unique_count Scenarios.revenue_2022 = row_count Scenarios.revenue_2022
  /\ classify "revenue_2022" Scenarios.revenue_2022
     = Described FinancialRevenue
         "Revenue/income metric. Range: 100 to 120. Key performance indicator for financial performance evaluation."
  /\ unique_count Scenarios.distinct_notes = row_count Scenarios.distinct_notes
  /\ classify "transaction_note" Scenarios.distinct_notes
     = Described GenericCategorical
         "Categorical text field. 3 unique values (most common: 'paid'). Useful for grouping and filtering.".
Proof. repeat split. Qed.

(** C7, as amended: for every numeric column whose name, in lower case,
    holds none of the terms the chain tests first (the temporal and the
    financial ones), when the number of distinct values equals the number
    of rows the classifier answers identifier, whatever else the name is:
    it need not hold [id].  So a numeric column named [transaction_note]
    with as many distinct values as rows is an identifier. *)
Theorem C7_unique_numeric_column_is_identifier
    (column_name : string) (values : list (option number)) (mean_val : option number) :
  any_term earlier_terms (lower column_name) = false ->
  nunique Qeq_bool values = List.length values ->
  classify column_name (NumericSeries values mean_val)
  = Described Identifier
      ("Unique identifier with " ++ format_int_grouped (Z.of_nat (List.length values))
       ++ " distinct values. Used for record identification and data joining.")
  /\ classify "transaction_note" (NumericSeries values mean_val)
     = Described Identifier
         ("Unique identifier with " ++ format_int_grouped (Z.of_nat (List.length values))
          ++ " distinct values. Used for record identification and data joining.").
Proof.
  intros Hname Huniq.
  assert (Hgen : forall name,
             any_term earlier_terms (lower name) = false ->
             classify name (NumericSeries values mean_val)
             = Described Identifier
                 ("Unique identifier with "
                  ++ format_int_grouped (Z.of_nat (List.length values))
                  ++ " distinct values. Used for record identification and data joining.")).
  { intros name Hn. cbn [classify]. unfold analyze_numeric.
    change earlier_terms
      with (["year"; "yr"] ++ ["quarter"; "qtr"; "q"] ++ ["month"; "mon"]
            ++ ["day"; "date"] ++ ["ratio"; "rate"; "percent"; "pct"]
            ++ ["revenue"; "sales"; "income"] ++ ["cost"; "expense"; "expenditure"]
            ++ ["asset"; "liability"; "equity"] ++ ["profit"; "margin"; "earnings"])%list
      in Hn.
    repeat (rewrite any_term_app in Hn; apply orb_false_iff in Hn as [?H Hn]).
    repeat match goal with H : any_term _ _ = false |- _ => rewrite H; clear H end.
    rewrite Huniq, Nat.eqb_refl. reflexivity. }
  split; [apply Hgen; exact Hname|apply Hgen; reflexivity].
Qed.

Lemma C7_witness :
  classify "transaction_note" Scenarios.distinct_numbers
  = Described Identifier
      "Unique identifier with 3 distinct values. Used for record identification and data joining.".
Proof.
  refine (proj2 (C7_unique_numeric_column_is_identifier "order_ref"
                   [whole 41; whole 42; whole 43] (whole 42) _ _)); reflexivity.
Defined.

(** C9, as stated, fails: the description of a numeric column named
    [quantity], whose name holds a [q], is the one of a quarter and shows
    neither the least value 5 nor the greatest value 7. *)
Lemma C9_description_without_range :
  classify "quantity" Scenarios.quantity
  = Described TemporalQuarter
      "Quarterly time period identifier (1-4). Enables seasonal analysis and quarterly performance tracking."
  /\ contains "5" "Quarterly time period identifier (1-4). Enables seasonal analysis and quarterly performance tracking." = false
  /\ contains "7" "Quarterly time period identifier (1-4). Enables seasonal analysis and quarterly performance tracking." = false.
Proof. repeat split. Qed.

(** C9, as amended: for every numeric column that the classifier puts in
    the year, ratio, revenue, cost, balance sheet, profitability or generic
    numeric category, the description holds the least and the greatest
    value of the column as that category writes them: the whole part for a
    year, no decimals and grouped thousands for revenue, cost and balance
    sheet, two decimals for ratio and profitability, two decimals and
    grouped thousands for a generic number.  The quarter, month, day and
    identifier descriptions show no range.  A numeric column named
    [revenue_2022] with the values 100, 120 and 110 is a revenue column
    whose description holds ["100"] and ["120"]. *)
Theorem C9_description_shows_the_range
    (column_name : string) (values : list (option number)) (mean_val : option number)
    (c : category) (description : string) :
  classify column_name (NumericSeries values mean_val) = Described c description ->
  shows_range c (series_min values) (series_max values) description
  /\ (exists rest,
        classify "revenue_2022" Scenarios.revenue_2022
        = Described FinancialRevenue rest
        /\ contains "100" rest = true /\ contains "120" rest = true).
Proof.
  intros H. split.
  - cbn [classify] in H. unfold analyze_numeric in H.
    repeat match type of H with
           | (if ?b then _ else _) = _ => destruct b
           end.
    1: destruct (int_of (series_min values)) as [lo|] eqn:Elo; [|discriminate];
       destruct (int_of (series_max values)) as [hi|] eqn:Ehi; [|discriminate].
    all: injection H as <- <-; cbn [shows_range]; try exact I.
    1: exists lo, hi; refine (conj Elo (conj Ehi _)).
    all: split; find_in.
  - eexists. repeat split.
Qed.

Lemma C9_witness :
  shows_range FinancialRevenue (whole 100) (whole 120)
    "Revenue/income metric. Range: 100 to 120. Key performance indicator for financial performance evaluation.".
Proof.
  refine (proj1 (C9_description_shows_the_range "revenue_2022"
                   [whole 100; whole 120; whole 110] (whole 110) _ _ _)).
  reflexivity.
Defined.

End AnalyzerClaims.

(* ===================================================================== *)
(** * The context extractor *)
(* ===================================================================== *)

Module ContextClaims.
Import Py Context.

Lemma parse_returns_a_record (background message : string) :
  exists context, _parse_dataset_background background message = Some context
                  /\ dataset_background context = background.
Proof. unfold _parse_dataset_background. eexists. split; reflexivity. Qed.

(** C8: [read_input_folder_context] returns [None] or a record and raises
    nothing.  When the input folder is there, it returns [None] exactly
    when reading one of the two files fails (the internal error), or the
    background text, stripped as the reader strips it, is empty or has at
    most 50 characters; otherwise it returns the record
    [_parse_dataset_background] builds from the two texts. *)
Theorem C8_none_exactly_when_background_is_short (env : input_folder) :
  folder_exists env = true ->
  (read_input_folder_context env = None <->
     ((exists e, read_stripped (Dataset_Background_txt env) = inr e)
      \/ (exists e, read_stripped (message_txt env) = inr e)
      \/ (exists background,
             read_stripped (Dataset_Background_txt env) = inl background
             /\ (background = "" \/ String.length background <= 50))))
  /\ (forall background message,
        read_stripped (Dataset_Background_txt env) = inl background ->
        read_stripped (message_txt env) = inl message ->
        50 < String.length background ->
        exists context,
          read_input_folder_context env = Some context
          /\ _parse_dataset_background background message = Some context
          /\ dataset_background context = background).
Proof.
  intros Hfolder. unfold read_input_folder_context, read_input_folder_context_body.
  rewrite Hfolder. cbn [negb]. split.
  - destruct (read_stripped (Dataset_Background_txt env)) as [background|e].
    + destruct (read_stripped (message_txt env)) as [message|e].
      * destruct (parse_returns_a_record background message) as [context [Hp _]].
        rewrite Hp.
        destruct (truthy background && (50 <? String.length background)%nat) eqn:E.
        -- split; [discriminate|].
           apply andb_true_iff in E as [Ht El]. apply Nat.ltb_lt in El.
           intros [[e He]|[[e He]|[b [Hb [Hempty|Hshort]]]]]; try discriminate;
             injection Hb as <-; [subst; discriminate Ht|lia].
        -- split; [intros _|reflexivity]. right. right. exists background.
           split; [reflexivity|].
           apply andb_false_iff in E as [Ht|El].
           ++ left. destruct background; [reflexivity|discriminate Ht].
           ++ right. apply Nat.ltb_ge in El. exact El.
      * split; [intros _|reflexivity]. right. left. exists e. reflexivity.
    + split; [intros _|reflexivity]. left. exists e. reflexivity.
  - intros background message Hb Hm Hlen. rewrite Hb, Hm.
    destruct (parse_returns_a_record background message) as [context [Hp Hbg]].
    rewrite Hp. exists context.
    assert (Ht : truthy background = true) by (destruct background; [simpl in Hlen; lia|reflexivity]).
    apply Nat.ltb_lt in Hlen. rewrite Ht, Hlen. cbn [andb].
    split; [reflexivity|split; [reflexivity|exact Hbg]].
Qed.

Lemma C8_witness :
  exists context,
    read_input_folder_context Scenarios.folder_with_background = Some context
    /\ subject_area context = "financial analysis"
    /\ target_audience context = "executives".
Proof.
  destruct (proj2 (C8_none_exactly_when_background_is_short
                     Scenarios.folder_with_background eq_refl)
              "Quarterly revenue of the airline, for the executive team."
              "" eq_refl eq_refl) as [context [Hread [Hparse _]]].
  - vm_compute. repeat constructor.
  - exists context. split; [exact Hread|].
    injection Hparse as <-. split; reflexivity.
Defined.

End ContextClaims.

(* ===================================================================== *)
(** * More about the normalizer: counts, fixed points, texts without items *)
(* ===================================================================== *)

Module StrFacts.
Import Py.

Lemma append_assoc (a b c : string) : (a ++ b) ++ c = a ++ b ++ c.
Proof. induction a as [|x a IH]; simpl; [reflexivity|]. now rewrite IH. Qed.

Lemma append_nil_r (a : string) : a ++ "" = a.
Proof. induction a as [|x a IH]; simpl; [reflexivity|]. now rewrite IH. Qed.

Lemma length_append (a b : string) :
  String.length (a ++ b) = (String.length a + String.length b)%nat.
Proof. induction a as [|x a IH]; simpl; [reflexivity|]. now rewrite IH. Qed.

End StrFacts.

Module NormalizerMore.
Import Py PyFacts StrFacts Normalizer NormalizerFacts.

Lemma join_split (s : string) : join nl (split LF s) = s.
Proof.
  induction s as [|c s IH]; [reflexivity|].
  cbn [split]. pose proof (split_not_nil LF s) as Hne.
  destruct (Ascii.eqb c LF) eqn:Hc.
  - apply Ascii.eqb_eq in Hc. subst c.
    destruct (split LF s) as [|l ls]; [congruence|].
    change (join nl ("" :: l :: ls)) with ("" ++ nl ++ join nl (l :: ls)).
    rewrite IH. reflexivity.
  - destruct (split LF s) as [|l ls]; [congruence|].
    destruct ls as [|l' ls'].
    + simpl in IH. simpl. rewrite IH. reflexivity.
    + change (join nl (String c l :: l' :: ls'))
        with (String c (l ++ nl ++ join nl (l' :: ls'))).
      change (join nl (l :: l' :: ls')) with (l ++ nl ++ join nl (l' :: ls')) in IH.
      rewrite IH. reflexivity.
Qed.

Lemma join_snoc (sep : string) (ls : list string) (x : string) :
  ls <> [] -> join sep (ls ++ [x]) = join sep ls ++ sep ++ x.
Proof.
  induction ls as [|l ls IH]; [congruence|]. intros _.
  destruct ls as [|l' ls'].
  - reflexivity.
  - change (join sep ((l :: l' :: ls') ++ [x]))
      with (l ++ sep ++ join sep ((l' :: ls') ++ [x])).
    rewrite IH by discriminate.
    change (join sep (l :: l' :: ls')) with (l ++ sep ++ join sep (l' :: ls')).
    rewrite <- !append_assoc. reflexivity.
Qed.

Lemma rstrip_spaces (w : string) : forallb_str isspace w = true -> rstrip w = "".
Proof.
  induction w as [|c w IH]; [reflexivity|]. simpl.
  intros H. apply andb_true_iff in H as [Hc Hw].
  rewrite (IH Hw), Hc. reflexivity.
Qed.

Lemma rstrip_app_spaces (s w : string) :
  forallb_str isspace w = true -> rstrip (s ++ w) = rstrip s.
Proof.
  intros Hw. induction s as [|c s IH]; simpl.
  - apply rstrip_spaces, Hw.
  - rewrite IH. reflexivity.
Qed.

Lemma rstrip_idempotent (s : string) : rstrip (rstrip s) = rstrip s.
Proof.
  induction s as [|c s IH]; [reflexivity|]. cbn [rstrip].
  destruct (is_empty (rstrip s) && isspace c) eqn:E; [reflexivity|].
  cbn [rstrip]. rewrite IH, E. reflexivity.
Qed.

Lemma header_end_app (line w : string) :
  header_end line = true -> header_end (line ++ w) = true.
Proof.
  unfold header_end. destruct (after_number line) as [rest|] eqn:E; [|discriminate].
  rewrite (after_number_app _ w _ E). reflexivity.
Qed.

Lemma header_end_start (line : string) :
  question_start line = true -> header_end line = true.
Proof.
  intros H. destruct (header_end line) eqn:E; [reflexivity|].
  rewrite (header_end_of_start _ E) in H. discriminate.
Qed.

Lemma header_lines_no_end (lines : list string) :
  Forall (fun l => header_end l = false) (header_lines lines).
Proof.
  induction lines as [|l ls IH]; simpl; [constructor|].
  destruct (header_end l) eqn:E; constructor; assumption.
Qed.

Lemma lines_below_no_end (ls ls' : list string) :
  lines_below ls ls' ->
  Forall (fun l => header_end l = false) ls' ->
  Forall (fun l => header_end l = false) ls.
Proof.
  revert ls'. induction ls as [|l t IH]; intros ls' Hb Hall; [constructor|].
  destruct ls' as [|l' t']; [contradiction|].
  destruct Hb as [Hp Ht]. inversion Hall as [|? ? Hl' Ht']; subst.
  constructor; [|eauto].
  destruct (prefix_app _ _ Hp) as [w ->].
  destruct (header_end l) eqn:E; [|reflexivity].
  rewrite (header_end_app _ w E) in Hl'. discriminate.
Qed.

(** No line of the header the result starts with looks numbered. *)
Lemma header_no_end (text : string) :
  Forall (fun l => header_end l = false)
         (split LF (rstrip (join nl (header_lines (split LF text))))).
Proof.
  eapply lines_below_no_end; [apply rstrip_lines|].
  destruct (header_lines (split LF text)) as [|h hs] eqn:E.
  - simpl. constructor; [reflexivity|constructor].
  - unfold nl. rewrite split_join.
    + rewrite <- E. apply header_lines_no_end.
    + discriminate.
    + rewrite <- E. apply header_lines_incl, split_lines_no_sep.
Qed.

Lemma header_lines_all (lines : list string) :
  Forall (fun l => header_end l = false) lines -> header_lines lines = lines.
Proof.
  induction 1 as [|l ls Hl _ IH]; simpl; [reflexivity|].
  rewrite Hl, IH. reflexivity.
Qed.

Lemma header_lines_app (before after : list string) :
  Forall (fun l => header_end l = false) before ->
  header_lines (before ++ after) = (before ++ header_lines after)%list.
Proof.
  induction 1 as [|l ls Hl _ IH]; simpl; [reflexivity|].
  rewrite Hl, IH. reflexivity.
Qed.

Lemma header_lines_items (items : list (list string)) :
  Forall well_formed_item items -> items <> [] ->
  header_lines (interleave items) = [].
Proof.
  intros H Hne. destruct H as [|item rest [Hshape _] _]; [congruence|].
  destruct item as [|first more]; [contradiction|]. destruct Hshape as [Hf _].
  destruct rest; simpl; rewrite (header_end_start _ Hf); reflexivity.
Qed.

Lemma slice_to_length {A : Type} (n : Z) (l : list A) :
  Z.of_nat (List.length (slice_to n l))
  = if (0 <=? n)%Z then Z.min n (Z.of_nat (List.length l))
    else Z.max 0 (Z.of_nat (List.length l) + n).
Proof.
  unfold slice_to. destruct (0 <=? n)%Z eqn:E; rewrite length_firstn.
  - apply Z.leb_le in E. lia.
  - apply Z.leb_gt in E. lia.
Qed.

Lemma trim_to_count_length (n : Z) (qs : list string) :
  (0 <= n)%Z ->
  Z.of_nat (List.length (trim_to_count n qs)) = Z.min n (Z.of_nat (List.length qs)).
Proof.
  intros Hn. unfold trim_to_count, slice_to.
  destruct (Z.of_nat (List.length qs) >? n)%Z eqn:E.
  - apply Z.gtb_lt in E.
    destruct (0 <=? n)%Z eqn:E0; [|apply Z.leb_gt in E0; lia].
    rewrite length_firstn. lia.
  - assert (Z.of_nat (List.length qs) <= n)%Z.
    { destruct (Z.gtb_spec (Z.of_nat (List.length qs)) n); [discriminate|lia]. }
    lia.
Qed.

Lemma trim_to_count_short (n : Z) (qs : list string) :
  (Z.of_nat (List.length qs) <= n)%Z -> trim_to_count n qs = qs.
Proof.
  intros H. unfold trim_to_count.
  destruct (Z.gtb_spec (Z.of_nat (List.length qs)) n); [lia|reflexivity].
Qed.

Lemma no_start_no_items (lines : list string) :
  Forall (fun l => question_start l = false) lines -> extract_questions lines = [].
Proof.
  intros H. unfold extract_questions, scan0. rewrite scan_idle by exact H. reflexivity.
Qed.

(** X1: for every integer count [n], the block
    [_trim_questions_to_exact_count] returns holds min(n, k) items when
    [n >= 0] and max(0, k + n) items when [n < 0], [k] being the number of
    items the text holds: never more than asked, no item lost when fewer
    than [n] were found, and for a negative count, which is not checked,
    the last [-n] items dropped as the slice [question_lines[:n]] does. *)
Theorem trim_result_item_count (text : string) (n : Z) :
  Z.of_nat (List.length (extracted_items (_trim_questions_to_exact_count text n)))
  = if (0 <=? n)%Z then Z.min n (Z.of_nat (List.length (extracted_items text)))
    else Z.max 0 (Z.of_nat (List.length (extracted_items text)) + n).
Proof.
  rewrite extracted_items_of_result. unfold trimmed_questions.
  destruct (0 <=? n)%Z eqn:E.
  - apply trim_to_count_length, Z.leb_le, E.
  - apply Z.leb_gt in E. unfold trim_to_count.
    destruct (Z.gtb_spec (Z.of_nat (List.length (extracted_items text))) n); [|lia].
    rewrite slice_to_length.
    destruct (0 <=? n)%Z eqn:E'; [apply Z.leb_le in E'; lia|reflexivity].
Qed.

(** X2: for a count [n >= 0], trimming a block that was already trimmed
    to [n] returns it unchanged: the header, the blank line after it and
    the items all come back as they are. *)
Theorem trim_is_idempotent (text : string) (n : Z) :
  (0 <= n)%Z ->
  _trim_questions_to_exact_count (_trim_questions_to_exact_count text n) n
  = _trim_questions_to_exact_count text n.
Proof.
  intros Hn.
  assert (Hq : trimmed_questions (_trim_questions_to_exact_count text n) n
               = trimmed_questions text n).
  { unfold trimmed_questions at 1. rewrite extracted_items_of_result.
    apply trim_to_count_short.
    unfold trimmed_questions.
    rewrite trim_to_count_length by exact Hn. lia. }
  unfold _trim_questions_to_exact_count at 1. rewrite Hq.
  unfold _trim_questions_to_exact_count at 2. f_equal.
  destruct (trimmed_questions_shape text n) as [items [Hitems Hof]].
  assert (Hwf : Forall well_formed_item items).
  { eapply Forall_impl; [|exact Hof]. intros it [H _]. exact H. }
  unfold _trim_questions_to_exact_count. rewrite Hitems.
  set (H := rstrip (join nl (header_lines (split LF text)))).
  assert (HH : Forall (fun l => header_end l = false) (split LF H))
    by apply header_no_end.
  change ((nl ++ nl) ++ ?x) with (String LF (String LF x)).
  rewrite split_app_sep.
  cbn [split]. rewrite Ascii.eqb_refl. cbv beta iota.
  rewrite items_lines by exact Hwf.
  rewrite header_lines_app by exact HH.
  cbn [header_lines]. change (header_end "") with false. cbv beta iota.
  destruct items as [|item rest].
  - cbn [interleave header_lines]. change (header_end "") with false. cbv beta iota.
    change (split LF H ++ ["";""])%list with (split LF H ++ [""] ++ [""])%list.
    rewrite app_assoc, !join_snoc, join_split.
    + rewrite !rstrip_app_spaces by reflexivity.
      subst H. apply rstrip_idempotent.
    + apply split_not_nil.
    + intros E. apply app_eq_nil in E as [_ E]. discriminate.
  - rewrite header_lines_items by (assumption || discriminate).
    rewrite join_snoc, join_split by apply split_not_nil.
    rewrite rstrip_app_spaces by reflexivity.
    subst H. apply rstrip_idempotent.
Qed.

Lemma trim_is_idempotent_witness :
  (0 <= 1)%Z /\
  _trim_questions_to_exact_count
    (_trim_questions_to_exact_count Scenarios.odd_numbers 1) 1
  = _trim_questions_to_exact_count Scenarios.odd_numbers 1.
Proof.
  split; [lia|]. apply (trim_is_idempotent Scenarios.odd_numbers 1). lia.
Defined.

(** X3: a text none of whose lines starts with a number and [.] or [)]
    has no item to trim: whatever the count, it comes back whole, its
    trailing whitespace replaced by two line feeds. *)
Theorem trim_of_text_without_numbered_lines (text : string) (n : Z) :
  Forall (fun l => header_end l = false) (split LF text) ->
  _trim_questions_to_exact_count text n = rstrip text ++ nl ++ nl.
Proof.
  intros H. unfold _trim_questions_to_exact_count, trimmed_questions, extracted_items.
  rewrite header_lines_all by exact H. rewrite join_split.
  rewrite no_start_no_items.
  - unfold trim_to_count, slice_to. cbn [List.length].
    destruct (_ >? _)%Z; [destruct (0 <=? n)%Z; rewrite firstn_nil|];
      cbn [join]; rewrite <- append_assoc; now rewrite append_nil_r.
  - eapply Forall_impl; [|exact H]. intros l. apply header_end_of_start.
Qed.

Lemma trim_of_text_without_numbered_lines_witness :
  Forall (fun l => header_end l = false) (split LF ("No questions." ++ nl ++ "  ")) /\
  _trim_questions_to_exact_count ("No questions." ++ nl ++ "  ") 5
  = rstrip ("No questions." ++ nl ++ "  ") ++ nl ++ nl.
Proof.
  assert (H : Forall (fun l => header_end l = false)
                     (split LF ("No questions." ++ nl ++ "  "))).
  { vm_compute. repeat constructor. }
  split; [exact H|]. apply (trim_of_text_without_numbered_lines _ 5 H).
Defined.

End NormalizerMore.

(* ===================================================================== *)
(** * More about the offline generator: any count, and reading it back *)
(* ===================================================================== *)

Module OfflineMore.
Import Py PyFacts StrFacts Normalizer NormalizerFacts NormalizerMore LoaderFacts
       Offline Reports.

Lemma template_questions_length (dataset_name : string) :
  List.length (template_questions dataset_name) = 15%nat.
Proof.
  unfold template_questions.
  repeat match goal with |- context [if ?b then _ else _] => destruct b end;
    reflexivity.
Qed.

Lemma firstn_seq (k start len : nat) :
  firstn k (seq start len) = seq start (Nat.min k len).
Proof.
  revert start len. induction k as [|k IH]; intros start [|len]; simpl;
    try reflexivity.
  rewrite IH. reflexivity.
Qed.

Lemma numbered_from_1_firstn (k : nat) (l : list string) :
  numbered_from_1 l -> numbered_from_1 (firstn k l).
Proof.
  unfold numbered_from_1, written_positions. intros H.
  rewrite <- firstn_map, H, firstn_map, firstn_seq, length_firstn.
  reflexivity.
Qed.

Lemma templates_numbered (dataset_name : string) :
  numbered_from_1 (template_questions dataset_name).
Proof.
  unfold template_questions.
  repeat match goal with |- context [if ?b then _ else _] => destruct b end;
    reflexivity.
Qed.

Lemma templates_are_lines (dataset_name : string) :
  no_char LF dataset_name = true ->
  Forall template_line (template_questions dataset_name).
Proof.
  intros Hname. unfold no_char in Hname. unfold template_questions.
  repeat match goal with |- context [if ?b then _ else _] => destruct b end;
    repeat (apply Forall_cons; [split; [reflexivity|]|]);
    try apply Forall_nil;
    unfold no_char; rewrite ?forallb_str_app, ?Hname; reflexivity.
Qed.

Lemma comparison_are_lines : Forall template_line comparison_questions.
Proof. repeat constructor. Qed.

Lemma scan_numbered_lines (qs : list string) (st : scan) :
  Forall template_line qs ->
  flush (fold_left scan_line qs st) = (flush st ++ qs)%list.
Proof.
  intros H. revert st. induction H as [|q rest [Hq _] _ IH]; intros st.
  - simpl. rewrite app_nil_r. reflexivity.
  - cbn [fold_left]. rewrite IH. unfold scan_line. rewrite Hq.
    unfold flush at 1. cbn [current_question question_lines join].
    rewrite <- app_assoc. reflexivity.
Qed.

(** A text made of a header without numbered lines, an empty line, and
    numbered lines: the items read back are the numbered lines. *)
Lemma extracted_numbered_lines (header : string) (qs : list string) :
  Forall (fun l => question_start l = false) (split LF header) ->
  Forall template_line qs ->
  extracted_items (header ++ (nl ++ nl) ++ join nl qs) = qs.
Proof.
  intros Hh Hqs. unfold extracted_items, extract_questions.
  change ((nl ++ nl) ++ ?x) with (String LF (String LF x)).
  rewrite split_app_sep, fold_left_app. unfold scan0.
  rewrite (scan_idle _ [] Hh).
  cbn [split]. rewrite Ascii.eqb_refl. cbv beta iota.
  cbn [fold_left]. rewrite scan_line_idle by reflexivity.
  destruct qs as [|q rest]; [reflexivity|].
  unfold nl. rewrite split_join.
  - apply (scan_numbered_lines (q :: rest) (Scan [] [] false) Hqs).
  - discriminate.
  - eapply Forall_impl; [|exact Hqs]. intros l [_ H]. exact H.
Qed.

Lemma individual_header_line (dataset_name : string) :
  no_char LF dataset_name = true ->
  Forall (fun l => question_start l = false)
         (split LF ("--- Enhanced Questions for " ++ dataset_name ++ " ---")).
Proof.
  intros Hname. rewrite split_no_sep.
  - constructor; [reflexivity|constructor].
  - unfold no_char in *. rewrite !forallb_str_app, Hname. reflexivity.
Qed.

Lemma dataset_name_one_line (task : Task) : no_char LF (dataset_name_of task) = true.
Proof.
  unfold dataset_name_of.
  repeat match goal with |- context [if ?b then _ else _] => destruct b end;
    reflexivity.
Qed.

(** X4: for every dataset name and every integer count [n], negative
    ones included, the questions the offline generator keeps are numbered
    1, 2, 3, ... and their number is min(n, 15) for [n >= 0] and
    max(0, 15 + n) for [n < 0], as the slice [questions[:n]] gives. *)
Theorem offline_questions_for_any_count (dataset_name : string) (num_questions : Z) :
  numbered_from_1 (individual_questions dataset_name num_questions)
  /\ Z.of_nat (List.length (individual_questions dataset_name num_questions))
     = if (0 <=? num_questions)%Z then Z.min num_questions 15
       else Z.max 0 (15 + num_questions).
Proof.
  unfold individual_questions. split.
  - destruct (slice_to_firstn num_questions (template_questions dataset_name)) as [k ->].
    apply numbered_from_1_firstn, templates_numbered.
  - rewrite slice_to_length, template_questions_length. reflexivity.
Qed.

(** X5: the text [_generate_offline_individual_result] returns for a
    dataset whose name holds no line feed, read back by the extraction of
    the normalizer, gives exactly the questions the generator kept: its
    header is no item, and each question is one item. *)
Theorem offline_text_reads_back
    (dataset_name : string) (context : Context.DatasetContext) (num_questions : Z) :
  no_char LF dataset_name = true ->
  extracted_items (_generate_offline_individual_result dataset_name context num_questions)
  = individual_questions dataset_name num_questions.
Proof.
  intros Hname. unfold _generate_offline_individual_result.
  cbv zeta. apply extracted_numbered_lines.
  - apply individual_header_line, Hname.
  - unfold individual_questions.
    destruct (slice_to_firstn num_questions (template_questions dataset_name)) as [k ->].
    apply Forall_firstn, templates_are_lines, Hname.
Qed.

Lemma offline_text_reads_back_witness :
  no_char LF "Assets.csv" = true
  /\ extracted_items (_generate_offline_individual_result "Assets.csv" Scenarios.context 3)
     = individual_questions "Assets.csv" 3.
Proof.
  split; [reflexivity|].
  apply (offline_text_reads_back "Assets.csv" Scenarios.context 3). reflexivity.
Defined.

End OfflineMore.

(* ===================================================================== *)
(** * More about the loader: refusals, the row cap, what a success means *)
(* ===================================================================== *)

Module LoaderMore.
Import Py PyFacts Loader LoaderFacts Ingestion.

(** A property of every event of a run that holds of a sequence when it
    holds of its parts. *)
Lemma Forall_bind {A B : Type} (P : event -> Prop) (m : IO A) (k : A -> IO B) :
  Forall P (fst m) -> (forall a, snd m = inl a -> Forall P (fst (k a))) ->
  Forall P (fst (bind m k)).
Proof.
  intros Hm Hk. rewrite fst_bind. destruct (snd m) as [a|e] eqn:E; [|exact Hm].
  apply Forall_app. split; [exact Hm|apply Hk; reflexivity].
Qed.

Lemma Forall_reraise {A : Type} (P : event -> Prop) (file_path : string) (m : IO A) :
  (forall msg, P (LogError msg)) ->
  Forall P (fst m) -> Forall P (fst (logged_reraise file_path m)).
Proof.
  intros HP Hm. destruct m as [t [a|[msg|msg|msg|msg|msg]]]; cbn [logged_reraise fst] in *;
    [exact Hm|..]; apply Forall_app; (split; [exact Hm|]);
    (apply Forall_cons; [apply HP|apply Forall_nil]).
Qed.

Lemma gate_capped (w : world) (file_path : string) (interactive : bool) (n : Z) :
  Forall (capped n) (fst (safety_gate w file_path interactive)).
Proof.
  unfold safety_gate. destruct (check_file_safety w file_path) as [is_safe msg].
  destruct is_safe; cbn [negb].
  - destruct (contains "WARNING" msg).
    + apply Forall_bind; [repeat constructor; discriminate|intros _ _].
      apply Forall_bind; [repeat constructor; discriminate|intros _ _].
      destruct interactive; [|constructor].
      apply Forall_bind; [repeat constructor; discriminate|intros answer _].
      destruct (negb _); repeat constructor; discriminate.
    + repeat constructor; discriminate.
  - repeat constructor; discriminate.
Qed.

Lemma try_encodings_capped (w : world) (n : Z) (encs : list string) :
  Forall (capped n) (fst (try_encodings w n encs)).
Proof.
  induction encs as [|e encs IH]; [constructor|].
  cbn [try_encodings].
  destruct (read_csv w e n) as [df|[m|m|m|m|m]].
  1,2,3,5,6: repeat constructor; try discriminate; intros _; reflexivity.
  apply Forall_bind; [|intros _ _; exact IH].
  repeat constructor.
Qed.

Lemma load_csv_capped (w : world) (file_path : string) (n : Z) :
  Forall (capped n) (fst (load_csv w file_path n)).
Proof.
  unfold load_csv. apply Forall_bind; [apply try_encodings_capped|].
  intros [df|] _; [constructor|].
  apply Forall_bind; [repeat constructor|intros df _].
  repeat constructor; discriminate.
Qed.

Lemma load_capped (w : world) (file_path : string) (max_rows : option Z) :
  Forall (capped (row_limit max_rows)) (fst (load w file_path max_rows)).
Proof.
  unfold load. apply Forall_bind; [repeat constructor; discriminate|intros _ _].
  apply Forall_bind.
  - destruct (String.eqb _ ".csv"); [apply load_csv_capped|].
    destruct (String.eqb _ ".xlsx"); [repeat constructor|].
    destruct (String.eqb _ ".json"); [repeat constructor|].
    repeat constructor; discriminate.
  - intros df _.
    apply Forall_bind; [repeat constructor; discriminate|intros _ _].
    apply Forall_bind.
    + destruct (rows df =? row_limit max_rows)%Z; repeat constructor; discriminate.
    + intros _ _. destruct (df_empty df); repeat constructor; discriminate.
Qed.

Lemma reads_length_bind {A B : Type} (m : IO A) (k : A -> IO B) (a b : nat) :
  List.length (reads (fst m)) <= a ->
  (forall x, List.length (reads (fst (k x))) <= b) ->
  List.length (reads (fst (bind m k))) <= a + b.
Proof.
  intros Hm Hk. rewrite fst_bind. destruct (snd m) as [x|e]; [|lia].
  unfold reads in *. rewrite filter_app, length_app. specialize (Hk x). lia.
Qed.

Lemma try_encodings_reads (w : world) (n : Z) (encs : list string) :
  List.length (reads (fst (try_encodings w n encs))) <= List.length encs.
Proof.
  induction encs as [|e encs IH]; [simpl; lia|].
  cbn [try_encodings].
  destruct (read_csv w e n) as [df|[m|m|m|m|m]].
  1,2,3,5,6: cbn; lia.
  change (List.length (e :: encs)) with (1 + List.length encs).
  apply reads_length_bind; [cbn; lia|intros _; exact IH].
Qed.

Lemma load_reads (w : world) (file_path : string) (max_rows : option Z) :
  List.length (reads (fst (load w file_path max_rows))) <= 6.
Proof.
  unfold load.
  apply (reads_length_bind _ _ 0 6); [cbn; lia|intros _].
  apply (reads_length_bind _ _ 6 0).
  - destruct (String.eqb _ ".csv").
    + unfold load_csv. apply (reads_length_bind _ _ 5 1).
      * apply (try_encodings_reads w _ encodings).
      * intros [df|]; [cbn; lia|].
        cbn; lia.
    + destruct (String.eqb _ ".xlsx"); [cbn; lia|].
      destruct (String.eqb _ ".json"); cbn; lia.
  - intros df.
    apply (reads_length_bind _ _ 0 0); [cbn; lia|intros _].
    apply (reads_length_bind _ _ 0 0).
    + destruct (rows df =? row_limit max_rows)%Z; cbn; lia.
    + intros _. destruct (df_empty df); cbn; lia.
Qed.

Lemma bind_inl {A B : Type} (m : IO A) (k : A -> IO B) (b : B) :
  snd (bind m k) = inl b ->
  exists a, snd m = inl a /\ snd (k a) = inl b
            /\ fst (bind m k) = (fst m ++ fst (k a))%list.
Proof.
  destruct m as [t [a|e]]; cbn [bind snd fst]; [|discriminate].
  destruct (k a) as [t' r] eqn:E. cbn [snd fst]. intros ->.
  exists a. rewrite E. repeat split.
Qed.

Lemma quiet_bind {A B : Type} (m : IO A) (k : A -> IO B) :
  quiet m -> (forall a, quiet (k a)) -> quiet (bind m k).
Proof.
  intros Hm Hk b Hb. destruct (bind_inl m k b Hb) as [a [Ha [Hka ->]]].
  rewrite existsb_app, (Hm a Ha), (Hk a b Hka). reflexivity.
Qed.

Lemma quiet_gate (w : world) (file_path : string) (interactive : bool) :
  quiet (safety_gate w file_path interactive).
Proof.
  unfold safety_gate. destruct (check_file_safety w file_path) as [is_safe msg].
  destruct is_safe; cbn [negb]; [|intros a; discriminate].
  destruct (contains "WARNING" msg); [|intros a _; reflexivity].
  apply quiet_bind; [intros a _; reflexivity|intros _].
  apply quiet_bind; [intros a _; reflexivity|intros _].
  destruct interactive; [|intros a _; reflexivity].
  apply quiet_bind; [intros a _; reflexivity|intros answer].
  destruct (negb _); [intros a; discriminate|intros a _; reflexivity].
Qed.

Lemma quiet_try_encodings (w : world) (n : Z) (encs : list string) :
  quiet (try_encodings w n encs).
Proof.
  induction encs as [|e encs IH]; [intros a _; reflexivity|].
  cbn [try_encodings].
  destruct (read_csv w e n) as [df|[m|m|m|m|m]].
  1: intros a _; reflexivity.
  1,2,4,5: intros a; discriminate.
  apply quiet_bind; [intros a _; reflexivity|intros _; exact IH].
Qed.

Lemma quiet_call {A : Type} (ev : event) (outcome : A + exn) :
  is_error_log ev = false -> quiet (call ev outcome).
Proof. intros H a _. cbn. rewrite H. reflexivity. Qed.

Lemma quiet_load (w : world) (file_path : string) (max_rows : option Z) :
  quiet (load w file_path max_rows).
Proof.
  unfold load. apply quiet_bind; [intros a _; reflexivity|intros _].
  apply quiet_bind.
  - destruct (String.eqb _ ".csv").
    { unfold load_csv. apply quiet_bind; [apply quiet_try_encodings|].
      intros [df|]; [intros a _; reflexivity|].
      apply quiet_bind; [apply quiet_call; reflexivity|intros df].
      intros a _; reflexivity. }
    destruct (String.eqb _ ".xlsx"); [apply quiet_call; reflexivity|].
    destruct (String.eqb _ ".json"); [apply quiet_call; reflexivity|].
    intros a; discriminate.
  - intros df.
    apply quiet_bind; [intros a _; reflexivity|intros _].
    apply quiet_bind.
    + destruct (rows df =? row_limit max_rows)%Z; intros a _; reflexivity.
    + intros _. destruct (df_empty df); [intros a; discriminate|intros a _; reflexivity].
Qed.

(** What a successful [load] has done. *)
Lemma load_inl (w : world) (file_path : string) (max_rows : option Z) (df : DataFrame) :
  snd (load w file_path max_rows) = inl df ->
  df_empty df = false
  /\ supported (lower (path_ext w)) = true
  /\ reads (fst (load w file_path max_rows)) <> []
  /\ (row_limit_notice (fst (load w file_path max_rows))
      = (rows df =? row_limit max_rows)%Z).
Proof.
  unfold load, row_limit_notice. intros H.
  apply bind_inl in H as [[] [_ [H ->]]].
  apply bind_inl in H as [df' [Hread [H ->]]].
  apply bind_inl in H as [[] [_ [H ->]]].
  apply bind_inl in H as [[] [_ [H ->]]].
  destruct (df_empty df') eqn:Hempty; [discriminate|].
  injection H as <-. split; [exact Hempty|].
  unfold supported.
  destruct (String.eqb (lower (path_ext w)) ".csv") eqn:Ecsv.
  - split; [reflexivity|].
    destruct (LoaderClaims.load_csv_run w (row_limit max_rows) file_path) as [Hr _].
    cbn zeta in Hr. split.
    + cbn [emit fst app]. unfold reads in *. cbn [filter is_read].
      rewrite filter_app, Hr.
      destruct (_ <? 5)%nat; [|discriminate].
      destruct (refused w (row_limit max_rows) encodings); discriminate.
    + cbn [emit fst app existsb]. rewrite !existsb_app.
      assert (Hcsv : existsb (fun ev => match ev with PrintRowLimit _ => true | _ => false end)
                       (fst (load_csv w file_path (row_limit max_rows))) = false).
      { clear. unfold load_csv. rewrite fst_bind.
        assert (Ht : forall encs,
                   existsb (fun ev => match ev with PrintRowLimit _ => true | _ => false end)
                     (fst (try_encodings w (row_limit max_rows) encs)) = false).
        { induction encs as [|e encs IH]; [reflexivity|]. cbn [try_encodings].
          destruct (read_csv w e (row_limit max_rows)) as [df|[m|m|m|m|m]];
            try reflexivity.
          rewrite fst_bind. cbn [emit snd fst]. cbn [app existsb]. exact IH. }
        destruct (snd (try_encodings w (row_limit max_rows) encodings)) as [[df|]|e];
          rewrite ?existsb_app, ?Ht; reflexivity. }
      rewrite Hcsv. cbn [orb].
      destruct (rows df' =? row_limit max_rows)%Z; reflexivity.
  - destruct (String.eqb (lower (path_ext w)) ".xlsx") eqn:Exlsx.
    + split; [reflexivity|]. cbn [call fst] in *. split; [cbn; discriminate|].
      cbn [emit fst app existsb].
      destruct (rows df' =? row_limit max_rows)%Z; reflexivity.
    + destruct (String.eqb (lower (path_ext w)) ".json") eqn:Ejson; [|discriminate].
      split; [reflexivity|]. cbn [call fst] in *. split; [cbn; discriminate|].
      cbn [emit fst app existsb].
      destruct (rows df' =? row_limit max_rows)%Z; reflexivity.
Qed.

Lemma reraise_inl {A : Type} (file_path : string) (m : IO A) (a : A) :
  snd (logged_reraise file_path m) = inl a ->
  snd m = inl a /\ fst (logged_reraise file_path m) = fst m.
Proof.
  destruct m as [t [x|[msg|msg|msg|msg|msg]]]; cbn [logged_reraise snd fst];
    try discriminate. intros H. split; [exact H|reflexivity].
Qed.

Lemma read_file_inl (w : world) (file_path : string) (max_rows : option Z)
    (interactive : bool) (df : DataFrame) :
  snd (read_file w file_path max_rows interactive) = inl df ->
  snd (safety_gate w file_path interactive) = inl tt
  /\ snd (load w file_path max_rows) = inl df
  /\ fst (read_file w file_path max_rows interactive)
     = (fst (safety_gate w file_path interactive) ++ fst (load w file_path max_rows))%list.
Proof.
  unfold read_file. intros H.
  apply reraise_inl in H as [H ->].
  apply bind_inl in H as [[] [Hg [Hl ->]]]. repeat split; assumption.
Qed.

(** X6: a path the safety check refuses (missing, a directory, of
    unknown size, or too large) makes [read_file] raise [ValueError] with
    the message of the check, having logged it twice, read nothing and
    asked nothing.  In particular a missing file raises [ValueError], and
    [FileNotFoundError] can only come from a path that exists and passed
    the check. *)
Theorem refused_path_raises_value_error
    (w : world) (file_path : string) (max_rows : option Z) (interactive : bool) :
  (forall safety_msg,
     check_file_safety w file_path = (false, safety_msg) ->
     read_file w file_path max_rows interactive
     = ([LogError safety_msg;
         LogError ("An unexpected error occurred while reading file "
                   ++ file_path ++ ": " ++ safety_msg)],
        inr (ValueError safety_msg)))
  /\ (path_exists w = false ->
      snd (read_file w file_path max_rows interactive)
      = inr (ValueError ("File not found: " ++ file_path)))
  /\ (forall msg,
        snd (read_file w file_path max_rows interactive) = inr (FileNotFoundError msg) ->
        fst (check_file_safety w file_path) = true /\ path_exists w = true).
Proof.
  assert (Hrefused : forall safety_msg,
     check_file_safety w file_path = (false, safety_msg) ->
     read_file w file_path max_rows interactive
     = ([LogError safety_msg;
         LogError ("An unexpected error occurred while reading file "
                   ++ file_path ++ ": " ++ safety_msg)],
        inr (ValueError safety_msg))).
  { intros safety_msg H. unfold read_file, safety_gate. rewrite H. reflexivity. }
  split; [exact Hrefused|split].
  - intros H. rewrite (Hrefused ("File not found: " ++ file_path)); [reflexivity|].
    unfold check_file_safety. rewrite H. reflexivity.
  - intros msg H.
    destruct (check_file_safety w file_path) as [is_safe safety_msg] eqn:E.
    destruct is_safe.
    + split; [reflexivity|]. unfold check_file_safety in E.
      destruct (path_exists w); [reflexivity|discriminate].
    + rewrite (Hrefused safety_msg eq_refl) in H. discriminate.
Qed.

(** X7: [check_file_safety] accepts exactly the paths that exist, are
    files, whose size can be read and is at most 500 MB (524,288,000
    bytes); and the message of an accepted file holds [WARNING] exactly
    when its size is above 50 MB (52,428,800 bytes). *)
Theorem check_file_safety_accepts_exactly (w : world) (file_path : string) :
  (fst (check_file_safety w file_path) = true
   <-> path_exists w = true /\ path_isfile w = true
       /\ exists size, path_getsize w = inl size /\ (size <= 524288000)%Z)
  /\ (fst (check_file_safety w file_path) = true ->
      (contains "WARNING" (snd (check_file_safety w file_path)) = true
       <-> exists size, path_getsize w = inl size /\ (52428800 < size)%Z)).
Proof.
  unfold check_file_safety, size_mb_gt.
  change (MAX_FILE_SIZE_MB * Z.pos BYTES_PER_MB)%Z with 524288000%Z.
  change (LARGE_FILE_WARNING_MB * Z.pos BYTES_PER_MB)%Z with 52428800%Z.
  destruct (path_exists w); cbn [negb fst snd];
    [|split; [split; [discriminate|intros [H _]; discriminate H]|discriminate]].
  destruct (path_isfile w); cbn [negb fst snd];
    [|split; [split; [discriminate|intros [_ [H _]]; discriminate H]|discriminate]].
  destruct (path_getsize w) as [size|e]; cbn [fst snd];
    [|split; [split; [discriminate|intros [_ [_ [x [H _]]]]; discriminate H]
             |discriminate]].
  destruct (524288000 <? size)%Z eqn:Emax; cbn [fst snd].
  { apply Z.ltb_lt in Emax. split; [|discriminate].
    split; [discriminate|]. intros [_ [_ [x [Hx Hle]]]]. injection Hx as <-. lia. }
  apply Z.ltb_ge in Emax.
  assert (Hsize : exists x, @inl Z string size = inl x /\ (x <= 524288000)%Z)
    by (exists size; split; [reflexivity|exact Emax]).
  destruct (52428800 <? size)%Z eqn:Elarge; cbn [fst snd].
  - apply Z.ltb_lt in Elarge. split; [split; [intros _; repeat split; exact Hsize|reflexivity]|].
    intros _. split; [|reflexivity].
    intros _. exists size. split; [reflexivity|exact Elarge].
  - apply Z.ltb_ge in Elarge. split; [split; [intros _; repeat split; exact Hsize|reflexivity]|].
    intros _. split.
    + intros H. rewrite size_ok_no_warning in H. discriminate.
    + intros [x [Hx Hlt]]. injection Hx as <-. lia.
Qed.

(** X8: when [read_file] returns a frame, the frame is not empty, the
    extension is one of the three supported ones, at least one read was
    issued, no error was logged, and the row-limit notice was printed
    exactly when the frame has as many rows as the limit.  When it raises,
    the last thing it did was to log an error. *)
Theorem read_file_outcomes
    (w : world) (file_path : string) (max_rows : option Z) (interactive : bool) :
  let run := read_file w file_path max_rows interactive in
  match snd run with
  | inl df =>
      df_empty df = false
      /\ supported (lower (path_ext w)) = true
      /\ reads (fst run) <> []
      /\ existsb is_error_log (fst run) = false
      /\ row_limit_notice (fst run)
         = (rows df =? row_limit max_rows)%Z
  | inr e => exists t msg, fst run = (t ++ [LogError msg])%list
  end.
Proof.
  cbn zeta. destruct (snd (read_file w file_path max_rows interactive)) as [df|e] eqn:E.
  - destruct (read_file_inl _ _ _ _ _ E) as [Hg [Hl Ht]].
    destruct (load_inl _ _ _ _ Hl) as [Hempty [Hext [Hreads Hlimit]]].
    unfold row_limit_notice in *.
    rewrite Ht. refine (conj Hempty (conj Hext (conj _ (conj _ _)))).
    + rewrite LoaderClaims.reads_app, gate_reads. exact Hreads.
    + rewrite existsb_app.
      rewrite (quiet_gate w file_path interactive tt Hg).
      rewrite (quiet_load w file_path max_rows df Hl). reflexivity.
    + rewrite existsb_app, Hlimit.
      assert (Hgate : existsb (fun ev => match ev with PrintRowLimit _ => true | _ => false end)
                        (fst (safety_gate w file_path interactive)) = false).
      { clear. unfold safety_gate.
        destruct (check_file_safety w file_path) as [is_safe msg].
        destruct is_safe; cbn [negb]; [|reflexivity].
        destruct (contains "WARNING" msg); [|reflexivity].
        destruct interactive; [|reflexivity].
        cbn [bind emit call]. destruct (user_input w) as [answer|e]; [|reflexivity].
        destruct (negb _); reflexivity. }
      rewrite Hgate. reflexivity.
  - unfold read_file in *.
    destruct (safety_gate w file_path interactive;;; load w file_path max_rows)
      as [t [a|[msg|msg|msg|msg|msg]]]; cbn [logged_reraise snd fst] in *;
      [discriminate|..]; eexists; eexists; reflexivity.
Qed.

(** X9: for an extension other than [.csv], [.xlsx] and [.json], in any
    case of letters, [read_file] reads nothing and returns nothing; once
    the safety check and the confirmation are passed, what it raises is
    [ValueError] naming the extension. *)
Theorem unsupported_extension_is_never_read
    (w : world) (file_path : string) (max_rows : option Z) (interactive : bool) :
  supported (lower (path_ext w)) = false ->
  reads (fst (read_file w file_path max_rows interactive)) = []
  /\ (forall df, snd (read_file w file_path max_rows interactive) <> inl df)
  /\ (snd (safety_gate w file_path interactive) = inl tt ->
      snd (read_file w file_path max_rows interactive)
      = inr (ValueError ("Unsupported file type: " ++ lower (path_ext w)))).
Proof.
  intros Hext. unfold supported in Hext.
  apply orb_false_iff in Hext as [Hext Hjson].
  apply orb_false_iff in Hext as [Hcsv Hxlsx].
  assert (Hload : load w file_path max_rows
                  = ([LogInfo ("Attempting to read file: " ++ file_path
                               ++ " with extension: " ++ lower (path_ext w));
                      LogError ("Unsupported file type: " ++ lower (path_ext w)
                                ++ " for file: " ++ file_path)],
                     inr (ValueError ("Unsupported file type: " ++ lower (path_ext w))))).
  { unfold load. rewrite Hcsv, Hxlsx, Hjson. reflexivity. }
  split; [|split].
  - unfold read_file. rewrite reads_reraise, fst_bind.
    destruct (snd (safety_gate w file_path interactive));
      rewrite ?LoaderClaims.reads_app, gate_reads, ?Hload; reflexivity.
  - intros df H. apply read_file_inl in H as [_ [H _]].
    rewrite Hload in H. discriminate.
  - intros Hg. unfold read_file.
    destruct (safety_gate w file_path interactive) as [t r]. cbn [snd] in Hg. subst r.
    rewrite Hload. reflexivity.
Qed.

Lemma unsupported_extension_is_never_read_witness :
  supported (lower (path_ext MoreScenarios.notes_file)) = false
  /\ reads (fst (read_file MoreScenarios.notes_file "notes.TXT" None true)) = []
  /\ snd (read_file MoreScenarios.notes_file "notes.TXT" None true)
     = inr (ValueError "Unsupported file type: .txt").
Proof.
  destruct (unsupported_extension_is_never_read MoreScenarios.notes_file "notes.TXT"
              None true eq_refl) as [Hreads [_ Hraise]].
  split; [reflexivity|]. split; [exact Hreads|]. apply Hraise. reflexivity.
Defined.

Lemma asks_bind {A B : Type} (m : IO A) (k : A -> IO B) (a b : nat) :
  List.length (filter is_ask (fst m)) <= a ->
  (forall x, List.length (filter is_ask (fst (k x))) <= b) ->
  List.length (filter is_ask (fst (bind m k))) <= a + b.
Proof.
  intros Hm Hk. rewrite fst_bind. destruct (snd m) as [x|e]; [|lia].
  rewrite filter_app, length_app. specialize (Hk x). lia.
Qed.

Lemma try_encodings_asks (w : world) (n : Z) (encs : list string) :
  filter is_ask (fst (try_encodings w n encs)) = [].
Proof.
  induction encs as [|e encs IH]; [reflexivity|]. cbn [try_encodings].
  destruct (read_csv w e n) as [df|[m|m|m|m|m]]; try reflexivity.
  rewrite fst_bind. cbn [emit snd fst]. rewrite filter_app, IH. reflexivity.
Qed.

Lemma load_asks (w : world) (file_path : string) (max_rows : option Z) :
  List.length (filter is_ask (fst (load w file_path max_rows))) <= 0.
Proof.
  unfold load.
  apply (asks_bind _ _ 0 0); [cbn; lia|intros _].
  apply (asks_bind _ _ 0 0).
  - destruct (String.eqb _ ".csv").
    + unfold load_csv. apply (asks_bind _ _ 0 0).
      * rewrite try_encodings_asks. cbn. lia.
      * intros [df|]; [cbn; lia|].
        cbn; lia.
    + destruct (String.eqb _ ".xlsx"); [cbn; lia|].
      destruct (String.eqb _ ".json"); cbn; lia.
  - intros df.
    apply (asks_bind _ _ 0 0); [cbn; lia|intros _].
    apply (asks_bind _ _ 0 0).
    + destruct (rows df =? row_limit max_rows)%Z; cbn; lia.
    + intros _. destruct (df_empty df); cbn; lia.
Qed.

Lemma asks_reraise {A : Type} (file_path : string) (m : IO A) :
  filter is_ask (fst (logged_reraise file_path m)) = filter is_ask (fst m).
Proof.
  destruct m as [t [a|[msg|msg|msg|msg|msg]]]; cbn [logged_reraise fst];
    try reflexivity; rewrite filter_app; cbn; apply app_nil_r.
Qed.

Lemma gate_asks (w : world) (file_path : string) (interactive : bool) :
  filter is_ask (fst (safety_gate w file_path interactive)) = []
  \/ (filter is_ask (fst (safety_gate w file_path interactive))
       = [AskUser confirmation_prompt]
      /\ interactive = true
      /\ fst (check_file_safety w file_path) = true
      /\ contains "WARNING" (snd (check_file_safety w file_path)) = true).
Proof.
  unfold safety_gate.
  destruct (check_file_safety w file_path) as [is_safe msg]. cbn [fst snd].
  destruct is_safe; cbn [negb]; [|left; reflexivity].
  destruct (contains "WARNING" msg) eqn:Ew; [|left; reflexivity].
  destruct interactive; [|left; reflexivity].
  right. cbn [bind emit call].
  destruct (user_input w) as [answer|e]; [destruct (negb _)|];
    cbn; repeat split; reflexivity.
Qed.

Lemma warning_means_large (w : world) (file_path : string) :
  fst (check_file_safety w file_path) = true ->
  contains "WARNING" (snd (check_file_safety w file_path)) = true ->
  exists size, path_getsize w = inl size /\ (large_bytes < size)%Z.
Proof.
  unfold check_file_safety.
  destruct (path_exists w); cbn [negb]; [|discriminate].
  destruct (path_isfile w); cbn [negb]; [|discriminate].
  destruct (path_getsize w) as [size|e]; [|discriminate].
  destruct (size_mb_gt size MAX_FILE_SIZE_MB); [discriminate|].
  destruct (size_mb_gt size LARGE_FILE_WARNING_MB) eqn:Elarge; cbn [fst snd].
  - intros _ _. exists size. split; [reflexivity|]. apply Z.ltb_lt. exact Elarge.
  - intros _ H. rewrite size_ok_no_warning in H. discriminate.
Qed.

(** X10: [read_file] asks the user at most one question, and only when it
    is interactive and the safety check accepted the file with a warning,
    that is for a file above 50 MB; with [interactive=False] it never
    asks. *)
Theorem read_file_asks_at_most_once
    (w : world) (file_path : string) (max_rows : option Z) (interactive : bool) :
  let asked := filter is_ask (fst (read_file w file_path max_rows interactive)) in
  List.length asked <= 1
  /\ (asked <> [] ->
      interactive = true
      /\ fst (check_file_safety w file_path) = true
      /\ exists size, path_getsize w = inl size /\ (large_bytes < size)%Z)
  /\ filter is_ask (fst (read_file w file_path max_rows false)) = [].
Proof.
  cbv zeta.
  assert (Hgate : forall i,
            filter is_ask (fst (read_file w file_path max_rows i))
            = filter is_ask (fst (safety_gate w file_path i))).
  { intros i. unfold read_file. rewrite asks_reraise, fst_bind.
    destruct (snd (safety_gate w file_path i)); [|reflexivity].
    rewrite filter_app.
    pose proof (load_asks w file_path max_rows) as H.
    destruct (filter is_ask (fst (load w file_path max_rows))); [|cbn in H; lia].
    apply app_nil_r. }
  rewrite !Hgate. split; [|split].
  - destruct (gate_asks w file_path interactive) as [->|[-> _]]; cbn; lia.
  - intros Hasked.
    destruct (gate_asks w file_path interactive) as [H|[_ [Hi [Hsafe Hwarn]]]];
      [congruence|].
    split; [exact Hi|split; [exact Hsafe|]].
    apply (warning_means_large w file_path Hsafe Hwarn).
  - destruct (gate_asks w file_path false) as [H|[_ [Hi _]]];
      [exact H|discriminate].
Qed.

(** X11: every read [read_file] issues, whatever the format and the
    encoding, carries the row limit as [nrows]: the [max_rows] it was
    given, and 1,000,000 when it was given none, so that a file is never
    loaded without a cap.  A call issues at most six reads. *)
Theorem every_read_is_capped
    (w : world) (file_path : string) (max_rows : option Z) (interactive : bool) :
  Forall (fun ev => nrows_of ev = Some (row_limit max_rows))
         (reads (fst (read_file w file_path max_rows interactive)))
  /\ List.length (reads (fst (read_file w file_path max_rows interactive))) <= 6
  /\ row_limit None = 1000000%Z.
Proof.
  split; [|split; [|reflexivity]].
  - assert (H : Forall (capped (row_limit max_rows))
                       (fst (read_file w file_path max_rows interactive))).
    { unfold read_file. apply Forall_reraise; [discriminate|].
      apply Forall_bind; [apply gate_capped|intros _ _; apply load_capped]. }
    unfold reads. apply Forall_forall. intros ev Hin.
    apply filter_In in Hin as [Hin Hr].
    rewrite Forall_forall in H. exact (H ev Hin Hr).
  - unfold read_file. rewrite reads_reraise.
    apply (reads_length_bind _ _ 0 6).
    + rewrite gate_reads. simpl. lia.
    + intros _. apply load_reads.
Qed.

End LoaderMore.

(* ===================================================================== *)
(** * Loading several datasets *)
(* ===================================================================== *)

Module IngestionFacts.
Import Py Loader Ingestion LoaderMore.

Lemma load_dataset_loaded (fs : string -> world) (basename : string -> string)
    (file_path : string) :
  match snd (load_dataset fs basename file_path) with
  | Some dataset => [dataset]
  | None => []
  end = loaded fs basename file_path.
Proof.
  unfold load_dataset, loaded, accepted.
  destruct (read_file (fs file_path) file_path None true) as [t [df|[m|m|m|m|m]]];
    reflexivity.
Qed.

Lemma load_datasets_loaded (fs : string -> world) (basename : string -> string)
    (file_paths : list string) :
  snd (load_datasets fs basename file_paths)
  = flat_map (loaded fs basename) file_paths.
Proof.
  induction file_paths as [|p rest IH]; [reflexivity|].
  cbn [load_datasets flat_map]. rewrite <- IH, <- load_dataset_loaded.
  destruct (load_dataset fs basename p) as [t [dataset|]];
    destruct (load_datasets fs basename rest); reflexivity.
Qed.

Lemma process_datasets_loaded (fs : string -> world) (basename : string -> string)
    (file_paths : list string) :
  snd (process_datasets fs basename file_paths)
  = flat_map (loaded fs basename) file_paths.
Proof.
  rewrite <- load_datasets_loaded. unfold process_datasets.
  destruct file_paths as [|p rest]; [reflexivity|].
  destruct (load_datasets fs basename (p :: rest)). reflexivity.
Qed.

(** X12: [process_datasets] returns, in the order of the paths, one
    dataset for each path [read_file] returns a frame for, named by the
    base name of the path; a path [read_file] raises on is skipped whatever
    the exception, and does not touch the others (the result for two lists
    of paths put end to end is the two results put end to end).  No dataset
    it returns is empty, and there are at most as many as paths. *)
Theorem process_datasets_keeps_what_read_file_accepts
    (fs : string -> world) (basename : string -> string) (file_paths : list string) :
  (forall name df,
     In (name, df) (snd (process_datasets fs basename file_paths))
     <-> exists file_path,
           In file_path file_paths /\ name = basename file_path
           /\ snd (read_file (fs file_path) file_path None true) = inl df)
  /\ Forall (fun dataset => df_empty (snd dataset) = false)
            (snd (process_datasets fs basename file_paths))
  /\ (forall more,
        snd (process_datasets fs basename (file_paths ++ more))
        = (snd (process_datasets fs basename file_paths)
           ++ snd (process_datasets fs basename more))%list)
  /\ List.length (snd (process_datasets fs basename file_paths))
     <= List.length file_paths.
Proof.
  assert (Hin : forall name df,
     In (name, df) (snd (process_datasets fs basename file_paths))
     <-> exists file_path,
           In file_path file_paths /\ name = basename file_path
           /\ snd (read_file (fs file_path) file_path None true) = inl df).
  { intros name df. rewrite process_datasets_loaded, in_flat_map.
    split; intros [p [Hp H]]; exists p; (split; [exact Hp|]).
    - unfold loaded, accepted in H.
      destruct (snd (read_file (fs p) p None true)) as [df'|e]; [|destruct H].
      destruct H as [H|[]]. injection H as <- <-. split; reflexivity.
    - destruct H as [-> H]. unfold loaded, accepted. rewrite H. left. reflexivity. }
  split; [exact Hin|split; [|split]].
  - apply Forall_forall. intros [name df] H.
    apply Hin in H as [p [_ [_ H]]].
    destruct (read_file_inl _ _ _ _ _ H) as [_ [Hl _]].
    exact (proj1 (load_inl _ _ _ _ Hl)).
  - intros more. rewrite !process_datasets_loaded. apply flat_map_app.
  - rewrite process_datasets_loaded. clear Hin.
    induction file_paths as [|p rest IH]; [simpl; lia|].
    cbn [flat_map]. rewrite length_app. unfold loaded at 1.
    destruct (accepted fs p); cbn [List.length]; lia.
Qed.

End IngestionFacts.

(* ===================================================================== *)
(** * More about the generation step: counts, failures, the formatter *)
(* ===================================================================== *)

Module MainMore.
Import Py PyFacts StrFacts Formatter Offline Main Reports.

Lemma expected_count_nth (counts : list Z) (i : nat) :
  counts <> [] -> expected_count_for (Some counts) i = nth i counts 15%Z.
Proof. destruct counts; [congruence|reflexivity]. Qed.

Lemma offline_results_app (i : nat) (a b : list Task)
    (context : Context.DatasetContext) (question_counts : option (list Z)) :
  offline_results_from i (a ++ b) context question_counts
  = (offline_results_from i a context question_counts
     ++ offline_results_from (i + List.length a) b context question_counts)%list.
Proof.
  revert i. induction a as [|t a IH]; intros i; cbn [app offline_results_from List.length].
  - rewrite Nat.add_0_r. reflexivity.
  - rewrite IH. replace (S i + List.length a) with (i + S (List.length a)) by lia.
    reflexivity.
Qed.

Lemma nth_repeat_below {A : Type} (a d : A) (n i : nat) :
  i < n -> nth i (repeat a n) d = a.
Proof.
  revert i. induction n as [|n IH]; intros [|i] H; cbn; try lia; [reflexivity|].
  apply IH. lia.
Qed.

Lemma offline_results_same_count (n : nat) (count : Z) (tail : list Z)
    (context : Context.DatasetContext) (tasks : list Task) (i : nat) :
  i + List.length tasks <= n ->
  offline_results_from i tasks context (Some (repeat count n ++ tail)%list)
  = map (fun task => offline_result task context count) tasks.
Proof.
  revert i. induction tasks as [|t tasks IH]; intros i Hi; [reflexivity|].
  cbn [offline_results_from map List.length] in *.
  rewrite IH by lia. f_equal. f_equal.
  rewrite expected_count_nth.
  - rewrite app_nth1 by (rewrite repeat_length; lia). apply nth_repeat_below. lia.
  - destruct n; [lia|discriminate].
Qed.

Lemma last_item_snoc {A : Type} (l : list A) (x : A) : last_item (l ++ [x]) = Some x.
Proof.
  unfold last_item. destruct (l ++ [x])%list eqn:E.
  - destruct l; discriminate.
  - rewrite <- E, length_app, nth_error_app2 by (simpl; lia).
    replace (List.length l + List.length [x] - 1 - List.length l) with 0
      by (simpl; lia).
    reflexivity.
Qed.

Lemma slice_drop_last {A : Type} (l : list A) (x : A) : slice_to (-1) (l ++ [x]) = l.
Proof.
  unfold slice_to. cbn [Z.leb Z.compare]. rewrite length_app. cbn [List.length].
  replace (Z.to_nat (Z.of_nat (List.length l + 1) + -1)) with (List.length l + 0) by lia.
  rewrite firstn_app_2. cbn [firstn]. apply app_nil_r.
Qed.

(** X13: the results [main] hands to the reports line up with the tasks:
    [individual_task_results] holds, for each individual task in order,
    the offline text generated with the count asked per dataset, and
    [comparison_result] is the offline text of the comparison task
    generated with the comparison count, when there is a comparison task;
    [task_results[-1]] never raises. *)
Theorem main_gives_each_task_its_count
    (run : kickoff) (context : Context.DatasetContext)
    (individual_question_count : Z) (individual_tasks : list Task)
    (comparison : option (Task * Z)) :
  main_separate
    (snd (main_task_results run context individual_question_count
                            individual_tasks comparison))
    comparison
  = Some (map (fun task => offline_result task context individual_question_count)
              individual_tasks,
          option_map (fun c => offline_result (fst c) context (snd c)) comparison).
Proof.
  unfold main_task_results, main_all_tasks, main_question_counts.
  destruct comparison as [[comparison_task comparison_question_count]|].
  - destruct (individual_tasks ++ [comparison_task])%list eqn:E;
      [destruct individual_tasks; discriminate|]. rewrite <- E. clear E.
    cbn [_detect_rate_limiting snd]. unfold _generate_offline_results.
    rewrite offline_results_app, offline_results_same_count by lia.
    cbn [offline_results_from]. rewrite expected_count_nth.
    + rewrite app_nth2 by (rewrite repeat_length; lia).
      rewrite repeat_length. replace (0 + _ - _) with 0 by lia. cbn [nth].
      unfold main_separate. rewrite last_item_snoc, slice_drop_last. reflexivity.
    + intros H. apply app_eq_nil in H as [_ H]. discriminate.
  - rewrite !app_nil_r. destruct individual_tasks as [|t ts] eqn:E; [reflexivity|].
    rewrite <- E. cbn [_detect_rate_limiting snd]. unfold _generate_offline_results.
    rewrite <- (app_nil_r (repeat _ _)).
    rewrite offline_results_same_count by lia. reflexivity.
Qed.

Lemma crew_results_nth (run : kickoff) (question_counts : option (list Z))
    (tasks : list Task) (k i : nat) (task : Task) :
  nth_error tasks i = Some task ->
  nth_error (crew_results_from run k tasks question_counts) i
  = Some (crew_result run (k + i) task question_counts).
Proof.
  revert k i. induction tasks as [|t tasks IH]; intros k [|i] H; try discriminate.
  - injection H as ->. cbn. rewrite Nat.add_0_r. reflexivity.
  - cbn [crew_results_from nth_error] in *. rewrite (IH (S k) i H).
    replace (S k + i) with (k + S i) by lia. reflexivity.
Qed.

Lemma crew_results_length (run : kickoff) (question_counts : option (list Z))
    (tasks : list Task) (k : nat) :
  List.length (crew_results_from run k tasks question_counts) = List.length tasks.
Proof.
  revert k. induction tasks as [|t tasks IH]; intros k; [reflexivity|].
  cbn [crew_results_from List.length]. now rewrite IH.
Qed.

Lemma rstrip_keeps (a b : string) (c : ascii) :
  isspace c = false -> rstrip (a ++ String c b) = a ++ String c (rstrip b).
Proof.
  intros Hc. induction a as [|x a IH].
  - cbn [append rstrip]. rewrite Hc, andb_false_r. reflexivity.
  - cbn [append rstrip]. rewrite IH.
    destruct a; cbn [append is_empty andb]; reflexivity.
Qed.

Lemma error_result_is_recognised (i : nat) (task : Task) (e : string) :
  startswith (lower (strip (error_result i task e))) "error executing task" = true.
Proof.
  unfold error_result, strip, lstrip.
  change (drop_while isspace ("Error executing task '" ++ ?x))
    with ("Error executing task " ++ String "'" x).
  rewrite rstrip_keeps by reflexivity. reflexivity.
Qed.

(** X14: [run_crew_standard] returns one result per task, and when the
    crew of task [i] raises, the result stored for it is the text
    [Error executing task '<id>': <error>], which [format_output_final]
    recognises and prints as it is, under the header of the task. *)
Theorem crew_failure_is_reported_not_raised
    (run : kickoff) (tasks : list Task) (question_counts : option (list Z))
    (i : nat) (task : Task) (e : string) (header : string) :
  nth_error tasks i = Some task ->
  run task = inr e ->
  List.length (run_crew_standard run tasks question_counts) = List.length tasks
  /\ nth_error (run_crew_standard run tasks question_counts) i
     = Some (error_result i task e)
  /\ format_task_result header (error_result i task e)
     = [nl ++ strip header; strip (error_result i task e)].
Proof.
  intros Htask Hrun. unfold run_crew_standard. split; [apply crew_results_length|split].
  - rewrite (crew_results_nth run question_counts tasks 0 i task Htask).
    unfold crew_result. rewrite Hrun. reflexivity.
  - unfold format_task_result. rewrite error_result_is_recognised. reflexivity.
Qed.

Lemma crew_failure_is_reported_not_raised_witness :
  let run : kickoff := fun _ => inr "rate limit exceeded" in
  nth_error (run_crew_standard run [Scenarios.assets_task] None) 0
  = Some "Error executing task 'Task 1': rate limit exceeded"
  /\ format_task_result Scenarios.header
       "Error executing task 'Task 1': rate limit exceeded"
     = [nl ++ Scenarios.header; "Error executing task 'Task 1': rate limit exceeded"].
Proof.
  cbn zeta.
  destruct (crew_failure_is_reported_not_raised
              (fun _ => inr "rate limit exceeded") [Scenarios.assets_task] None
              0 Scenarios.assets_task "rate limit exceeded" Scenarios.header
              eq_refl eq_refl) as [_ [Hnth Hfmt]].
  split; [exact Hnth|exact Hfmt].
Defined.

(** X15: [run_crew_standard] trims the result of each task to the count
    at the position of the task in [question_counts], and leaves it as the
    crew returned it when the list of counts is shorter; a result trimmed
    to a count [n >= 0] holds at most [n] items. *)
Theorem crew_result_is_trimmed_to_its_count
    (run : kickoff) (tasks : list Task) (question_counts : list Z)
    (i : nat) (task : Task) (result_str : string) :
  nth_error tasks i = Some task ->
  run task = inl result_str ->
  exists result,
    nth_error (run_crew_standard run tasks (Some question_counts)) i = Some result
    /\ match nth_error question_counts i with
       | Some expected_count =>
           result = Normalizer._trim_questions_to_exact_count result_str expected_count
           /\ ((0 <= expected_count)%Z ->
               (Z.of_nat (List.length (Normalizer.extracted_items result))
                <= expected_count)%Z)
       | None => result = result_str
       end.
Proof.
  intros Htask Hrun. unfold run_crew_standard.
  rewrite (crew_results_nth run (Some question_counts) tasks 0 i task Htask).
  eexists. split; [reflexivity|].
  unfold crew_result. rewrite Hrun. cbn [Nat.add].
  assert (Hcount : count_to_trim (Some question_counts) i = nth_error question_counts i).
  { destruct question_counts; [destruct i; reflexivity|reflexivity]. }
  rewrite Hcount. destruct (nth_error question_counts i) as [n|]; [|reflexivity].
  split; [reflexivity|]. intros Hn.
  rewrite NormalizerFacts.extracted_items_of_result.
  unfold Normalizer.trimmed_questions.
  rewrite NormalizerMore.trim_to_count_length by exact Hn. lia.
Qed.

Lemma crew_result_is_trimmed_to_its_count_witness :
  nth_error (run_crew_standard (fun _ => inl Scenarios.multi_line)
                               [Scenarios.assets_task] (Some [2%Z])) 0
  = Some (Normalizer._trim_questions_to_exact_count Scenarios.multi_line 2).
Proof.
  destruct (crew_result_is_trimmed_to_its_count
              (fun _ => inl Scenarios.multi_line) [Scenarios.assets_task] [2%Z]
              0 Scenarios.assets_task Scenarios.multi_line eq_refl eq_refl)
    as [result [Hnth [Hresult _]]].
  rewrite Hnth, Hresult. reflexivity.
Defined.

Lemma contains_nil (s : string) : contains "" s = true.
Proof. destruct s; cbn [contains]; rewrite prefix_nil; reflexivity. Qed.

(** X16: with a header that is empty or blank, [format_output_final]
    drops every line of the content, since the empty header is found in
    every line: whatever questions the content holds, the task is printed
    as having produced unparseable output (or none). *)
Theorem blank_header_hides_every_question (header content : string) :
  strip header = "" ->
  startswith (lower (strip content)) "error executing task" = false ->
  format_task_result header content
  = [nl;
     if truthy (strip content)
     then "[Task completed, but generated unexpected or unparseable output.]"
     else "[Task completed, generated no output content.]"].
Proof.
  intros Hh Herr. unfold format_task_result. rewrite Herr, Hh.
  unfold formatted_questions, cleaned_lines. rewrite Hh.
  assert (Hnone : forall ls,
            filter (fun line => negb (contains "" line) && negb (is_empty (strip line))) ls
            = []).
  { induction ls as [|l ls IH]; [reflexivity|].
    cbn [filter]. rewrite contains_nil. exact IH. }
  rewrite Hnone. cbn [map]. destruct (truthy (strip content)); reflexivity.
Qed.

Lemma blank_header_hides_every_question_witness :
  format_task_result "   " Scenarios.three_items
  = [nl; "[Task completed, but generated unexpected or unparseable output.]"].
Proof.
  exact (blank_header_hides_every_question "   " Scenarios.three_items eq_refl eq_refl).
Defined.

End MainMore.

(* ===================================================================== *)
(** * More about the column classifier and the summary *)
(* ===================================================================== *)

Module AnalyzerMore.
Import Py PyFacts StrFacts Analyzer AnalyzerFacts Summary.
Import QArith_base.
Local Close Scope Q_scope.

Lemma contains_split (p s : string) :
  contains p s = true -> exists a b, s = a ++ p ++ b.
Proof.
  induction s as [|c s IH]; cbn [contains]; intros H.
  - rewrite orb_false_r in H. destruct (prefix_app _ _ H) as [w Hw].
    exists "", w. exact Hw.
  - apply orb_true_iff in H as [H|H].
    + destruct (prefix_app _ _ H) as [w Hw]. exists "", w. exact Hw.
    + destruct (IH H) as [a [b ->]]. exists (String c a), b. reflexivity.
Qed.

Lemma contains_trans (p q s : string) :
  contains p q = true -> contains q s = true -> contains p s = true.
Proof.
  intros Hpq Hqs.
  destruct (contains_split _ _ Hpq) as [a [b ->]].
  destruct (contains_split _ _ Hqs) as [a' [b' ->]].
  rewrite !append_assoc, <- (append_assoc a' a). apply contains_middle.
Qed.

Lemma fold_min_some (l : list number) (m : number) :
  fold_left Qmin_opt l (Some m) <> None.
Proof.
  revert m. induction l as [|x l IH]; intros m; cbn [fold_left Qmin_opt]; [discriminate|].
  destruct (Qle_bool m x); apply IH.
Qed.

Lemma series_min_none (values : list (option number)) :
  series_min values = None <-> non_null values = [].
Proof.
  unfold series_min. destruct (non_null values) as [|v vs].
  - split; reflexivity.
  - cbn [fold_left Qmin_opt]. split; [intros H; destruct (fold_min_some _ _ H)|discriminate].
Qed.

(** X17: a numeric column whose name, in lower case, holds [year] or
    [yr] and in which every value is missing makes the classifier raise:
    the least value is NaN, which [int] refuses.  The description stored
    for such a column is then the text with the samples, which has no
    sample to show. *)
Theorem classifier_raises_on_year_column_without_values
    (column_name dtype : string) (values : list (option number))
    (mean_val : option number) :
  any_term ["year"; "yr"] (lower column_name) = true ->
  non_null values = [] ->
  classify column_name (NumericSeries values mean_val)
  = Raised "cannot convert float NaN to integer"
  /\ forall (str_number : number -> string) (other_samples : series -> list string),
       describe str_number other_samples
         {| col_name := column_name; col_dtype := dtype;
            col_series := NumericSeries values mean_val |}
       = "Data field with sample values: ".
Proof.
  intros Hyear Hnone.
  assert (H : classify column_name (NumericSeries values mean_val)
              = Raised "cannot convert float NaN to integer").
  { cbn [classify]. unfold analyze_numeric. rewrite Hyear.
    apply series_min_none in Hnone. rewrite Hnone. reflexivity. }
  split; [exact H|]. intros str_number other_samples.
  unfold describe, _analyze_column_intelligently. cbn [col_name col_series].
  rewrite H. cbn [sample_values]. rewrite Hnone. reflexivity.
Qed.

Lemma classifier_raises_on_year_column_without_values_witness :
  classify "Fiscal_Year" (NumericSeries [None; None] None)
  = Raised "cannot convert float NaN to integer".
Proof.
  apply (classifier_raises_on_year_column_without_values
           "Fiscal_Year" "float64" [None; None] None); reflexivity.
Defined.

(** X18: the key word [equity] of the balance-sheet test never decides:
    a numeric column whose name holds it holds a [q], which the quarter
    test looks for earlier, so the column is described as a year or as a
    quarter, never as a balance-sheet item. *)
Theorem equity_is_never_a_balance_sheet_item
    (column_name : string) (values : list (option number)) (mean_val : option number) :
  contains "equity" (lower column_name) = true ->
  match classify column_name (NumericSeries values mean_val) with
  | Described c _ => c = TemporalYear \/ c = TemporalQuarter
  | Raised _ => True
  end.
Proof.
  intros H.
  assert (Hq : contains "q" (lower column_name) = true)
    by (apply (contains_trans "q" "equity"); [reflexivity|exact H]).
  cbn [classify]. unfold analyze_numeric.
  destruct (any_term ["year"; "yr"] (lower column_name)).
  - destruct (int_of (series_min values)); [|exact I].
    destruct (int_of (series_max values)); [left; reflexivity|exact I].
  - unfold any_term at 1. cbn [existsb]. rewrite Hq, !orb_true_r. right. reflexivity.
Qed.

Lemma equity_is_never_a_balance_sheet_item_witness :
  contains "equity" (lower "Total_Equity") = true
  /\ match classify "Total_Equity"
             (NumericSeries [whole 41; whole 42; whole 43] (whole 42)) with
     | Described c _ => c = TemporalYear \/ c = TemporalQuarter
     | Raised _ => True
     end.
Proof.
  split; [reflexivity|].
  apply (equity_is_never_a_balance_sheet_item "Total_Equity"
           [whole 41; whole 42; whole 43] (whole 42)).
  reflexivity.
Defined.

Lemma dict_set_fresh {V : Type} (k : string) (v : V) (d : list (string * V)) :
  dict_get k d = None -> dict_set k v d = (d ++ [(k, v)])%list.
Proof.
  induction d as [|[k' v'] d IH]; cbn [dict_get dict_set app]; [reflexivity|].
  destruct (String.eqb k' k); [discriminate|]. intros H. now rewrite IH.
Qed.

Lemma dict_get_snoc_other {V : Type} (k k' : string) (v : V) (d : list (string * V)) :
  k' <> k -> dict_get k (d ++ [(k', v)]) = dict_get k d.
Proof.
  intros Hne. induction d as [|[k0 v0] d IH]; cbn [dict_get app].
  - apply String.eqb_neq in Hne. rewrite Hne. reflexivity.
  - destruct (String.eqb k0 k); [reflexivity|exact IH].
Qed.

(** Filling a [dict] with one entry per column, the labels being all
    different, lists the entries in the order of the columns. *)
Lemma fill_distinct {V : Type} (g : column -> V) (cs : list column)
    (acc : list (string * V)) :
  NoDup (map col_name cs) ->
  (forall c, In c cs -> dict_get (col_name c) acc = None) ->
  fold_left (fun d c => dict_set (col_name c) (g c) d) cs acc
  = (acc ++ map (fun c => (col_name c, g c)) cs)%list.
Proof.
  revert acc. induction cs as [|c cs IH]; intros acc Hnd Hfresh.
  - cbn. now rewrite app_nil_r.
  - cbn [fold_left map]. inversion Hnd as [|? ? Hnotin Hnd']; subst.
    rewrite dict_set_fresh by (apply Hfresh; left; reflexivity).
    rewrite IH; [rewrite <- app_assoc; reflexivity|exact Hnd'|].
    intros c' Hc'. rewrite dict_get_snoc_other.
    + apply Hfresh. right. exact Hc'.
    + intros E. apply Hnotin. rewrite E. apply in_map, Hc'.
Qed.

Lemma lookup_distinct {V : Type} (g : column -> V) (cs : list column) (c : column) :
  NoDup (map col_name cs) -> In c cs ->
  dict_get (col_name c) (map (fun c => (col_name c, g c)) cs) = Some (g c).
Proof.
  induction cs as [|c0 cs IH]; intros Hnd Hin; [destruct Hin|].
  inversion Hnd as [|? ? Hnotin Hnd']; subst. cbn [map dict_get].
  destruct Hin as [->|Hin].
  - rewrite String.eqb_refl. reflexivity.
  - destruct (String.eqb_spec (col_name c0) (col_name c)) as [E|_].
    + exfalso. apply Hnotin. rewrite E. apply in_map, Hin.
    + apply IH; assumption.
Qed.

Section SummaryFacts.

Variable str_number : number -> string.
Variable other_samples : series -> list string.

(** X19: the summary of a frame that is not empty and whose column
    labels are all different has one entry per column, in the order of the
    columns, with the dtype of the column and the description stored for
    it, so that looking a column up by its label gives that pair.  The
    description is the text of the classifier, or, when the classifier
    raises, the text with the first three present values of the column.
    The default [Description unavailable] is never used. *)
Theorem summary_describes_every_column (df : frame) :
  frame_empty df = false ->
  NoDup (map col_name (frame_columns df)) ->
  generate_summary str_number other_samples df
  = {| rows := n_rows df;
       columns := List.length (frame_columns df);
       column_info :=
         map (fun c => (col_name c,
                        (col_dtype c, describe str_number other_samples c)))
             (frame_columns df) |}
  /\ forall c, In c (frame_columns df) ->
       dict_get (col_name c)
         (column_info (generate_summary str_number other_samples df))
       = Some (col_dtype c,
               match classify (col_name c) (col_series c) with
               | Described _ description => description
               | Raised _ =>
                   "Data field with sample values: "
                   ++ join ", " (sample_values str_number other_samples (col_series c))
               end).
Proof.
  intros Hne Hnd.
  assert (H : generate_summary str_number other_samples df
              = {| rows := n_rows df;
                   columns := List.length (frame_columns df);
                   column_info :=
                     map (fun c => (col_name c,
                                    (col_dtype c, describe str_number other_samples c)))
                         (frame_columns df) |}).
  { unfold generate_summary, generate_column_descriptions.
    rewrite Hne. f_equal.
    rewrite (fill_distinct (describe str_number other_samples))
      by (assumption || reflexivity).
    rewrite fill_distinct by (assumption || reflexivity).
    cbn [app]. apply map_ext_in. intros c Hc.
    rewrite lookup_distinct by assumption. reflexivity. }
  split; [exact H|].
  intros c Hc. rewrite H. cbn [column_info].
  rewrite (lookup_distinct
             (fun c => (col_dtype c, describe str_number other_samples c)))
    by assumption.
  unfold describe, _analyze_column_intelligently.
  destruct (classify (col_name c) (col_series c)); reflexivity.
Qed.

End SummaryFacts.

Lemma summary_describes_every_column_witness :
  let df := {| n_rows := 3;
               frame_columns :=
                 [ {| col_name := "Year"; col_dtype := "float64";
                      col_series := NumericSeries [None; None; None] None |};
                   {| col_name := "Notes"; col_dtype := "object";
                      col_series := Scenarios.distinct_notes |} ] |} in
  column_info (Summary.generate_summary (fun _ => "") (fun _ => []) df)
  = [("Year", ("float64", "Data field with sample values: "));
     ("Notes", ("object",
        "Categorical text field. 3 unique values (most common: 'paid'). Useful for grouping and filtering."))].
Proof.
  cbn zeta.
  destruct (summary_describes_every_column (fun _ => "") (fun _ => [])
              {| n_rows := 3;
                 frame_columns :=
                   [ {| col_name := "Year"; col_dtype := "float64";
                        col_series := NumericSeries [None; None; None] None |};
                     {| col_name := "Notes"; col_dtype := "object";
                        col_series := Scenarios.distinct_notes |} ] |}
              eq_refl) as [H _].
  - repeat constructor; cbn; intuition discriminate.
  - rewrite H. reflexivity.
Defined.

End AnalyzerMore.

(* ===================================================================== *)
(** * More about the context: the parser, quick contexts, saved contexts *)
(* ===================================================================== *)

Module ContextMore.
Import Py PyFacts StrFacts Context Quick AnalyzerFacts AnalyzerMore.

Lemma length_take (n : nat) (s : string) : String.length (take n s) <= n.
Proof.
  revert s. induction n as [|n IH]; intros [|c s]; cbn [take String.length]; try lia.
  specialize (IH s). lia.
Qed.

Lemma Forall_append_if (P : string -> Prop) (b : bool) (x : string) (l : list string) :
  P x -> Forall P l -> Forall P (append_if b x l).
Proof.
  intros Hx Hl. unfold append_if. destruct b; [|exact Hl].
  apply Forall_app. split; [exact Hl|]. constructor; [exact Hx|constructor].
Qed.

Lemma parse_line_in_range (acc : fields) (raw_line : string) :
  fields_in_range acc -> fields_in_range (parse_line acc raw_line).
Proof.
  intros [Hs [Ho [Ha Hu]]]. unfold fields_in_range, parse_line.
  cbn [f_subject_area f_analysis_objectives f_target_audience f_time_sensitivity].
  split; [|split; [|split]].
  - repeat match goal with |- context [if ?b then _ else _] => destruct b end;
      cbn; auto 10.
  - repeat apply Forall_append_if; cbn; auto 10.
  - repeat match goal with |- context [if ?b then _ else _] => destruct b end;
      cbn; auto 10.
  - repeat match goal with |- context [if ?b then _ else _] => destruct b end;
      cbn; auto 10.
Qed.

Lemma fold_in_range (lines : list string) (acc : fields) :
  fields_in_range acc -> fields_in_range (fold_left parse_line lines acc).
Proof.
  revert acc. induction lines as [|l lines IH]; intros acc H; [exact H|].
  apply IH, parse_line_in_range, H.
Qed.

(** X20: whatever the two texts, [_parse_dataset_background] returns a
    context whose subject area, audience and urgency are among the fixed
    values, whose objectives are a non-empty list of the five fixed
    objectives, whose background is the text it was given, and whose
    business context is at most 542 characters long. *)
Theorem parsed_context_is_in_range (background_text message_text : string) :
  exists context,
    _parse_dataset_background background_text message_text = Some context
    /\ In (subject_area context) parsed_subjects
    /\ analysis_objectives context <> []
    /\ Forall (fun objective => In objective parsed_objectives)
              (analysis_objectives context)
    /\ In (target_audience context) parsed_audiences
    /\ In (time_sensitivity context) parsed_urgencies
    /\ dataset_background context = background_text
    /\ String.length (business_context context) <= 542.
Proof.
  eexists. split; [reflexivity|].
  cbn [subject_area analysis_objectives target_audience time_sensitivity
       dataset_background business_context].
  assert (H : fields_in_range
                (fold_left parse_line (split LF (lower background_text))
                           (Fields "general analysis" [] "analysts" "medium"))).
  { apply fold_in_range. unfold fields_in_range. cbn. auto 10. }
  destruct H as [Hs [Ho [Ha Hu]]].
  split; [exact Hs|]. split; [|split; [|split; [exact Ha|split; [exact Hu|split; [reflexivity|]]]]].
  - destruct (f_analysis_objectives _); discriminate.
  - destruct (f_analysis_objectives _) eqn:E; [|exact Ho].
    constructor; [cbn; auto 10|constructor].
  - destruct (truthy message_text).
    + rewrite !length_append.
      pose proof (length_take 200 message_text).
      pose proof (length_take 300 background_text).
      cbn [String.length]. lia.
    + destruct (500 <? String.length background_text)%nat eqn:E.
      * rewrite length_append. pose proof (length_take 500 background_text).
        cbn [String.length]. lia.
      * apply Nat.ltb_ge in E. lia.
Qed.

Lemma occurrences_append_if (objective x : string) (b : bool) (l : list string) :
  occurrences objective (append_if b x l)
  = occurrences objective l + (if b && String.eqb objective x then 1 else 0).
Proof.
  unfold occurrences, append_if. destruct b; cbn [andb]; [|lia].
  rewrite filter_app, length_app. cbn [filter].
  destruct (String.eqb objective x); cbn [List.length]; lia.
Qed.

Lemma occurrences_fold (objective : string) (test : string -> bool) (lines : list string) :
  (forall acc raw_line,
     occurrences objective (f_analysis_objectives (parse_line acc raw_line))
     = occurrences objective (f_analysis_objectives acc)
       + (if test (strip raw_line) then 1 else 0)) ->
  forall acc,
    occurrences objective (f_analysis_objectives (fold_left parse_line lines acc))
    = occurrences objective (f_analysis_objectives acc)
      + List.length (filter (fun raw_line => test (strip raw_line)) lines).
Proof.
  intros Hstep. induction lines as [|l lines IH]; intros acc; cbn [fold_left filter].
  - cbn. lia.
  - rewrite IH, Hstep. destruct (test (strip l)); cbn [List.length]; lia.
Qed.

Ltac count_step :=
  intros acc raw_line; unfold parse_line; cbn [f_analysis_objectives];
  rewrite !occurrences_append_if; cbn [String.eqb Ascii.eqb Bool.eqb andb];
  rewrite ?andb_false_r, ?andb_true_r;
  repeat match goal with |- context [if ?b then _ else _] => destruct b end; lia.

(** X21: the objectives are not deduplicated: each of the four objectives
    appears in the context once for every line of the background, in lower
    case, that passes its key-word test. *)
Theorem objectives_are_counted_per_line (background_text message_text : string) :
  exists context,
    _parse_dataset_background background_text message_text = Some context
    /\ occurrences "risk assessment" (analysis_objectives context)
       = matching_lines (fun line => contains "risk" line && contains "assessment" line)
                        background_text
    /\ occurrences "performance evaluation" (analysis_objectives context)
       = matching_lines (fun line => contains "performance" line
                                     && (contains "evaluation" line
                                         || contains "analysis" line))
                        background_text
    /\ occurrences "trend analysis" (analysis_objectives context)
       = matching_lines (fun line => contains "trend" line) background_text
    /\ occurrences "optimization analysis" (analysis_objectives context)
       = matching_lines (fun line => contains "optimization" line) background_text.
Proof.
  eexists. split; [reflexivity|]. cbn [analysis_objectives]. unfold matching_lines.
  set (lines := split LF (lower background_text)).
  set (init := Fields "general analysis" [] "analysts" "medium").
  assert (Hdefault : forall objective,
            String.eqb objective "general analysis" = false ->
            occurrences objective
              match f_analysis_objectives (fold_left parse_line lines init) with
              | [] => ["general analysis"]
              | o :: os => o :: os
              end
            = occurrences objective
                (f_analysis_objectives (fold_left parse_line lines init))).
  { intros objective Hne. destruct (f_analysis_objectives _); [|reflexivity].
    unfold occurrences. cbn [filter]. rewrite Hne. reflexivity. }
  rewrite !Hdefault by reflexivity.
  repeat split.
  - rewrite (occurrences_fold "risk assessment"
               (fun line => contains "risk" line && contains "assessment" line));
      [reflexivity|count_step].
  - rewrite (occurrences_fold "performance evaluation"
               (fun line => contains "performance" line
                            && (contains "evaluation" line || contains "analysis" line)));
      [reflexivity|count_step].
  - rewrite (occurrences_fold "trend analysis" (fun line => contains "trend" line));
      [reflexivity|count_step].
  - rewrite (occurrences_fold "optimization analysis"
               (fun line => contains "optimization" line));
      [reflexivity|count_step].
Qed.

Lemma subject_step (acc : fields) (raw_line : string) :
  f_subject_area (parse_line acc raw_line)
  = if is_empty (subject_of_line raw_line) then f_subject_area acc
    else subject_of_line raw_line.
Proof.
  unfold subject_of_line, parse_line. cbn [f_subject_area].
  repeat match goal with |- context [if any_in ?k ?l then _ else _] =>
           destruct (any_in k l)
         end; reflexivity.
Qed.

Lemma subject_kept (lines : list string) (acc : fields) :
  Forall (fun raw_line => subject_of_line raw_line = "") lines ->
  f_subject_area (fold_left parse_line lines acc) = f_subject_area acc.
Proof.
  intros H. revert acc. induction H as [|l lines Hl _ IH]; intros acc; [reflexivity|].
  cbn [fold_left]. rewrite IH, subject_step, Hl. reflexivity.
Qed.

(** X22: the subject area of the parsed context is the one decided by the
    last line of the background that holds a subject key word, whatever
    the lines before it say. *)
Theorem last_subject_line_wins
    (background_text message_text : string) (before after : list string) (line : string) :
  split LF (lower background_text) = (before ++ line :: after)%list ->
  subject_of_line line <> "" ->
  Forall (fun raw_line => subject_of_line raw_line = "") after ->
  exists context,
    _parse_dataset_background background_text message_text = Some context
    /\ subject_area context = subject_of_line line.
Proof.
  intros Hlines Hline Hafter. eexists. split; [reflexivity|].
  cbn [subject_area]. rewrite Hlines, fold_left_app. cbn [fold_left].
  rewrite subject_kept by exact Hafter. rewrite subject_step.
  destruct (subject_of_line line); [congruence|reflexivity].
Qed.

Lemma last_subject_line_wins_witness :
  exists context,
    _parse_dataset_background
      ("Sales pipeline" ++ nl ++ "Revenue and PROFIT" ++ nl ++ "notes") ""
    = Some context
    /\ subject_area context = "financial analysis".
Proof.
  apply (last_subject_line_wins
           ("Sales pipeline" ++ nl ++ "Revenue and PROFIT" ++ nl ++ "notes") ""
           ["sales pipeline"] ["notes"] "revenue and profit").
  - reflexivity.
  - discriminate.
  - repeat constructor.
Defined.

(** X23: the marketing key word [customer acquisition] never decides: a
    line that holds it holds [customer], which the sales test looks for
    earlier, so the line sets the subject to financial analysis or to
    sales performance. *)
Theorem customer_acquisition_is_never_marketing (acc : fields) (raw_line : string) :
  contains "customer acquisition" (strip raw_line) = true ->
  f_subject_area (parse_line acc raw_line) = "financial analysis"
  \/ f_subject_area (parse_line acc raw_line) = "sales performance".
Proof.
  intros H.
  assert (Hc : contains "customer" (strip raw_line) = true)
    by (apply (contains_trans "customer" "customer acquisition");
        [reflexivity|exact H]).
  assert (Hsales : any_in ["sales"; "revenue"; "pipeline"; "customer"] (strip raw_line)
                   = true).
  { unfold any_in. cbn [existsb]. rewrite Hc, !orb_true_r. reflexivity. }
  unfold parse_line. cbn [f_subject_area]. rewrite Hsales.
  destruct (any_in ["financial"; "finance"; "asset"; "revenue"; "profit"] _);
    [left|right]; reflexivity.
Qed.

Lemma customer_acquisition_is_never_marketing_witness :
  contains "customer acquisition" (strip "  customer acquisition campaign ") = true
  /\ (f_subject_area (parse_line (Fields "general analysis" [] "analysts" "medium")
                                 "  customer acquisition campaign ")
      = "financial analysis"
      \/ f_subject_area (parse_line (Fields "general analysis" [] "analysts" "medium")
                                    "  customer acquisition campaign ")
         = "sales performance").
Proof.
  split; [reflexivity|].
  apply (customer_acquisition_is_never_marketing
           (Fields "general analysis" [] "analysts" "medium")
           "  customer acquisition campaign ").
  reflexivity.
Defined.

End ContextMore.

Module QuickFacts.
Import Py PyFacts StrFacts Context Quick AnalyzerFacts AnalyzerMore.

Lemma lower_app (a b : string) : lower (a ++ b) = lower a ++ lower b.
Proof. induction a as [|c a IH]; cbn [append lower]; [reflexivity|]. now rewrite IH. Qed.

Lemma lower_join (sep : string) (parts : list string) :
  lower (join sep parts) = join (lower sep) (map lower parts).
Proof.
  induction parts as [|p parts IH]; [reflexivity|].
  destruct parts as [|q parts]; [reflexivity|].
  change (join sep (p :: q :: parts)) with (p ++ sep ++ join sep (q :: parts)).
  rewrite !lower_app, IH. reflexivity.
Qed.

(** A key word without the separator cannot start before it and end after. *)
Lemma prefix_up_to (sep : ascii) (keyword x b : string) :
  no_char sep keyword = true ->
  prefix keyword (x ++ String sep b) = prefix keyword x.
Proof.
  unfold no_char. revert x. induction keyword as [|k keyword IH]; intros x H.
  - rewrite !prefix_nil. reflexivity.
  - cbn [forallb_str] in H. apply andb_true_iff in H as [Hk H].
    apply negb_true_iff, Ascii.eqb_neq in Hk.
    destruct x as [|c x].
    + cbn [append]. rewrite prefix_cons_ne by exact Hk. reflexivity.
    + cbn [append prefix]. destruct (ascii_dec k c); [apply IH, H|reflexivity].
Qed.

Lemma contains_around (sep : ascii) (keyword a b : string) :
  no_char sep keyword = true -> keyword <> "" ->
  contains keyword (a ++ String sep b) = contains keyword a || contains keyword b.
Proof.
  intros Hsep Hne. induction a as [|c a IH].
  - cbn [append]. change (contains keyword (String sep b))
      with (prefix keyword (String sep b) || contains keyword b).
    pose proof (prefix_up_to sep keyword "" b Hsep) as Hp. cbn [append] in Hp.
    rewrite Hp. destruct keyword; [congruence|reflexivity].
  - change (String c a ++ String sep b) with (String c (a ++ String sep b)).
    cbn [contains]. rewrite IH.
    change (String c (a ++ String sep b)) with (String c a ++ String sep b).
    rewrite (prefix_up_to sep keyword (String c a) b Hsep).
    rewrite orb_assoc. reflexivity.
Qed.

Lemma contains_joined (keyword : string) (names : list string) :
  no_char " " keyword = true -> keyword <> "" ->
  contains keyword (join " " names) = existsb (contains keyword) names.
Proof.
  intros Hsep Hne. induction names as [|n names IH].
  - destruct keyword; [congruence|reflexivity].
  - destruct names as [|m names].
    + cbn [join existsb]. rewrite orb_false_r. reflexivity.
    + change (join " " (n :: m :: names)) with (n ++ String " " (join " " (m :: names))).
      rewrite contains_around by assumption. rewrite IH. reflexivity.
Qed.

Lemma named_in_combined (keyword : string) (dataset_names : list string) :
  no_char " " keyword = true -> keyword <> "" ->
  contains keyword (lower (join " " dataset_names)) = named keyword dataset_names.
Proof.
  intros Hsep Hne. rewrite lower_join.
  change (lower " ") with " ". rewrite contains_joined by assumption.
  unfold named. induction dataset_names as [|n names IH]; [reflexivity|].
  cbn [map existsb]. rewrite IH. reflexivity.
Qed.

Lemma named_same_set (keyword : string) (names names' : list string) :
  (forall name, In name names <-> In name names') ->
  named keyword names = named keyword names'.
Proof.
  intros H. unfold named. apply eq_true_iff_eq. rewrite !existsb_exists.
  split; intros [n [Hn Hc]]; exists n; (split; [apply H, Hn|exact Hc]).
Qed.

Lemma any_named_in_combined (keywords : list string) (dataset_names : list string) :
  Forall (fun keyword => no_char " " keyword = true /\ keyword <> "") keywords ->
  any_in keywords (lower (join " " dataset_names)) = any_named keywords dataset_names.
Proof.
  unfold any_in, any_named. induction 1 as [|k ks [Hsep Hne] _ IH]; [reflexivity|].
  cbn [existsb]. rewrite IH, named_in_combined by assumption. reflexivity.
Qed.

Lemma any_named_same_set (keywords : list string) (names names' : list string) :
  (forall name, In name names <-> In name names') ->
  any_named keywords names = any_named keywords names'.
Proof.
  intros H. unfold any_named. induction keywords as [|k ks IH]; [reflexivity|].
  cbn [existsb]. rewrite IH, (named_same_set k names names' H). reflexivity.
Qed.

Ltac plain_keywords := repeat constructor; discriminate.

(** X24: [_infer_subject_area] decides name by name: a key word counts
    when some dataset name holds it, in any case of letters, and it cannot
    sit across two names.  So the answer is one of five, the one of the
    first group with a key word in some name, and it does not depend on
    the order of the names nor on repeated names. *)
Theorem inferred_subject_ignores_order_and_repeats (names names' : list string) :
  (forall name, In name names <-> In name names') ->
  _infer_subject_area names = _infer_subject_area names'
  /\ In (_infer_subject_area names) inferred_subjects
  /\ _infer_subject_area names
     = if any_named ["stock"; "price"; "financial"; "revenue"; "profit"] names
       then "financial analysis"
       else if any_named ["sales"; "customer"; "marketing"; "campaign"] names
       then "sales and marketing analytics"
       else if any_named ["employee"; "hr"; "payroll"; "performance"] names
       then "human resources analytics"
       else if any_named ["inventory"; "supply"; "logistics"; "operations"] names
       then "operational analytics"
       else "general data analytics".
Proof.
  intros Hsame.
  assert (Hby : forall l,
            _infer_subject_area l
            = if any_named ["stock"; "price"; "financial"; "revenue"; "profit"] l
              then "financial analysis"
              else if any_named ["sales"; "customer"; "marketing"; "campaign"] l
              then "sales and marketing analytics"
              else if any_named ["employee"; "hr"; "payroll"; "performance"] l
              then "human resources analytics"
              else if any_named ["inventory"; "supply"; "logistics"; "operations"] l
              then "operational analytics"
              else "general data analytics").
  { intros l. unfold _infer_subject_area. cbv zeta.
    rewrite !any_named_in_combined by plain_keywords. reflexivity. }
  split; [|split; [|apply Hby]].
  - rewrite !Hby, !(any_named_same_set _ names names' Hsame). reflexivity.
  - rewrite Hby.
    repeat match goal with |- context [if ?b then _ else _] => destruct b end;
      cbn; auto 10.
Qed.

Lemma inferred_subject_ignores_order_and_repeats_witness :
  _infer_subject_area ["Sales_2024.csv"; "HR.csv"]
  = _infer_subject_area ["HR.csv"; "Sales_2024.csv"; "HR.csv"].
Proof.
  apply (inferred_subject_ignores_order_and_repeats
           ["Sales_2024.csv"; "HR.csv"] ["HR.csv"; "Sales_2024.csv"; "HR.csv"]).
  intros name. cbn [In]. tauto.
Defined.

Section QuickTemplates.

Variable default_dataset_background : string.
Variable default_time_sensitivity : string.

(** X25: when the user confirms the inferred subject, [get_quick_context]
    returns the financial, the human-resources or the operational template
    for the subject of the same name; for the two other subjects it can
    infer, sales and marketing analytics and general data analytics, no
    template matches and it builds the context from the user's answers. *)
Theorem confirmed_quick_context
    (dataset_names : list string) (confirm subject_input objective_input : string) :
  is_yes confirm = true ->
  let inferred := _infer_subject_area dataset_names in
  let result := get_quick_context default_dataset_background default_time_sensitivity
                  dataset_names confirm subject_input objective_input in
  (inferred = "financial analysis" ->
     Some result = template default_dataset_background "financial_analysis")
  /\ (inferred = "human resources analytics" ->
        Some result = template default_dataset_background "hr_analytics")
  /\ (inferred = "operational analytics" ->
        Some result = template default_dataset_background "operational_analytics")
  /\ (inferred = "sales and marketing analytics" \/ inferred = "general data analytics" ->
        result = custom_context default_time_sensitivity dataset_names inferred
                   subject_input objective_input)
  /\ In inferred inferred_subjects.
Proof.
  intros Hyes. cbv zeta. unfold get_quick_context. rewrite Hyes.
  repeat split.
  - intros ->. reflexivity.
  - intros ->. reflexivity.
  - intros ->. reflexivity.
  - intros [-> | ->]; reflexivity.
  - unfold _infer_subject_area. cbv zeta.
    repeat match goal with |- context [if ?b then _ else _] => destruct b end;
      cbn; auto 10.
Qed.

End QuickTemplates.

Lemma confirmed_quick_context_witness :
  is_yes " Y " = true
  /\ get_quick_context "" "medium" ["Sales_2024.csv"] " Y " "" "forecasting"
     = custom_context "medium" ["Sales_2024.csv"] "sales and marketing analytics"
                      "" "forecasting".
Proof.
  split; [reflexivity|].
  destruct (confirmed_quick_context "" "medium" ["Sales_2024.csv"] " Y " "" "forecasting"
              eq_refl) as [_ [_ [_ [H _]]]].
  apply H. left. reflexivity.
Defined.

(** X26: whatever the user types, the selection of enhanced questions is
    not empty and holds only the six known questions; when no number of
    the line is one of 1 to 6, it is the six of them. *)
Theorem enhanced_selection_is_never_empty (answer : string) :
  _get_custom_enhanced_selection answer <> []
  /\ Forall (fun question => In question all_questions)
            (_get_custom_enhanced_selection answer)
  /\ (Forall (fun num => question_map (strip num) = None) (split "," (strip answer)) ->
      _get_custom_enhanced_selection answer = all_questions).
Proof.
  assert (Hall : Forall (fun question => In question all_questions) all_questions).
  { apply Forall_forall. auto. }
  assert (Hsel : forall nums,
            Forall (fun question => In question all_questions)
              (flat_map (fun num => match question_map (strip num) with
                                    | Some question => [question]
                                    | None => []
                                    end) nums)).
  { induction nums as [|num nums IH]; [constructor|].
    cbn [flat_map]. apply Forall_app. split; [|exact IH].
    unfold question_map.
    repeat match goal with |- context [if ?b then _ else _] => destruct b end;
      first [apply Forall_nil
            |apply Forall_cons; [cbn; auto 10|apply Forall_nil]]. }
  unfold _get_custom_enhanced_selection. cbv zeta.
  destruct (is_empty (strip answer));
    [split; [discriminate|split; [exact Hall|reflexivity]]|].
  specialize (Hsel (split "," (strip answer))).
  destruct (flat_map _ (split "," (strip answer))) as [|q qs] eqn:E.
  - split; [discriminate|split; [exact Hall|reflexivity]].
  - split; [discriminate|split; [exact Hsel|]].
    intros Hnone. exfalso.
    assert (Hnil : flat_map (fun num => match question_map (strip num) with
                                        | Some question => [question]
                                        | None => []
                                        end) (split "," (strip answer)) = []).
    { clear E. induction Hnone as [|num nums Hnum _ IH]; [reflexivity|].
      cbn [flat_map]. rewrite Hnum, IH. reflexivity. }
    rewrite Hnil in E. discriminate.
Qed.

Lemma last_n_snoc {A : Type} (n : nat) (l : list A) (x : A) :
  0 < n ->
  exists kept, last_n n (l ++ [x]) = (kept ++ [x])%list
               /\ List.length kept < n
               /\ kept = last_n (n - 1) l.
Proof.
  intros Hn. unfold last_n. rewrite length_app. cbn [List.length].
  exists (skipn (List.length l + 1 - n) l). split; [|split].
  - rewrite skipn_app.
    replace (List.length l + 1 - n - List.length l) with 0 by lia. reflexivity.
  - rewrite length_skipn. lia.
  - f_equal. lia.
Qed.

(** X27: saving a context, on a file that is absent, unreadable as JSON
    or a list of saved contexts, and loading the most recent context gives
    the saved context back, and the file then holds at most ten contexts.
    The file is emptied when it is opened for writing: a save whose write
    is interrupted leaves a file from which nothing is loaded, and the
    next save that succeeds keeps its own context only, the ones saved
    before being lost. *)
Theorem saved_context_is_loaded_back
    (timestamp : string) (context : DatasetContext) (file : context_file) :
  file <> NotAList ->
  load_recent_context (_save_context Written timestamp context file) = Some context
  /\ (exists entries,
        _save_context Written timestamp context file = Saved entries
        /\ List.length entries <= 10)
  /\ load_recent_context (_save_context WriteInterrupted timestamp context file) = None
  /\ forall later newer,
       _save_context Written later newer
         (_save_context WriteInterrupted timestamp context file)
       = Saved [(newer, later)].
Proof.
  intros Hlist.
  assert (H : forall old,
            load_recent_context (Saved (last_n 10 (old ++ [(context, timestamp)])))
            = Some context
            /\ List.length (last_n 10 (old ++ [(context, timestamp)])) <= 10).
  { intros old.
    destruct (last_n_snoc 10 old (context, timestamp)) as [kept [-> [Hlen _]]]; [lia|].
    split; [|rewrite length_app; cbn [List.length]; lia].
    cbn [load_recent_context].
    destruct (kept ++ [(context, timestamp)])%list eqn:E;
      [destruct kept; discriminate|]. rewrite <- E.
    rewrite length_app, nth_error_app2 by (cbn [List.length]; lia).
    replace (List.length kept + List.length [(context, timestamp)] - 1 - List.length kept)
      with 0 by (cbn [List.length]; lia).
    reflexivity. }
  destruct file as [| | |old]; [| |congruence|]; cbn [_save_context];
    (split; [apply H|split; [eexists; split; [reflexivity|apply H]|]]);
    split; reflexivity.
Qed.

Lemma saved_context_is_loaded_back_witness :
  load_recent_context (_save_context Written "2024-05-01T10:00:00" Scenarios.context Garbled)
  = Some Scenarios.context.
Proof.
  apply (saved_context_is_loaded_back "2024-05-01T10:00:00" Scenarios.context Garbled).
  discriminate.
Defined.

End QuickFacts.

(* ===================================================================== *)
(** * The questions [main] asks *)
(* ===================================================================== *)

Module PromptsFacts.
Import Py Quick Prompts.

Section Answers.

Variable int_of_str : string -> option Z.

(** What a count that was accepted went through. *)
Lemma individual_count_spec (n : nat) :
  forall answers individual_count rest,
    List.length answers <= n ->
    ask_individual_count int_of_str answers = Some (individual_count, rest) ->
    (1 <= individual_count)%Z
    /\ (exists used, answers = (used ++ rest)%list /\ 1 <= List.length used)
    /\ ((50 < individual_count)%Z -> exists y, In y answers /\ is_yes y = true).
Proof.
  induction n as [|n IH]; intros answers i rest Hlen H.
  { destruct answers; [discriminate|cbn in Hlen; lia]. }
  destruct answers as [|a answers]; [discriminate|].
  cbn [List.length] in Hlen. cbn [ask_individual_count] in H.
  assert (Hskip : ask_individual_count int_of_str answers = Some (i, rest) ->
                  (1 <= i)%Z
                  /\ (exists used, (a :: answers) = (used ++ rest)%list
                                   /\ 1 <= List.length used)
                  /\ ((50 < i)%Z -> exists y, In y (a :: answers) /\ is_yes y = true)).
  { intros H'. destruct (IH answers i rest ltac:(lia) H') as [Hi [[used [-> Hu]] Hy]].
    split; [exact Hi|split].
    - exists (a :: used). split; [reflexivity|cbn; lia].
    - intros Hbig. destruct (Hy Hbig) as [y [Hin Hyes]].
      exists y. split; [right; exact Hin|exact Hyes]. }
  destruct (int_of_str (strip a)) as [count|]; [|exact (Hskip H)].
  destruct (count <? 1)%Z eqn:E1; [exact (Hskip H)|]. apply Z.ltb_ge in E1.
  destruct (50 <? count)%Z eqn:E50.
  - destruct answers as [|confirm answers]; [discriminate|].
    destruct (is_yes confirm) eqn:Eyes.
    + injection H as <- <-. split; [exact E1|split].
      * exists [a; confirm]. split; [reflexivity|cbn; lia].
      * intros _. exists confirm. split; [right; left; reflexivity|exact Eyes].
    + cbn [List.length] in Hlen.
      destruct (IH answers i rest ltac:(lia) H) as [Hi [[used [-> Hu]] Hy]].
      split; [exact Hi|split].
      * exists (a :: confirm :: used). split; [reflexivity|cbn; lia].
      * intros Hbig. destruct (Hy Hbig) as [y [Hin Hyes]].
        exists y. split; [right; right; exact Hin|exact Hyes].
  - injection H as <- <-. apply Z.ltb_ge in E50. split; [exact E1|split].
    + exists [a]. split; [reflexivity|cbn; lia].
    + intros Hbig. lia.
Qed.

Lemma comparison_count_spec (n : nat) :
  forall answers comparison_count rest,
    List.length answers <= n ->
    ask_comparison_count int_of_str answers = Some (comparison_count, rest) ->
    (0 <= comparison_count)%Z
    /\ (exists used, answers = (used ++ rest)%list /\ 1 <= List.length used)
    /\ ((30 < comparison_count)%Z -> exists y, In y answers /\ is_yes y = true).
Proof.
  induction n as [|n IH]; intros answers c rest Hlen H.
  { destruct answers; [discriminate|cbn in Hlen; lia]. }
  destruct answers as [|a answers]; [discriminate|].
  cbn [List.length] in Hlen. cbn [ask_comparison_count] in H. cbv zeta in H.
  assert (Hskip : ask_comparison_count int_of_str answers = Some (c, rest) ->
                  (0 <= c)%Z
                  /\ (exists used, (a :: answers) = (used ++ rest)%list
                                   /\ 1 <= List.length used)
                  /\ ((30 < c)%Z -> exists y, In y (a :: answers) /\ is_yes y = true)).
  { intros H'. destruct (IH answers c rest ltac:(lia) H') as [Hc [[used [-> Hu]] Hy]].
    split; [exact Hc|split].
    - exists (a :: used). split; [reflexivity|cbn; lia].
    - intros Hbig. destruct (Hy Hbig) as [y [Hin Hyes]].
      exists y. split; [right; exact Hin|exact Hyes]. }
  destruct (is_empty (strip a)).
  { injection H as <- <-. split; [lia|split].
    - exists [a]. split; [reflexivity|cbn; lia].
    - intros Hbig. lia. }
  destruct (int_of_str (strip a)) as [count|]; [|exact (Hskip H)].
  destruct (count <? 0)%Z eqn:E0; [exact (Hskip H)|]. apply Z.ltb_ge in E0.
  destruct (count =? 0)%Z eqn:Ez.
  { injection H as <- <-. split; [exact E0|split].
    - exists [a]. split; [reflexivity|cbn; lia].
    - intros Hbig. apply Z.eqb_eq in Ez. lia. }
  destruct (30 <? count)%Z eqn:E30.
  - destruct answers as [|confirm answers]; [discriminate|].
    destruct (is_yes confirm) eqn:Eyes.
    + injection H as <- <-. split; [exact E0|split].
      * exists [a; confirm]. split; [reflexivity|cbn; lia].
      * intros _. exists confirm. split; [right; left; reflexivity|exact Eyes].
    + cbn [List.length] in Hlen.
      destruct (IH answers c rest ltac:(lia) H) as [Hc [[used [-> Hu]] Hy]].
      split; [exact Hc|split].
      * exists (a :: confirm :: used). split; [reflexivity|cbn; lia].
      * intros Hbig. destruct (Hy Hbig) as [y [Hin Hyes]].
        exists y. split; [right; right; exact Hin|exact Hyes].
  - injection H as <- <-. apply Z.ltb_ge in E30. split; [exact E0|split].
    + exists [a]. split; [reflexivity|cbn; lia].
    + intros Hbig. lia.
Qed.

(** X28: the counts [get_question_count_preferences] returns are
    validated: at least one question per dataset, no negative number of
    comparison questions, and a count above 50, or above 30 for the
    comparison, only after the user typed a yes.  At least two lines were
    read. *)
Theorem question_counts_are_validated
    (recommended : Z) (answers : list string)
    (individual_count comparison_count : Z) (rest : list string) :
  get_question_count_preferences int_of_str recommended answers
  = Some ((individual_count, comparison_count), rest) ->
  (1 <= individual_count)%Z
  /\ (0 <= comparison_count)%Z
  /\ ((50 < individual_count)%Z \/ (30 < comparison_count)%Z ->
      exists y, In y answers /\ is_yes y = true)
  /\ exists used, answers = (used ++ rest)%list /\ 2 <= List.length used.
Proof.
  unfold get_question_count_preferences. intros H.
  destruct (ask_individual_count int_of_str answers) as [[i rest1]|] eqn:Ei;
    [|discriminate].
  destruct (ask_comparison_count int_of_str rest1) as [[c rest2]|] eqn:Ec;
    [|discriminate].
  injection H as <- <- <-.
  destruct (individual_count_spec _ _ _ _ (Nat.le_refl _) Ei)
    as [Hi [[used1 [-> Hu1]] Hy1]].
  destruct (comparison_count_spec _ _ _ _ (Nat.le_refl _) Ec)
    as [Hc [[used2 [-> Hu2]] Hy2]].
  split; [exact Hi|split; [exact Hc|split]].
  - intros [Hbig|Hbig].
    + exact (Hy1 Hbig).
    + destruct (Hy2 Hbig) as [y [Hin Hyes]]. exists y.
      split; [apply in_or_app; right; exact Hin|exact Hyes].
  - exists (used1 ++ used2)%list. split; [apply app_assoc|].
    rewrite length_app. lia.
Qed.

Lemma number_of_files_spec (answers : list string) (num_files : Z) (rest : list string) :
  ask_number_of_files int_of_str answers = Some (num_files, rest) ->
  (0 <= num_files)%Z /\ incl rest answers.
Proof.
  induction answers as [|a answers IH]; [discriminate|]. cbn [ask_number_of_files].
  destruct (int_of_str (strip a)) as [k|].
  - destruct (0 <=? k)%Z eqn:E.
    + intros H. injection H as <- <-. split; [apply Z.leb_le, E|].
      intros x Hx. right. exact Hx.
    + intros H. destruct (IH H) as [Hn Hincl]. split; [exact Hn|].
      intros x Hx. right. exact (Hincl x Hx).
  - intros H. destruct (IH H) as [Hn Hincl]. split; [exact Hn|].
    intros x Hx. right. exact (Hincl x Hx).
Qed.

Lemma file_path_spec (answers : list string) (file_path : string) (rest : list string) :
  ask_file_path answers = Some (file_path, rest) ->
  file_path <> "" /\ (exists a, In a answers /\ file_path = strip a) /\ incl rest answers.
Proof.
  induction answers as [|a answers IH]; [discriminate|]. cbn [ask_file_path]. cbv zeta.
  destruct (truthy (strip a)) eqn:E.
  - intros H. injection H as <- <-. split; [|split].
    + destruct (strip a); [discriminate|discriminate].
    + exists a. split; [left; reflexivity|reflexivity].
    + intros x Hx. right. exact Hx.
  - intros H. destruct (IH H) as [Hne [[b [Hb Hp]] Hincl]]. split; [exact Hne|split].
    + exists b. split; [right; exact Hb|exact Hp].
    + intros x Hx. right. exact (Hincl x Hx).
Qed.

Lemma file_paths_spec (num_files : nat) :
  forall answers file_paths,
    ask_file_paths num_files answers = Some file_paths ->
    List.length file_paths = num_files
    /\ Forall (fun p => p <> "" /\ exists a, In a answers /\ p = strip a) file_paths.
Proof.
  induction num_files as [|k IH]; intros answers file_paths H; cbn [ask_file_paths] in H.
  - injection H as <-. split; [reflexivity|constructor].
  - destruct (ask_file_path answers) as [[p rest]|] eqn:Ep; [|discriminate].
    destruct (ask_file_paths k rest) as [ps|] eqn:Eps; [|discriminate].
    injection H as <-.
    destruct (file_path_spec _ _ _ Ep) as [Hne [Hfrom Hincl]].
    destruct (IH _ _ Eps) as [Hlen Hall].
    split; [cbn; lia|]. constructor; [split; assumption|].
    eapply Forall_impl; [|exact Hall].
    intros q [Hq [a [Ha Hqa]]]. split; [exact Hq|].
    exists a. split; [apply Hincl, Ha|exact Hqa].
Qed.

(** X29: [get_user_input_file_paths] returns all the paths it asked for
    or none: either the empty list, or as many paths as the number the user
    gave, each of them a non-empty answer of the user without its
    surrounding whitespace. *)
Theorem file_paths_are_all_or_nothing (answers : list string) :
  let file_paths := get_user_input_file_paths int_of_str answers in
  Forall (fun p => p <> "" /\ exists a, In a answers /\ p = strip a) file_paths
  /\ (file_paths = []
      \/ exists num_files rest,
           ask_number_of_files int_of_str answers = Some (num_files, rest)
           /\ Z.of_nat (List.length file_paths) = num_files).
Proof.
  cbv zeta. unfold get_user_input_file_paths.
  destruct (ask_number_of_files int_of_str answers) as [[n rest]|] eqn:En;
    [|split; [constructor|left; reflexivity]].
  destruct (number_of_files_spec _ _ _ En) as [Hn Hincl].
  destruct (n =? 0)%Z; [split; [constructor|left; reflexivity]|].
  destruct (ask_file_paths (Z.to_nat n) rest) as [ps|] eqn:Eps;
    [|split; [constructor|left; reflexivity]].
  destruct (file_paths_spec _ _ _ Eps) as [Hlen Hall]. split.
  - eapply Forall_impl; [|exact Hall].
    intros q [Hq [a [Ha Hqa]]]. split; [exact Hq|].
    exists a. split; [apply Hincl, Ha|exact Hqa].
  - right. exists n, rest. split; [reflexivity|]. rewrite Hlen. lia.
Qed.

End Answers.

Lemma question_counts_are_validated_witness :
  get_question_count_preferences py_int 20 ["abc"; "0"; "75"; "n"; " 12 "; ""; "left"]
  = Some ((12%Z, 15%Z), ["left"])
  /\ (1 <= 12)%Z /\ (0 <= 15)%Z.
Proof.
  split; [reflexivity|].
  destruct (question_counts_are_validated py_int 20
              ["abc"; "0"; "75"; "n"; " 12 "; ""; "left"] 12 15 ["left"] eq_refl)
    as [Hi [Hc _]].
  split; [exact Hi|exact Hc].
Defined.

End PromptsFacts.

(* ===================================================================== *)
(** * The formatter on its own output *)
(* ===================================================================== *)

Module FormatterMore.
Import Py PyFacts StrFacts Normalizer Formatter FormatterFacts LoaderFacts
       NormalizerMore Printed.

Lemma rstrip_of_stripped (q : string) : strip q = q -> rstrip q = q.
Proof.
  intros H. rewrite <- H at 1. unfold strip. rewrite rstrip_idempotent. exact H.
Qed.

Lemma rstrip_app_kept (a b : string) :
  rstrip b = b -> b <> "" -> rstrip (a ++ b) = a ++ b.
Proof.
  intros Hb Hne. induction a as [|c a IH]; [exact Hb|].
  cbn [append rstrip]. rewrite IH.
  destruct (a ++ b) eqn:E; [|reflexivity].
  destruct a; [cbn in E; congruence|discriminate].
Qed.

Lemma decimal_lower_not_e (c : ascii) : isdecimal c = true -> lower_char c <> "e"%char.
Proof. by_cases_on_char c. Qed.

Lemma decimal_not_LF (c : ascii) : isdecimal c = true -> negb (Ascii.eqb c LF) = true.
Proof. by_cases_on_char c. Qed.

Lemma decimal_one_line (ds : string) : decimal ds -> no_char LF ds = true.
Proof.
  unfold decimal, no_char. apply forallb_str_impl. exact decimal_not_LF.
Qed.

(** A line that opens with a digit and closes a printed question. *)
Lemma numbered_line (ds q : string) :
  decimal ds -> ds <> "" -> printed_question q ->
  let line := ds ++ ". " ++ q in
  rstrip line = line /\ line <> "" /\ no_char LF line = true
  /\ is_empty (strip line) = false
  /\ exists d rest, line = String d rest /\ isdecimal d = true.
Proof.
  intros Hds Hne [Hq [Hstrip Hlf]]. cbv zeta.
  assert (Hhead : exists d rest, ds ++ ". " ++ q = String d rest /\ isdecimal d = true).
  { destruct ds as [|d ds]; [congruence|]. exists d, (ds ++ ". " ++ q).
    split; [reflexivity|]. unfold decimal in Hds. cbn in Hds.
    now apply andb_true_iff in Hds as [Hd _]. }
  assert (Hr : rstrip (ds ++ ". " ++ q) = ds ++ ". " ++ q).
  { rewrite <- !append_assoc. apply rstrip_app_kept; [apply rstrip_of_stripped, Hstrip|exact Hq]. }
  split; [exact Hr|]. destruct Hhead as [d [rest [E Hd]]].
  split; [rewrite E; discriminate|]. split.
  - unfold no_char in *. rewrite !forallb_str_app, Hlf.
    fold (no_char LF ds). rewrite (decimal_one_line _ Hds). reflexivity.
  - split; [|exists d, rest; split; assumption].
    unfold strip, lstrip. rewrite E. cbn [drop_while].
    rewrite (decimal_not_space _ Hd). rewrite <- E, Hr, E. reflexivity.
Qed.

Lemma numbered_lines (qs : list string) (i : nat) :
  Forall printed_question qs ->
  Forall (fun line => no_char LF line = true /\ is_empty (strip line) = false)
         (number_from i qs)
  /\ map format_question (number_from i qs) = qs.
Proof.
  intros H. revert i. induction H as [|q qs Hq _ IH]; intros i.
  - split; [constructor|reflexivity].
  - cbn [number_from map].
    destruct (numbered_line (str_of_nat i) q (str_of_nat_decimal i)
                (str_of_nat_not_empty i) Hq) as [_ [_ [Hlf [Hblank _]]]].
    destruct (IH (S i)) as [Hall Hmap]. split.
    + constructor; [split; assumption|exact Hall].
    + rewrite Hmap, format_question_numbered
        by (apply str_of_nat_decimal || apply str_of_nat_not_empty).
      destruct Hq as [_ [-> _]]. reflexivity.
Qed.

(** The text made of the numbered lines loses nothing to [strip]. *)
Lemma numbered_block_stripped (qs : list string) (i : nat) :
  Forall printed_question qs -> qs <> [] ->
  let block := join nl (number_from i qs) in
  rstrip block = block /\ block <> ""
  /\ exists d rest, block = String d rest /\ isdecimal d = true.
Proof.
  intros H. revert i. induction H as [|q qs Hq Hqs IH]; intros i Hne; [congruence|].
  cbv zeta.
  destruct (numbered_line (str_of_nat i) q (str_of_nat_decimal i)
              (str_of_nat_not_empty i) Hq) as [Hr [Hline [_ [_ Hhead]]]].
  cbv zeta in Hr, Hline, Hhead.
  destruct qs as [|q' qs'].
  - cbn [number_from join]. split; [exact Hr|split; [exact Hline|exact Hhead]].
  - destruct (IH (S i) ltac:(discriminate)) as [Hb [Hbne _]]. cbv zeta in Hb, Hbne.
    change (join nl (number_from i (q :: q' :: qs')))
      with ((str_of_nat i ++ ". " ++ q) ++ nl ++ join nl (number_from (S i) (q' :: qs'))).
    split; [|split].
    + rewrite <- append_assoc. apply rstrip_app_kept; assumption.
    + destruct Hhead as [d [rest [-> _]]]. discriminate.
    + destruct Hhead as [d [rest [-> Hd]]]. eexists d, _. split; [reflexivity|exact Hd].
Qed.

(** X30: the block of numbered questions [format_output_final] prints
    for a task, given back to it as the content of that task, is printed
    again as it is: the numbers it wrote are the ones it takes off. *)
Theorem formatter_reprints_its_own_block (header : string) (qs : list string) :
  qs <> [] ->
  Forall printed_question qs ->
  Forall (fun line => contains (strip header) line = false) (number_from 1 qs) ->
  format_task_result header (join nl (number_from 1 qs))
  = (nl ++ strip header) :: number_from 1 qs.
Proof.
  intros Hne Hqs Hheader.
  destruct (numbered_block_stripped qs 1 Hqs Hne) as [Hr [_ [d [rest [Hblock Hd]]]]].
  cbv zeta in Hr, Hblock.
  destruct (numbered_lines qs 1 Hqs) as [Hlines Hmap].
  assert (Hstrip : strip (join nl (number_from 1 qs)) = join nl (number_from 1 qs)).
  { unfold strip, lstrip. rewrite Hblock. cbn [drop_while].
    rewrite (decimal_not_space _ Hd), <- Hblock. exact Hr. }
  unfold format_task_result. rewrite Hstrip.
  assert (Herr : startswith (lower (join nl (number_from 1 qs))) "error executing task"
                 = false).
  { rewrite Hblock. unfold startswith. cbn [lower].
    apply prefix_cons_ne. intros E. symmetry in E. exact (decimal_lower_not_e _ Hd E). }
  rewrite Herr. unfold formatted_questions, cleaned_lines.
  unfold nl at 2. rewrite split_join.
  - assert (Hkeep : filter (fun line => negb (contains (strip header) line)
                                        && negb (is_empty (strip line)))
                           (number_from 1 qs) = number_from 1 qs).
    { clear -Hheader Hlines. induction (number_from 1 qs) as [|l ls IH]; [reflexivity|].
      inversion Hheader as [|? ? Hl Hls]; subst.
      inversion Hlines as [|? ? [_ Hb] Hbs]; subst.
      cbn [filter]. rewrite Hl, Hb. cbn [negb andb]. f_equal. apply IH; assumption. }
    rewrite Hkeep, Hmap. destruct qs; [congruence|reflexivity].
  - destruct qs; [congruence|discriminate].
  - eapply Forall_impl; [|exact Hlines]. intros l [H _]. exact H.
Qed.

Lemma formatter_reprints_its_own_block_witness :
  format_task_result Scenarios.header
    (join nl (number_from 1 ["What changed?"; "Why did it change?"]))
  = (nl ++ strip Scenarios.header)
      :: number_from 1 ["What changed?"; "Why did it change?"].
Proof.
  apply (formatter_reprints_its_own_block Scenarios.header
           ["What changed?"; "Why did it change?"]).
  - discriminate.
  - repeat constructor; discriminate.
  - repeat constructor.
Defined.

End FormatterMore.
